(** * RTanks ratings scraper: the cache and the two HTML extractors

    A shallow embedding of [src/scraper.py] (class [RTanksScraper]) and of
    its older twin [src/unnamed/part_000], with the properties the
    specification states about them.

    Layout:
    - [Runtime]: what the code takes from Python and bs4 (the Unicode
      tables, [str.lower], [float()], the HTML parser);
    - [PyStr]: Python [str] values as lists of code points, and the [str]
      methods, the [re] patterns and the [int()] conversion the scraper uses;
    - [Soup]: the BeautifulSoup tree and the queries the scraper makes;
    - [Scraper]: the methods of [src/scraper.py];
    - [Part000]: the leaderboard parser of [src/unnamed/part_000];
    - [Sample]: a runtime and a few pages to compute with;
    - [Rows], [AsStated]: the vocabulary of the statements;
    - the properties: cache, leaderboard, the two parsers, profile. *)

From Stdlib Require Import ZArith NArith QArith List Ascii String Bool Lia Lqa.
From Stdlib Require Import Sorted Permutation.
From stdpp Require Import gmap.
Import ListNotations.

Set Warnings "-register-all".
Local Open Scope N_scope.
Local Open Scope list_scope.

(** ** Python values *)

(** A Python [str] is a sequence of Unicode code points. *)
Definition str := list N.

(** Exceptions that can reach the [except Exception] handlers. *)
Inductive exn : Type :=
| ValueError (literal : str)      (* int(): invalid literal for int() *)
| ParserError (markup : str).     (* raised by BeautifulSoup(...) itself *)

(** The outcome of a [try] body: a value, or a raised exception. *)
Inductive result (A : Type) : Type :=
| Ok (a : A)
| Raise (e : exn).
Arguments Ok {A} a.
Arguments Raise {A} e.

(** Sequencing inside a [try] body: the first exception ends it. *)
Global Instance result_ret : MRet result := fun _ a => Ok a.
Global Instance result_bind : MBind result := fun _ _ f m =>
  match m with
  | Ok a => f a
  | Raise e => Raise e
  end.

(** [for x in xs: acc = body(acc, x)], where the body may raise. *)
Fixpoint for_each {A S} (body : S -> A -> result S) (xs : list A) (acc : S)
  : result S :=
  match xs with
  | [] => Ok acc
  | x :: rest => acc' ← body acc x; for_each body rest acc'
  end.

(** A Python [float], kept as the literal [float()] read it from: the
    scraper stores it and does no arithmetic on it. *)
Inductive pyfloat : Type :=
| FloatOf (literal : str).

(** A node of a BeautifulSoup tree.  [NavigableString plain s] is a string
    of the document; [plain] is false for the subclasses get_text() skips
    (comments, doctype, declarations, script and style contents).
    [Tag name attrs contents] is an element; the BeautifulSoup object is
    itself a [Tag], named "[document]". *)
Inductive node : Type :=
| NavigableString (plain : bool) (s : str)
| Tag (name : str) (attrs : list (str * str)) (contents : list node).

(** What the scraper takes from the Python runtime and from bs4 rather than
    defining itself: the Unicode character database outside ASCII,
    [str.lower], the digit limit of [int()], [float()] and the HTML parser. *)
Record Runtime : Type := {
  ucd_isspace : N -> bool;             (* Py_UNICODE_ISSPACE, code points >= 128 *)
  ucd_decimal : N -> option N;         (* Py_UNICODE_TODECIMAL *)
  ucd_isdigit : N -> bool;             (* Py_UNICODE_ISDIGIT *)
  ucd_isalnum : N -> bool;             (* Py_UNICODE_ISALNUM *)
  str_lower : str -> str;              (* str.lower() *)
  int_max_str_digits : option nat;     (* sys.get_int_max_str_digits(), None: no limit *)
  float_accepts : str -> bool;         (* float(s) returns; false: ValueError *)
  BeautifulSoup : str -> result node   (* BeautifulSoup(html, 'html.parser') *)
}.

(** ** Strings *)

Module PyStr.

(** Code points of a UTF-8 encoded literal, so that literals can be written
    as they are in the source. *)
Fixpoint utf8_decode (bs : list N) : str :=
  match bs with
  | [] => []
  | b0 :: r0 =>
    if b0 <? 128 then b0 :: utf8_decode r0
    else match r0 with
    | [] => []
    | b1 :: r1 =>
      if b0 <? 224 then ((b0 - 192) * 64 + (b1 - 128)) :: utf8_decode r1
      else match r1 with
      | [] => []
      | b2 :: r2 =>
        if b0 <? 240
        then ((b0 - 224) * 4096 + (b1 - 128) * 64 + (b2 - 128)) :: utf8_decode r2
        else match r2 with
        | [] => []
        | b3 :: r3 =>
          ((b0 - 240) * 262144 + (b1 - 128) * 4096 + (b2 - 128) * 64 + (b3 - 128))
            :: utf8_decode r3
        end
      end
    end
  end.

Fixpoint bytes_of (s : string) : list N :=
  match s with
  | EmptyString => []
  | String a r => N_of_ascii a :: bytes_of r
  end.

Definition u (s : string) : str := utf8_decode (bytes_of s).
Global Arguments u : simpl never.

(** [sub in s] *)
Fixpoint startswith (pre s : str) : bool :=
  match pre, s with
  | [], _ => true
  | _ :: _, [] => false
  | a :: pre', b :: s' => (a =? b) && startswith pre' s'
  end.

Fixpoint contains (sub s : str) : bool :=
  startswith sub s ||
  match s with
  | [] => false
  | _ :: s' => contains sub s'
  end.

Fixpoint drop_while (p : N -> bool) (s : str) : str :=
  match s with
  | [] => []
  | c :: r => if p c then drop_while p r else s
  end.

Fixpoint take_while (p : N -> bool) (s : str) : str :=
  match s with
  | [] => []
  | c :: r => if p c then c :: take_while p r else []
  end.

Definition strip_with (p : N -> bool) (s : str) : str :=
  rev (drop_while p (rev (drop_while p s))).

(** [s.replace(' ', '')] *)
Definition replace_space (s : str) : str :=
  List.filter (fun c => negb (c =? 32)) s.

(** [s.split('/')[0]] *)
Definition split_slash_0 (s : str) : str :=
  take_while (fun c => negb (c =? 47)) s.

Definition in_range (lo hi c : N) : bool := (lo <=? c) && (c <=? hi).

Section WithRuntime.
Context (R : Runtime).

(** [str.isspace] of one character, also the class [\s] of [re]. *)
Definition isspace (c : N) : bool :=
  if c <? 128 then in_range 9 13 c || in_range 28 32 c else ucd_isspace R c.

(** Decimal value of a character of category Nd, the class [\d] of [re]. *)
Definition decimal (c : N) : option N :=
  if c <? 128 then (if in_range 48 57 c then Some (c - 48) else None)
  else ucd_decimal R c.

Definition isdecimal (c : N) : bool :=
  match decimal c with Some _ => true | None => false end.

(** [str.isdigit] of one character: wider than [\d] outside ASCII
    (superscripts, circled digits, ...). *)
Definition isdigit_char (c : N) : bool :=
  if c <? 128 then in_range 48 57 c else ucd_isdigit R c.

(** The class [\w] of [re]: alphanumeric or underscore. *)
Definition isword (c : N) : bool :=
  (if c <? 128
   then in_range 48 57 c || in_range 65 90 c || in_range 97 122 c
   else ucd_isalnum R c)
  || (c =? 95).

(** [s.isdigit()] *)
Definition isdigit (s : str) : bool :=
  match s with
  | [] => false
  | _ => forallb isdigit_char s
  end.

(** [s.strip()] *)
Definition strip (s : str) : str := strip_with isspace s.

(** [s.lower()] *)
Definition lower (s : str) : str := str_lower R s.

(** [re.sub(r'^[\d\s]+', '', s)] *)
Definition sub_leading_digits_spaces (s : str) : str :=
  drop_while (fun c => isdecimal c || isspace c) s.

(** [re.sub(r'^\W+', '', s)] *)
Definition sub_leading_nonword (s : str) : str :=
  drop_while (fun c => negb (isword c)) s.

(** [re.sub(r'[^\d\s]', '', s)] *)
Definition sub_keep_digits_spaces (s : str) : str :=
  List.filter (fun c => isdecimal c || isspace c) s.

(** *** [int(s)]

    CPython first maps every non-ASCII whitespace character to a space and
    every non-ASCII decimal digit to its ASCII digit, then reads: optional
    surrounding whitespace (the C set: tab..CR and space), an optional sign,
    and digits optionally separated by single underscores.  A literal of
    more than 640 digits is rejected when it has more digits than
    [int_max_str_digits].  [None] is ValueError. *)
Definition int_isspace (c : N) : bool :=
  if c <? 128 then in_range 9 13 c || (c =? 32) else ucd_isspace R c.

Fixpoint int_digits (after_digit : bool) (s : str) : option (list N) :=
  match s with
  | [] => if after_digit then Some [] else None
  | c :: r =>
    if c =? 95 then (if after_digit then int_digits false r else None)
    else match decimal c with
         | Some d => option_map (cons d) (int_digits true r)
         | None => None
         end
  end.

Definition digits_value (ds : list N) : N :=
  fold_left (fun acc d => 10 * acc + d) ds 0.

Definition within_digit_limit (ds : list N) : bool :=
  match int_max_str_digits R with
  | None => true
  | Some limit => (length ds <=? 640)%nat || (length ds <=? limit)%nat
  end.

Definition int_unsigned (body : str) : option N :=
  match int_digits false body with
  | Some ds => if within_digit_limit ds then Some (digits_value ds) else None
  | None => None
  end.

Definition py_int (s : str) : option Z :=
  match strip_with int_isspace s with
  | [] => None
  | c :: body =>
    if c =? 45 then option_map (fun n => (- Z.of_N n)%Z) (int_unsigned body)
    else if c =? 43 then option_map Z.of_N (int_unsigned body)
    else option_map Z.of_N (int_unsigned (c :: body))
  end.

(** [int(s)] as an expression of a [try] body. *)
Definition int_ (s : str) : result Z :=
  match py_int s with
  | Some z => Ok z
  | None => Raise (ValueError s)
  end.

End WithRuntime.
End PyStr.

(** ** The BeautifulSoup tree *)

Module Soup.
Import PyStr.

Fixpoint eqb_str (a b : str) : bool :=
  match a, b with
  | [], [] => true
  | x :: a', y :: b' => (x =? y) && eqb_str a' b'
  | _, _ => false
  end.

(** [tag.descendants]: every node below [n], in document order. *)
Fixpoint descendants (n : node) : list node :=
  match n with
  | NavigableString _ _ => []
  | Tag _ _ contents =>
    (fix below (l : list node) : list node :=
       match l with
       | [] => []
       | c :: rest => c :: descendants c ++ below rest
       end) contents
  end.

Definition is_tag_named (name : str) (n : node) : bool :=
  match n with
  | Tag nm _ _ => eqb_str nm name
  | NavigableString _ _ => false
  end.

(** [tag.find_all(name)] *)
Definition find_all (name : str) (n : node) : list node :=
  List.filter (is_tag_named name) (descendants n).

(** [tag.find(name)] *)
Definition find (name : str) (n : node) : option node :=
  head (find_all name n).

(** [tag.attrs]: a dict, one value per attribute name. *)
Definition attrs_of (n : node) : list (str * str) :=
  match n with
  | Tag _ attrs _ => attrs
  | NavigableString _ _ => []
  end.

Fixpoint assoc (key : str) (d : list (str * str)) : option str :=
  match d with
  | [] => None
  | (k, v) :: rest => if eqb_str k key then Some v else assoc key rest
  end.

(** [tag.get(key, '')] *)
Definition get_or_empty (key : str) (n : node) : str :=
  match assoc key (attrs_of n) with
  | Some v => v
  | None => []
  end.

(** [tag.string]: the single string below a chain of only children. *)
Fixpoint string_of (n : node) : option str :=
  match n with
  | NavigableString _ s => Some s
  | Tag _ _ [c] => string_of c
  | Tag _ _ _ => None
  end.

Definition tag_string (n : node) : option str :=
  match n with
  | NavigableString _ _ => None
  | Tag _ _ _ => string_of n
  end.

(** Every string of the document below [n], of any kind. *)
Definition all_strings (n : node) : list str :=
  flat_map (fun d => match d with
                     | NavigableString _ s => [s]
                     | Tag _ _ _ => []
                     end) (descendants n).

(** The strings get_text() sees. *)
Definition text_strings (n : node) : list str :=
  flat_map (fun d => match d with
                     | NavigableString true s => [s]
                     | _ => []
                     end) (descendants n).

Definition nonempty (s : str) : bool :=
  match s with [] => false | _ :: _ => true end.

Section WithRuntime.
Context (R : Runtime).

(** [tag.get_text(strip=True)]: each string stripped, the empty ones
    dropped, the rest joined without a separator. *)
Definition get_text_strip (n : node) : str :=
  concat (List.filter nonempty (map (strip R) (text_strings n))).

(** The value of a [class] attribute is kept as its whitespace-separated
    tokens. *)
Fixpoint tokens_from (cur : str) (s : str) : list str :=
  match s with
  | [] => match cur with [] => [] | _ => [rev cur] end
  | c :: r =>
    if isspace R c
    then match cur with [] => tokens_from [] r | _ => rev cur :: tokens_from [] r end
    else tokens_from (c :: cur) r
  end.

Definition class_tokens (n : node) : list str :=
  match assoc (u "class") (attrs_of n) with
  | Some v => tokens_from [] v
  | None => []
  end.

(** [tag.find_all(name, class_=p)] for a predicate on one class token. *)
Definition find_all_class (name : str) (p : str -> bool) (n : node) : list node :=
  List.filter (fun d => is_tag_named name d && existsb p (class_tokens d))
              (descendants n).

End WithRuntime.
End Soup.

(** ** The records the extractors build *)

(** One leaderboard row: the dict appended to [players]. *)
Module Entry.
Record t : Type := {
  rank : Z;
  name : str;
  value : Z;
  formatted_value : str
}.
End Entry.

(** One player: the dict [player_data]. *)
Module Player.
Record equipment_t : Type := {
  turrets : list str;
  hulls : list str;
  paints : list str;
  modules : list str
}.

Record t : Type := {
  nickname : str;
  rank : option str;
  experience : option Z;
  kills : option Z;
  deaths : option Z;
  kd_ratio : option pyfloat;
  gold_boxes : option Z;
  premium : option bool;
  group : option str;
  activity : str;
  rankings : list (str * (str * str));    (* category -> (rank, value) *)
  equipment : equipment_t
}.

Definition set_rank v p := {| nickname := nickname p; rank := v; experience := experience p; kills := kills p; deaths := deaths p; kd_ratio := kd_ratio p; gold_boxes := gold_boxes p; premium := premium p; group := group p; activity := activity p; rankings := rankings p; equipment := equipment p |}.
Definition set_experience v p := {| nickname := nickname p; rank := rank p; experience := v; kills := kills p; deaths := deaths p; kd_ratio := kd_ratio p; gold_boxes := gold_boxes p; premium := premium p; group := group p; activity := activity p; rankings := rankings p; equipment := equipment p |}.
Definition set_kills v p := {| nickname := nickname p; rank := rank p; experience := experience p; kills := v; deaths := deaths p; kd_ratio := kd_ratio p; gold_boxes := gold_boxes p; premium := premium p; group := group p; activity := activity p; rankings := rankings p; equipment := equipment p |}.
Definition set_deaths v p := {| nickname := nickname p; rank := rank p; experience := experience p; kills := kills p; deaths := v; kd_ratio := kd_ratio p; gold_boxes := gold_boxes p; premium := premium p; group := group p; activity := activity p; rankings := rankings p; equipment := equipment p |}.
Definition set_kd_ratio v p := {| nickname := nickname p; rank := rank p; experience := experience p; kills := kills p; deaths := deaths p; kd_ratio := v; gold_boxes := gold_boxes p; premium := premium p; group := group p; activity := activity p; rankings := rankings p; equipment := equipment p |}.
Definition set_gold_boxes v p := {| nickname := nickname p; rank := rank p; experience := experience p; kills := kills p; deaths := deaths p; kd_ratio := kd_ratio p; gold_boxes := v; premium := premium p; group := group p; activity := activity p; rankings := rankings p; equipment := equipment p |}.
Definition set_premium v p := {| nickname := nickname p; rank := rank p; experience := experience p; kills := kills p; deaths := deaths p; kd_ratio := kd_ratio p; gold_boxes := gold_boxes p; premium := v; group := group p; activity := activity p; rankings := rankings p; equipment := equipment p |}.
Definition set_group v p := {| nickname := nickname p; rank := rank p; experience := experience p; kills := kills p; deaths := deaths p; kd_ratio := kd_ratio p; gold_boxes := gold_boxes p; premium := premium p; group := v; activity := activity p; rankings := rankings p; equipment := equipment p |}.
Definition set_activity v p := {| nickname := nickname p; rank := rank p; experience := experience p; kills := kills p; deaths := deaths p; kd_ratio := kd_ratio p; gold_boxes := gold_boxes p; premium := premium p; group := group p; activity := v; rankings := rankings p; equipment := equipment p |}.
Definition set_rankings v p := {| nickname := nickname p; rank := rank p; experience := experience p; kills := kills p; deaths := deaths p; kd_ratio := kd_ratio p; gold_boxes := gold_boxes p; premium := premium p; group := group p; activity := activity p; rankings := v; equipment := equipment p |}.
Definition set_equipment v p := {| nickname := nickname p; rank := rank p; experience := experience p; kills := kills p; deaths := deaths p; kd_ratio := kd_ratio p; gold_boxes := gold_boxes p; premium := premium p; group := group p; activity := activity p; rankings := rankings p; equipment := v |}.
End Player.

(** [d[key] = v] on a dict kept in insertion order. *)
Fixpoint dict_set {V} (key : str) (v : V) (d : list (str * V)) : list (str * V) :=
  match d with
  | [] => [(key, v)]
  | (k, w) :: rest =>
    if Soup.eqb_str k key then (k, v) :: rest else (k, w) :: dict_set key v rest
  end.

(** [players.sort(key=lambda x: x['rank'])]: list.sort is stable, so the
    result is the one arrangement by ascending rank that keeps rows of equal
    rank in their original order. *)
Fixpoint insert_by_rank (e : Entry.t) (l : list Entry.t) : list Entry.t :=
  match l with
  | [] => [e]
  | x :: rest =>
    if (Entry.rank e <=? Entry.rank x)%Z then e :: l
    else x :: insert_by_rank e rest
  end.

Definition sort_by_rank (l : list Entry.t) : list Entry.t :=
  fold_right insert_by_rank [] l.

(** Ascending order of rank. *)
Definition rank_le (a b : Entry.t) : Prop := (Entry.rank a <= Entry.rank b)%Z.

(** Truthiness of a name that is [None] or a [str]. *)
Definition truthy (o : option str) : bool :=
  match o with
  | Some (_ :: _) => true
  | _ => false
  end.

(** What a method leaves in the log. *)
Inductive log_record : Type :=
| LogError (message : str) (e : exn).

(** The scraper object: the fields set by [__init__].  [session] is [None]
    or a client with its closed flag; the request headers are constant and
    belong to the transport. *)
Record cache_entry (V : Type) : Type := {
  data : V;
  timestamp : Q
}.
Arguments data {V} _.
Arguments timestamp {V} _.

Record RTanksScraper (V : Type) : Type := {
  base_url : str;
  session : option bool;
  cache : gmap (list N) (cache_entry V);
  cache_timeout : Q
}.
Arguments base_url {V} _.
Arguments session {V} _.
Arguments cache {V} _.
Arguments cache_timeout {V} _.

(** A method of the object: from the object before the call to the value
    returned, the object after the call and the diagnostics logged. *)
Definition method (V A : Type) : Type :=
  RTanksScraper V -> A * RTanksScraper V * list log_record.

Definition returned {V A} (r : A * RTanksScraper V * list log_record) : A := r.1.1.
Definition self_after {V A} (r : A * RTanksScraper V * list log_record)
  : RTanksScraper V := r.1.2.
Definition logged {V A} (r : A * RTanksScraper V * list log_record)
  : list log_record := r.2.

(** [a < b] on timestamps. *)
Definition Qltb (a b : Q) : bool :=
  match (a ?= b)%Q with
  | Lt => true
  | _ => false
  end.

(** ** [src/scraper.py]: class RTanksScraper *)

Module Scraper.
Import PyStr Soup.

Section WithRuntime.
Context (R : Runtime).

(** *** The cache *)

Section Cache.
Context {V : Type}.

(** [__init__] *)
Definition init : RTanksScraper V := {|
  base_url := u "https://ratings.ranked-rtanks.online";
  session := None;
  cache := ∅;
  cache_timeout := 300
|}.

(** [now] is what [time.time()] returns during the call. *)
Definition is_cache_valid (now : Q) (cache_key : str) : method V bool :=
  fun self =>
    match cache self !! cache_key with
    | None => (false, self, [])
    | Some e =>
      let cached_time := timestamp e in
      (Qltb (now - cached_time) (cache_timeout self), self, [])
    end.

Definition get_from_cache (now : Q) (cache_key : str) : method V (option V) :=
  fun self =>
    let '(valid, self, l) := is_cache_valid now cache_key self in
    if valid
    then (data <$> cache self !! cache_key, self, l)
    else (None, self, l).

Definition set_cache (now : Q) (cache_key : str) (d : V) : method V unit :=
  fun self =>
    (tt,
     {| base_url := base_url self;
        session := session self;
        cache := <[cache_key := {| data := d; timestamp := now |}]> (cache self);
        cache_timeout := cache_timeout self |},
     []).

End Cache.

(** *** parse_player_profile *)

Definition new_player_data (nickname : str) : Player.t := {|
  Player.nickname := nickname;
  Player.rank := None;
  Player.experience := None;
  Player.kills := None;
  Player.deaths := None;
  Player.kd_ratio := None;
  Player.gold_boxes := None;
  Player.premium := None;
  Player.group := None;
  Player.activity := u "Unknown";
  Player.rankings := [];
  Player.equipment := {| Player.turrets := []; Player.hulls := [];
                         Player.paints := []; Player.modules := [] |}
|}.

(** The existence check: [True] when the function returns [None] at once. *)
Definition player_missing (html nickname : str) : bool :=
  negb (contains (u "профиль игрока") (lower R html))
  && negb (contains (lower R nickname) (lower R html)).

(** [soup.find('span', class_='user_online')] *)
Definition find_dot_element (soup : node) : option node :=
  head (find_all_class R (u "span") (fun c => eqb_str c (u "user_online")) soup).

Definition extract_activity (soup : node) (player_data : Player.t) : Player.t :=
  match find_dot_element soup with
  | Some dot_element =>
    match assoc (u "style") (attrs_of dot_element) with
    | Some style =>
      if contains (u "green") (lower R style)
      then Player.set_activity (u "Online") player_data
      else if contains (u "gray") (lower R style)
              || contains (u "grey") (lower R style)
      then Player.set_activity (u "Offline") player_data
      else player_data
    | None => player_data
    end
  | None => player_data
  end.

(** [re.compile(r'.*-офицер.*|.*Генерал.*|.*Капитан.*').search(s)] *)
Definition rank_pattern (s : str) : bool :=
  contains (u "-офицер") s || contains (u "Генерал") s
  || contains (u "Капитан") s.

(** [soup.find('div', string=...)]: the first div whose [.string] matches. *)
Definition find_rank_section (soup : node) : option node :=
  head (List.filter (fun d => match tag_string d with
                              | Some s => rank_pattern s
                              | None => false
                              end)
                    (find_all (u "div") soup)).

Definition extract_rank (soup : node) (player_data : Player.t) : Player.t :=
  match find_rank_section soup with
  | Some rank_section =>
    let rank_text := get_text_strip R rank_section in
    Player.set_rank (Some rank_text) player_data
  | None => player_data
  end.

(** [re.compile(r'\d+\s*/\s*\d+|\d+\s+/\s+\d+').search(s)]: somewhere a
    digit, whitespace, a slash, whitespace and a digit follow each other. *)
Definition exp_pattern_here (s : str) : bool :=
  match s with
  | d :: r =>
    isdecimal R d &&
    match drop_while (isspace R) r with
    | 47 :: r2 =>
      match drop_while (isspace R) r2 with
      | d2 :: _ => isdecimal R d2
      | [] => false
      end
    | _ => false
    end
  | [] => false
  end.

Fixpoint exp_pattern (s : str) : bool :=
  exp_pattern_here s ||
  match s with
  | [] => false
  | _ :: r => exp_pattern r
  end.

(** The loop over [exp_elements], left at the first [break]. *)
Fixpoint extract_experience (exp_elements : list str) (player_data : Player.t)
  : result Player.t :=
  match exp_elements with
  | [] => Ok player_data
  | exp_text :: rest =>
    if contains (u "/") exp_text then
      let current_exp := replace_space (strip R (split_slash_0 exp_text)) in
      if isdigit R current_exp then
        n ← int_ R current_exp;
        Ok (Player.set_experience (Some n) player_data)
      else extract_experience rest player_data
    else extract_experience rest player_data
  end.

(** The branches on the label of a row, under [if len(cells) >= 2]. *)
Definition stat_branches (key value : str) (player_data : Player.t)
  : result Player.t :=
  if contains (u "Уничтожил") key || contains (u "Убийств") key then
    if isdigit R value
    then n ← int_ R value; Ok (Player.set_kills (Some n) player_data)
    else Ok player_data
  else if contains (u "Подбит") key || contains (u "Смертей") key then
    if isdigit R value
    then n ← int_ R value; Ok (Player.set_deaths (Some n) player_data)
    else Ok player_data
  else if contains (u "У/П") key || contains (u "K/D") key then
    if float_accepts R value
    then Ok (Player.set_kd_ratio (Some (FloatOf value)) player_data)
    else Ok player_data
  else if contains (u "золотых ящиков") key then
    if isdigit R value
    then n ← int_ R value; Ok (Player.set_gold_boxes (Some n) player_data)
    else Ok player_data
  else if contains (u "Премиум") key then
    Ok (Player.set_premium (Some (contains (u "Да") value)) player_data)
  else if contains (u "Группа") key then
    Ok (Player.set_group (Some value) player_data)
  else Ok player_data.

(** The body of the loop over the rows of every table. *)
Definition stat_row (player_data : Player.t) (row : node) : result Player.t :=
  match find_all (u "td") row with
  | c0 :: c1 :: _ =>
    let key := get_text_strip R c0 in
    let value := get_text_strip R c1 in
    stat_branches key value player_data
  | _ => Ok player_data
  end.

Definition extract_stats (soup : node) (player_data : Player.t) : result Player.t :=
  for_each (fun pd table => for_each stat_row (find_all (u "tr") table) pd)
           (find_all (u "table") soup) player_data.

Definition ranking_row (player_data : Player.t) (row : node) : Player.t :=
  match find_all (u "td") row with
  | c0 :: c1 :: c2 :: _ =>
    let category := get_text_strip R c0 in
    let rank := get_text_strip R c1 in
    let value := get_text_strip R c2 in
    if nonempty category && nonempty rank && nonempty value
    then Player.set_rankings
           (dict_set category (rank, value) (Player.rankings player_data))
           player_data
    else player_data
  | _ => player_data
  end.

Definition extract_rankings (soup : node) (player_data : Player.t) : Player.t :=
  match find (u "table") soup with
  | Some ranking_section =>
    fold_left ranking_row (find_all (u "tr") ranking_section) player_data
  | None => player_data
  end.

Definition equipment_img (e : Player.equipment_t) (img : node)
  : Player.equipment_t :=
  let alt_text := get_or_empty (u "alt") img in
  let src := get_or_empty (u "src") img in
  if contains (u "turrets") src then
    {| Player.turrets := Player.turrets e ++ [alt_text];
       Player.hulls := Player.hulls e;
       Player.paints := Player.paints e;
       Player.modules := Player.modules e |}
  else if contains (u "hulls") src then
    {| Player.turrets := Player.turrets e;
       Player.hulls := Player.hulls e ++ [alt_text];
       Player.paints := Player.paints e;
       Player.modules := Player.modules e |}
  else if contains (u "colormaps") src then
    {| Player.turrets := Player.turrets e;
       Player.hulls := Player.hulls e;
       Player.paints := Player.paints e ++ [alt_text];
       Player.modules := Player.modules e |}
  else if contains (u "resistances") src then
    {| Player.turrets := Player.turrets e;
       Player.hulls := Player.hulls e;
       Player.paints := Player.paints e;
       Player.modules := Player.modules e ++ [alt_text] |}
  else e.

(** [soup.find_all('div', class_=re.compile(r'.*equipment.*|.*gear.*'))] *)
Definition find_equipment_sections (soup : node) : list node :=
  find_all_class R (u "div")
    (fun c => contains (u "equipment") c || contains (u "gear") c) soup.

Definition extract_equipment (soup : node) (player_data : Player.t) : Player.t :=
  Player.set_equipment
    (fold_left (fun e section => fold_left equipment_img (find_all (u "img") section) e)
               (find_equipment_sections soup) (Player.equipment player_data))
    player_data.

(** The [try] body of parse_player_profile. *)
Definition parse_player_profile_try (html nickname : str)
  : result (option Player.t) :=
  soup ← BeautifulSoup R html;
  if player_missing html nickname then Ok None
  else
    let player_data := new_player_data nickname in
    let player_data := extract_activity soup player_data in
    let player_data := extract_rank soup player_data in
    player_data ← extract_experience (List.filter exp_pattern (all_strings soup))
                                     player_data;
    player_data ← extract_stats soup player_data;
    let player_data := extract_rankings soup player_data in
    let player_data := extract_equipment soup player_data in
    Ok (Some player_data).

Definition parse_player_profile {V} (html nickname : str)
  : method V (option Player.t) :=
  fun self =>
    match parse_player_profile_try html nickname with
    | Ok player_data => (player_data, self, [])
    | Raise e => (None, self, [LogError (u "Error parsing player profile: ") e])
    end.

(** *** parse_leaderboard *)

(** The name found in the second cell of a row. *)
Definition resolve_player_name (player_cell : node) : option str :=
  let player_name : option str := None in
  let player_link := find (u "a") player_cell in
  let player_name :=
    match player_link with
    | Some a => Some (get_text_strip R a)
    | None => player_name
    end in
  let player_name :=
    if negb (truthy player_name) then
      match find (u "img") player_cell with
      | Some img => Some (strip R (get_or_empty (u "alt") img))
      | None => player_name
      end
    else player_name in
  let player_name :=
    if negb (truthy player_name)
    then Some (get_text_strip R player_cell)
    else player_name in
  if truthy player_name then
    let player_name := strip R (sub_leading_digits_spaces R (default [] player_name)) in
    let player_name := strip R (sub_leading_nonword R player_name) in
    Some player_name
  else player_name.

(** [int(value_clean) if value_clean else 0], 0 on ValueError. *)
Definition clean_value (value_text : str) : Z :=
  let value_clean := replace_space (strip R (sub_keep_digits_spaces R value_text)) in
  if nonempty value_clean then
    match py_int R value_clean with
    | Some v => v
    | None => 0%Z
    end
  else 0%Z.

(** The body of the loop over the rows of every table. *)
Definition leaderboard_row (players : list Entry.t) (row : node)
  : result (list Entry.t) :=
  match find_all (u "td") row with
  | c0 :: player_cell :: c2 :: _ =>
    let rank_text := get_text_strip R c0 in
    let value_text := get_text_strip R c2 in
    let player_name := resolve_player_name player_cell in
    if isdigit R rank_text && truthy player_name && nonempty value_text then
      let value := clean_value value_text in
      rank ← int_ R rank_text;
      Ok (players ++ [ {| Entry.rank := rank;
                          Entry.name := default [] player_name;
                          Entry.value := value;
                          Entry.formatted_value := value_text |} ])
    else Ok players
  | _ => Ok players
  end.

(** The [try] body of parse_leaderboard. *)
Definition parse_leaderboard_try (html : str) : result (list Entry.t) :=
  soup ← BeautifulSoup R html;
  players ← for_each (fun players table =>
                        for_each leaderboard_row (find_all (u "tr") table) players)
                     (find_all (u "table") soup) [];
  Ok (firstn 10 (sort_by_rank players)).

Definition parse_leaderboard {V} (html : str) : method V (list Entry.t) :=
  fun self =>
    match parse_leaderboard_try html with
    | Ok players => (players, self, [])
    | Raise e => ([], self, [LogError (u "Error parsing leaderboard: ") e])
    end.

End WithRuntime.
End Scraper.

(** ** [src/unnamed/part_000]: the aiohttp variant of the class

    Its cache methods and parse_player_profile (which has no activity step)
    are not needed below; parse_leaderboard is embedded as written there. *)

Module Part000.
Import PyStr Soup.

Section WithRuntime.
Context (R : Runtime).

(** "Extract player name from link or img alt", "Also check for img alt
    attribute", "Try to extract from any text in the cell", "Clean up
    player name". *)
Definition resolve_player_name (player_cell : node) : option str :=
  let player_name : option str := None in
  let player_name :=
    match find (u "a") player_cell with
    | Some player_link => Some (get_text_strip R player_link)
    | None => player_name
    end in
  let player_name :=
    if truthy player_name then player_name
    else match find (u "img") player_cell with
         | Some img => Some (strip R (get_or_empty (u "alt") img))
         | None => player_name
         end in
  let player_name :=
    if truthy player_name then player_name
    else Some (get_text_strip R player_cell) in
  match player_name with
  | Some (c :: s) =>
    let player_name := strip R (sub_leading_digits_spaces R (c :: s)) in
    let player_name := strip R (sub_leading_nonword R player_name) in
    Some player_name
  | _ => player_name
  end.

(** "Clean up value (remove non-numeric characters except spaces)": the
    [try] block and its [except ValueError]. *)
Definition clean_value (value_text : str) : Z :=
  let value_clean := strip R (sub_keep_digits_spaces R value_text) in
  let value_clean := replace_space value_clean in
  let attempt : result Z :=
    if nonempty value_clean then int_ R value_clean else Ok 0%Z in
  match attempt with
  | Ok value => value
  | Raise _ => 0%Z
  end.

Definition leaderboard_row (players : list Entry.t) (row : node)
  : result (list Entry.t) :=
  let cells := find_all (u "td") row in
  if (3 <=? length cells)%nat then
    match nth_error cells 0, nth_error cells 1, nth_error cells 2 with
    | Some c0, Some player_cell, Some c2 =>
      let rank_text := get_text_strip R c0 in
      let value_text := get_text_strip R c2 in
      let player_name := resolve_player_name player_cell in
      if isdigit R rank_text && truthy player_name && nonempty value_text then
        let value := clean_value value_text in
        rank ← int_ R rank_text;
        Ok (players ++ [ {| Entry.rank := rank;
                            Entry.name := default [] player_name;
                            Entry.value := value;
                            Entry.formatted_value := value_text |} ])
      else Ok players
    | _, _, _ => Ok players
    end
  else Ok players.

Definition parse_leaderboard_try (html : str) : result (list Entry.t) :=
  soup ← BeautifulSoup R html;
  let tables := find_all (u "table") soup in
  players ← for_each (fun players table =>
                        let rows := find_all (u "tr") table in
                        for_each leaderboard_row rows players)
                     tables [];
  (* Sort by rank and limit to top 10 *)
  Ok (firstn 10 (sort_by_rank players)).

Definition parse_leaderboard {V} (html : str) : method V (list Entry.t) :=
  fun self =>
    match parse_leaderboard_try html with
    | Ok players => (players, self, [])
    | Raise e => ([], self, [LogError (u "Error parsing leaderboard: ") e])
    end.

End WithRuntime.
End Part000.

(** ** A runtime to compute with

    An excerpt of CPython and bs4, enough for the documents below: the
    whitespace code points outside ASCII, a few ranges of decimal digits and
    of other digits, Latin-1 and Cyrillic letters, lowering of ASCII and
    Cyrillic capitals, plain decimal literals for [float()], the default
    digit limit, and the trees bs4 builds for the listed documents. *)

Module Sample.
Import PyStr Soup.

Definition sample_isspace (c : N) : bool :=
  (c =? 133) || (c =? 160) || (c =? 5760) || in_range 8192 8202 c
  || (c =? 8232) || (c =? 8233) || (c =? 8239) || (c =? 8287) || (c =? 12288).

Definition sample_decimal (c : N) : option N :=
  if in_range 1632 1641 c then Some (c - 1632)          (* Arabic-Indic *)
  else if in_range 2406 2415 c then Some (c - 2406)     (* Devanagari *)
  else if in_range 65296 65305 c then Some (c - 65296)  (* fullwidth *)
  else None.

Definition sample_isdigit (c : N) : bool :=
  match sample_decimal c with
  | Some _ => true
  | None =>
    (c =? 178) || (c =? 179) || (c =? 185)              (* superscript 2, 3, 1 *)
    || (c =? 8304) || in_range 8308 8313 c              (* superscripts *)
    || in_range 8320 8329 c                             (* subscripts *)
  end.

Definition sample_isalnum (c : N) : bool :=
  sample_isdigit c
  || in_range 192 214 c || in_range 216 246 c || in_range 248 255 c
  || in_range 1024 1153 c || in_range 1162 1327 c.

Definition lower_char (c : N) : N :=
  if in_range 65 90 c then c + 32
  else if in_range 192 214 c || in_range 216 222 c then c + 32
  else if in_range 1040 1071 c then c + 32
  else if in_range 1024 1039 c then c + 80
  else c.

Fixpoint float_digits (seen_digit seen_point : bool) (s : str) : bool :=
  match s with
  | [] => seen_digit
  | c :: r =>
    if in_range 48 57 c then float_digits true seen_point r
    else if (c =? 46) && negb seen_point then float_digits seen_digit true r
    else false
  end.

Definition sample_float_accepts (s : str) : bool :=
  match strip_with (fun c => in_range 9 13 c || (c =? 32)) s with
  | 45 :: r | 43 :: r => float_digits false false r
  | r => float_digits false false r
  end.

Definition document (contents : list node) : node :=
  Tag (u "[document]") [] contents.

Definition text (s : string) : node := NavigableString true (u s).
Definition el (name : string) (contents : list node) : node :=
  Tag (u name) [] contents.
Definition el_with (name : string) (attrs : list (string * string))
  (contents : list node) : node :=
  Tag (u name) (map (fun kv => (u kv.1, u kv.2)) attrs) contents.
Definition td (s : string) : node := el "td" [text s].
Definition tr (cells : list node) : node := el "tr" cells.
Definition table (rows : list node) : node := el "table" rows.
Definition player (s : string) : node := el "td" [el "a" [text s]].

(** The leaderboard of spec section 8, with a row whose rank is "N/A". *)
Definition leaderboard_html : str :=
  u "<table><tr><td>1</td><td><a>Alice</a></td><td>1 000</td></tr><tr><td>2</td><td><a>Bob</a></td><td>500</td></tr><tr><td>N/A</td><td><a>Eve</a></td><td>5</td></tr></table>".
Definition leaderboard_soup : node :=
  document [table [tr [td "1"; player "Alice"; td "1 000"];
                   tr [td "2"; player "Bob"; td "500"];
                   tr [td "N/A"; player "Eve"; td "5"]]].

(** Two tables: the rows of both are ranked together. *)
Definition two_tables_html : str :=
  u "<table><tr><td>2</td><td><a>Bob</a></td><td>500</td></tr></table><table><tr><td>1</td><td><a>Alice</a></td><td>1 000</td></tr></table>".
Definition two_tables_soup : node :=
  document [table [tr [td "2"; player "Bob"; td "500"]];
            table [tr [td "1"; player "Alice"; td "1 000"]]].

(** A rank written with SUPERSCRIPT TWO (U+00B2) in the second row. *)
Definition superscript_html : str :=
  u "<table><tr><td>1</td><td><a>Alice</a></td><td>100</td></tr><tr><td>²</td><td><a>Bob</a></td><td>5</td></tr></table>".
Definition superscript_row : node := tr [td "²"; player "Bob"; td "5"].
Definition superscript_soup : node :=
  document [table [tr [td "1"; player "Alice"; td "100"]; superscript_row]].

(** A value whose thousands are separated by a TAB (U+0009). *)
Definition tab_value : str := u "1" ++ [9] ++ u "000".
Definition tab_value_html : str :=
  u "<table><tr><td>1</td><td><a>Alice</a></td><td>" ++ tab_value
  ++ u "</td></tr></table>".
Definition tab_value_soup : node :=
  document [table [tr [td "1"; player "Alice";
                       el "td" [NavigableString true tab_value]]]].

(** The profile of spec section 8, labels as the spec writes them. *)
Definition profile_spec_html : str :=
  u "<h1>Профиль игрока Foo</h1><table><tr><td>Убил</td><td>42</td></tr><tr><td>Подбит</td><td>7</td></tr><tr><td>Премиум</td><td>Да</td></tr></table>".
Definition profile_spec_soup : node :=
  document [el "h1" [text "Профиль игрока Foo"];
            table [tr [td "Убил"; td "42"];
                   tr [td "Подбит"; td "7"];
                   tr [td "Премиум"; td "Да"]]].

(** The same profile with the kill label the site uses, and the online dot. *)
Definition profile_html : str :=
  u "<h1>Профиль игрока Foo</h1><span class='user_online' style='background: Green'></span><table><tr><td>Уничтожил</td><td>42</td></tr><tr><td>Подбит</td><td>7</td></tr><tr><td>Премиум</td><td>Да</td></tr></table>".
Definition profile_soup : node :=
  document [el "h1" [text "Профиль игрока Foo"];
            el_with "span" [("class"%string, "user_online"%string);
                            ("style"%string, "background: Green"%string)] [];
            table [tr [td "Уничтожил"; td "42"];
                   tr [td "Подбит"; td "7"];
                   tr [td "Премиум"; td "Да"]]].

(** A page about nobody, with a table of its own. *)
Definition not_found_html : str :=
  u "<h1>Not found</h1><table><tr><td>Уничтожил</td><td>42</td></tr></table>".
Definition not_found_soup : node :=
  document [el "h1" [text "Not found"];
            table [tr [td "Уничтожил"; td "42"]]].

(** The documents, each with the tree bs4 builds for it; any other string
    is read as markup-free text. *)
Definition documents : list (str * node) :=
  [ (leaderboard_html, leaderboard_soup);
    (two_tables_html, two_tables_soup);
    (superscript_html, superscript_soup);
    (tab_value_html, tab_value_soup);
    (profile_spec_html, profile_spec_soup);
    (profile_html, profile_soup);
    (not_found_html, not_found_soup) ].

Fixpoint lookup_document (l : list (str * node)) (html : str) : option node :=
  match l with
  | [] => None
  | (src, tree) :: rest =>
    if eqb_str src html then Some tree else lookup_document rest html
  end.

Definition parser (html : str) : result node :=
  match lookup_document documents html with
  | Some tree => Ok tree
  | None => Ok (document [NavigableString true html])
  end.

Definition runtime : Runtime := {|
  ucd_isspace := sample_isspace;
  ucd_decimal := sample_decimal;
  ucd_isdigit := sample_isdigit;
  ucd_isalnum := sample_isalnum;
  str_lower := map lower_char;
  int_max_str_digits := Some 4300%nat;
  float_accepts := sample_float_accepts;
  BeautifulSoup := parser
|}.

(** A fresh scraper object, nothing cached. *)
Definition scraper : RTanksScraper unit := Scraper.init.

End Sample.

(** ** The rows the extractors walk over *)

Module Rows.
Import PyStr Soup.

(** Every row of every table, in the order the two nested loops visit them
    (a row of a nested table is visited once for each table around it). *)
Definition all_rows (soup : node) : list node :=
  flat_map (find_all (u "tr")) (find_all (u "table") soup).

(** The fields of a record that the activity and table steps decide. *)
Definition core (pd : Player.t) :=
  (Player.activity pd, Player.kills pd, Player.deaths pd, Player.premium pd).

Section WithRuntime.
Context (R : Runtime).

(** Rank text, resolved name and value text of a row of three cells or more. *)
Definition row_texts (row : node) : option (str * option str * str) :=
  match find_all (u "td") row with
  | c0 :: player_cell :: c2 :: _ =>
    Some (get_text_strip R c0,
          Scraper.resolve_player_name R player_cell,
          get_text_strip R c2)
  | _ => None
  end.

Definition rank_text (row : node) : str :=
  match row_texts row with
  | Some (rank_text, _, _) => rank_text
  | None => []
  end.

(** The test that guards [players.append]. *)
Definition accepted (row : node) : bool :=
  match row_texts row with
  | Some (rank_text, player_name, value_text) =>
    isdigit R rank_text && truthy player_name && nonempty value_text
  | None => false
  end.

(** The entry a row adds to [players]: none when the row is not accepted,
    and none when [int()] rejects its rank text. *)
Definition row_entry (row : node) : option Entry.t :=
  match row_texts row with
  | Some (rank_text, player_name, value_text) =>
    if isdigit R rank_text && truthy player_name && nonempty value_text then
      match py_int R rank_text with
      | Some rank =>
        Some {| Entry.rank := rank;
                Entry.name := default [] player_name;
                Entry.value := Scraper.clean_value R value_text;
                Entry.formatted_value := value_text |}
      | None => None
      end
    else None
  | None => None
  end.

(** No accepted row has a rank text that [int()] rejects. *)
Definition ranks_readable (rows : list node) : Prop :=
  Forall (fun row => accepted row = true -> is_Some (row_entry row)) rows.

(** Label and value of a row of two cells or more. *)
Definition stat_cells (row : node) : option (str * str) :=
  match find_all (u "td") row with
  | c0 :: c1 :: _ => Some (get_text_strip R c0, get_text_strip R c1)
  | _ => None
  end.

(** The inline style of the online dot: of the first span of class
    user_online, when there is one and it has a style attribute. *)
Definition indicator_style (soup : node) : option str :=
  match Scraper.find_dot_element R soup with
  | Some dot_element => assoc (u "style") (attrs_of dot_element)
  | None => None
  end.

(** The three rows of the profile example of spec section 8, with the kill
    label the code knows. *)
Definition kills_row : str * str := (u "Уничтожил", u "42").
Definition deaths_row : str * str := (u "Подбит", u "7").
Definition premium_row : str * str := (u "Премиум", u "Да").

(** A label that selects the kills, deaths or premium branch. *)
Definition combat_label (key : str) : bool :=
  contains (u "Уничтожил") key || contains (u "Убийств") key
  || contains (u "Подбит") key || contains (u "Смертей") key
  || contains (u "Премиум") key.

(** Every row of two cells or more is one of the three, or has a label
    that selects none of the kills, deaths and premium branches. *)
Definition only_example_rows (rows : list node) : Prop :=
  forall row key value,
    In row rows -> stat_cells row = Some (key, value) ->
    In (key, value) [kills_row; deaths_row; premium_row]
    \/ combat_label key = false.

(** The whitespace left inside a value text, once trimmed, is made of
    plain spaces only. *)
Definition spaces_only (value_text : str) : Prop :=
  forall c, In c (strip R (sub_keep_digits_spaces R value_text)) ->
            isspace R c = true -> c = 32.

End WithRuntime.
End Rows.

(** ** The sentences of the specification that the code does not satisfy,
    as they are written *)

Module AsStated.
Import PyStr Soup.

Section WithRuntime.
Context (R : Runtime).

(** Spec 4.4, value parsing: delete every character except digits and
    whitespace, delete the whitespace, parse; 0 when empty or unparseable. *)
Definition claimed_value (value_text : str) : Z :=
  let kept := List.filter (fun c => isdecimal R c || isspace R c) value_text in
  let digits := List.filter (fun c => negb (isspace R c)) kept in
  if nonempty digits then
    match py_int R digits with
    | Some v => v
    | None => 0%Z
    end
  else 0%Z.

(** [e] is the entry of the accepted row [row]: its name, value and display
    text are those of the row, its rank the number the rank text denotes. *)
Definition entry_of_row (row : node) (e : Entry.t) : Prop :=
  exists rank_text player_name value_text,
    Rows.row_texts R row = Some (rank_text, Some player_name, value_text)
    /\ Entry.name e = player_name
    /\ Entry.formatted_value e = value_text.

(** Spec 4.4, last bullet: the result is the first ten, by ascending rank,
    of the accepted rows of all tables. *)
Definition first_ten_of_accepted (html : str) (out : list Entry.t) : Prop :=
  forall soup, BeautifulSoup R html = Ok soup ->
    exists entries,
      Forall2 entry_of_row
              (List.filter (Rows.accepted R) (Rows.all_rows soup)) entries
      /\ out = firstn 10 (sort_by_rank entries).

(** Spec 4.4, row acceptance: a row of three cells or more is kept exactly
    when its rank text is all digits and its name and value text are not
    empty. *)
Definition kept_iff_accepted (row : node) : Prop :=
  forall players,
    (exists e, Scraper.leaderboard_row R players row = Ok (players ++ [e]))
    <-> Rows.accepted R row = true.

(** Spec 8, the profile example: markup that passes the existence check
    and has the rows ("Убил", "42"), ("Подбит", "7"), ("Премиум", "Да")
    yields kills=42, deaths=7, premium=true. *)
Definition example_rows : list (str * str) :=
  [(u "Убил", u "42"); (u "Подбит", u "7"); (u "Премиум", u "Да")].

Definition profile_example (html nickname : str) (out : option Player.t) : Prop :=
  forall soup,
    BeautifulSoup R html = Ok soup ->
    contains (u "профиль игрока") (lower R html) = true
    \/ contains (lower R nickname) (lower R html) = true ->
    (forall kv, In kv example_rows ->
       exists row, In row (Rows.all_rows soup) /\ Rows.stat_cells R row = Some kv) ->
    exists p, out = Some p
              /\ Player.kills p = Some 42%Z
              /\ Player.deaths p = Some 7%Z
              /\ Player.premium p = Some true.

End WithRuntime.
End AsStated.

(** ** [src/scraper.py]: the methods that reach the network

    get_session, close_session, fetch_page, get_player_stats and
    get_leaderboard.  The coroutines are run one at a time; what the site
    answers is an argument, and so are the readings of the clock. *)

Module Service.
Import PyStr Soup.

(** What the cache holds: the dicts of get_player_stats and the lists of
    get_leaderboard. *)
Inductive cached : Type :=
| CachedPlayer (player_data : Player.t)
| CachedLeaderboard (leaderboard_data : list Entry.t).

(** [if cached_data:] on what get_from_cache returned: a player dict has
    twelve keys and is true, a list is true when it is not empty. *)
Definition is_true (cached_data : option cached) : bool :=
  match cached_data with
  | Some (CachedPlayer _) => true
  | Some (CachedLeaderboard (_ :: _)) => true
  | _ => false
  end.

(** What [await session.get(url)] does. *)
Inductive http_outcome : Type :=
| Response (status_code : Z) (text : str)
| TimeoutException
| OtherException.

(** What a call does besides returning: the requests sent and the lines
    logged, oldest first. *)
Inductive event : Type :=
| Requested (url : str)
| LogHttpStatus (status_code : Z) (url : str)     (* logger.warning *)
| LogTimeout (url : str)                          (* logger.error *)
| LogFetchError (url : str)                       (* logger.error *)
| LogParse (record : log_record).                 (* logged by an extractor *)

Definition io (A : Type) : Type :=
  RTanksScraper cached -> A * RTanksScraper cached * list event.

Definition with_session (s : option bool) (self : RTanksScraper cached)
  : RTanksScraper cached :=
  {| base_url := base_url self;
     session := s;
     cache := cache self;
     cache_timeout := cache_timeout self |}.

(** A client is made when there is none or the one there is closed. *)
Definition get_session : io unit :=
  fun self =>
    match session self with
    | Some false => (tt, self, [])
    | _ => (tt, with_session (Some false) self, [])
    end.

Definition close_session : io unit :=
  fun self =>
    match session self with
    | Some false => (tt, with_session (Some true) self, [])
    | _ => (tt, self, [])
    end.

Section WithRuntime.
Context (R : Runtime) (site : str -> http_outcome).

Definition fetch_page (url : str) : io (option str) :=
  fun self =>
    let '(_, self, ev) := get_session self in
    match site url with
    | Response status_code text =>
      if (status_code =? 200)%Z
      then (Some text, self, ev ++ [Requested url])
      else (None, self, ev ++ [Requested url; LogHttpStatus status_code url])
    | TimeoutException => (None, self, ev ++ [Requested url; LogTimeout url])
    | OtherException => (None, self, ev ++ [Requested url; LogFetchError url])
    end.

(** [t_check] is the clock when the cache is asked, [t_store] when the
    result is stored. *)
Definition get_player_stats (t_check t_store : Q) (nickname : str)
  : io (option cached) :=
  fun self =>
    let cache_key := u "player_" ++ nickname in
    let '(cached_data, self, _) := Scraper.get_from_cache t_check cache_key self in
    if is_true cached_data then (cached_data, self, [])
    else
      let url := base_url self ++ u "/user/" ++ nickname in
      let '(html, self, ev) := fetch_page url self in
      match html with
      | None | Some [] => (None, self, ev)
      | Some html =>
        let '(player_data, self, l) :=
          Scraper.parse_player_profile R html nickname self in
        match player_data with
        | Some p =>
          let '(_, self, _) :=
            Scraper.set_cache t_store cache_key (CachedPlayer p) self in
          (Some (CachedPlayer p), self, ev ++ map LogParse l)
        | None => (None, self, ev ++ map LogParse l)
        end
      end.

Definition get_leaderboard (t_check t_store : Q) (category : str)
  : io (option cached) :=
  fun self =>
    let cache_key := u "leaderboard_" ++ category in
    let '(cached_data, self, _) := Scraper.get_from_cache t_check cache_key self in
    if is_true cached_data then (cached_data, self, [])
    else
      let url := base_url self in
      let '(html, self, ev) := fetch_page url self in
      match html with
      | None | Some [] => (None, self, ev)
      | Some html =>
        let '(leaderboard_data, self, l) :=
          Scraper.parse_leaderboard R html self in
        match leaderboard_data with
        | _ :: _ =>
          let '(_, self, _) :=
            Scraper.set_cache t_store cache_key
              (CachedLeaderboard leaderboard_data) self in
          (Some (CachedLeaderboard leaderboard_data), self, ev ++ map LogParse l)
        | [] => (Some (CachedLeaderboard []), self, ev ++ map LogParse l)
        end
      end.

End WithRuntime.

(** The requests among the events of a call. *)
Definition requests (ev : list event) : list str :=
  flat_map (fun e => match e with Requested url => [url] | _ => [] end) ev.

(** What the two getters keep true of the cache: a player key holds the
    record of that player, a leaderboard key a non-empty list of at most ten
    entries in ascending rank order. *)
Definition well_keyed (self : RTanksScraper cached) : Prop :=
  (forall nickname e,
     cache self !! (u "player_" ++ nickname) = Some e ->
     exists p, data e = CachedPlayer p /\ Player.nickname p = nickname)
  /\ (forall category e,
     cache self !! (u "leaderboard_" ++ category) = Some e ->
     exists l, data e = CachedLeaderboard l /\ l <> []
               /\ (length l <= 10)%nat /\ StronglySorted rank_le l).

(** The three parts of what a call gives. *)
Definition result_of {A} (r : A * RTanksScraper cached * list event) : A := r.1.1.
Definition object_after {A} (r : A * RTanksScraper cached * list event)
  : RTanksScraper cached := r.1.2.
Definition events_of {A} (r : A * RTanksScraper cached * list event)
  : list event := r.2.

(** The cache has nothing usable under [cache_key] at time [now]. *)
Definition cold (now : Q) (cache_key : str) (self : RTanksScraper cached) : Prop :=
  is_true (returned (Scraper.get_from_cache now cache_key self)) = false.

(** The page a url gives: the body of an answer of status 200, when it is
    not empty. *)
Definition page_of (site : str -> http_outcome) (url : str) : option str :=
  match site url with
  | Response status_code (c :: text) =>
    if (status_code =? 200)%Z then Some (c :: text) else None
  | _ => None
  end.

Section Outcomes.
Context (R : Runtime).

(** What a call of get_player_stats does once the cache gave nothing. *)
Definition player_miss_outcome (site : str -> http_outcome) (t_store : Q)
  (nickname : str) (self : RTanksScraper cached)
  (r : option cached * RTanksScraper cached * list event) : Prop :=
  let key := u "player_" ++ nickname in
  let url := base_url self ++ u "/user/" ++ nickname in
  requests (events_of r) = [url]
  /\ base_url (object_after r) = base_url self
  /\ cache_timeout (object_after r) = cache_timeout self
  /\ session (object_after r) = Some false
  /\ ((page_of site url = None
       /\ result_of r = None /\ cache (object_after r) = cache self)
      \/ (exists html,
            page_of site url = Some html
            /\ returned (Scraper.parse_player_profile R html nickname self) = None
            /\ result_of r = None /\ cache (object_after r) = cache self)
      \/ (exists html p,
            page_of site url = Some html
            /\ returned (Scraper.parse_player_profile R html nickname self) = Some p
            /\ result_of r = Some (CachedPlayer p)
            /\ cache (object_after r)
               = <[key := {| data := CachedPlayer p; timestamp := t_store |}]>
                   (cache self))).

(** What a call of get_leaderboard does once the cache gave nothing: an
    empty list is returned as it is and is not stored. *)
Definition leaderboard_miss_outcome (site : str -> http_outcome) (t_store : Q)
  (category : str) (self : RTanksScraper cached)
  (r : option cached * RTanksScraper cached * list event) : Prop :=
  let key := u "leaderboard_" ++ category in
  let url := base_url self in
  requests (events_of r) = [url]
  /\ base_url (object_after r) = base_url self
  /\ cache_timeout (object_after r) = cache_timeout self
  /\ session (object_after r) = Some false
  /\ ((page_of site url = None
       /\ result_of r = None /\ cache (object_after r) = cache self)
      \/ (exists html,
            page_of site url = Some html
            /\ returned (Scraper.parse_leaderboard R html self) = []
            /\ result_of r = Some (CachedLeaderboard [])
            /\ cache (object_after r) = cache self)
      \/ (exists html l,
            page_of site url = Some html
            /\ returned (Scraper.parse_leaderboard R html self) = l
            /\ l <> []
            /\ result_of r = Some (CachedLeaderboard l)
            /\ cache (object_after r)
               = <[key := {| data := CachedLeaderboard l; timestamp := t_store |}]>
                   (cache self))).

End Outcomes.

End Service.

(** A site to compute with: the profile of Foo, the leaderboard at the
    root, 404 elsewhere; and a site that never answers. *)
Module SampleSite.
Import PyStr Soup Service.

Definition site (url : str) : http_outcome :=
  if eqb_str url (u "https://ratings.ranked-rtanks.online/user/Foo")
  then Response 200 Sample.profile_html
  else if eqb_str url (u "https://ratings.ranked-rtanks.online")
  then Response 200 Sample.leaderboard_html
  else Response 404 (u "Not Found").

Definition offline (url : str) : http_outcome := TimeoutException.

Definition scraper : RTanksScraper cached := Scraper.init.

End SampleSite.

(** ** More vocabulary for what the extractors return *)

Module Shape.
Import PyStr Soup.

(** A numeric field is unset or holds a number that is not negative. *)
Definition unset_or_nonneg (field : option Z) : Prop :=
  match field with
  | Some n => (0 <= n)%Z
  | None => True
  end.

Definition counts_nonneg (pd : Player.t) : Prop :=
  unset_or_nonneg (Player.experience pd)
  /\ unset_or_nonneg (Player.kills pd)
  /\ unset_or_nonneg (Player.deaths pd)
  /\ unset_or_nonneg (Player.gold_boxes pd).

Section WithRuntime.
Context (R : Runtime).

(** A string that is not empty and has no whitespace at either end. *)
Definition trimmed (s : str) : Prop :=
  s <> []
  /\ (forall c rest, s = c :: rest -> isspace R c = false)
  /\ (forall c front, s = front ++ [c] -> isspace R c = false).

(** The branch of the table loop a label selects: the first of the tests
    of the if/elif chain that the label passes. *)
Inductive stat_branch : Type :=
| Kills | Deaths | KdRatio | GoldBoxes | Premium | Group.

Definition branch_of (key : str) : option stat_branch :=
  if contains (u "Уничтожил") key || contains (u "Убийств") key then Some Kills
  else if contains (u "Подбит") key || contains (u "Смертей") key then Some Deaths
  else if contains (u "У/П") key || contains (u "K/D") key then Some KdRatio
  else if contains (u "золотых ящиков") key then Some GoldBoxes
  else if contains (u "Премиум") key then Some Premium
  else if contains (u "Группа") key then Some Group
  else None.

(** What a row writes to the premium, group and kills fields, if anything. *)
Definition premium_written (row : node) : option bool :=
  match Rows.stat_cells R row with
  | Some (key, value) =>
    match branch_of key with
    | Some Premium => Some (contains (u "Да") value)
    | _ => None
    end
  | None => None
  end.

Definition group_written (row : node) : option str :=
  match Rows.stat_cells R row with
  | Some (key, value) =>
    match branch_of key with
    | Some Group => Some value
    | _ => None
    end
  | None => None
  end.

Definition kills_written (row : node) : option Z :=
  match Rows.stat_cells R row with
  | Some (key, value) =>
    match branch_of key with
    | Some Kills => if isdigit R value then py_int R value else None
    | _ => None
    end
  | None => None
  end.

(** What is read as the experience in a string: the part before its first
    slash, trimmed, spaces removed. *)
Definition numerator (exp_text : str) : str :=
  replace_space (strip R (split_slash_0 exp_text)).

(** The string the experience is read from: the first string of the page,
    of any kind, that matches the fraction pattern and whose numerator is
    all digits. *)
Definition experience_source (soup : node) : option str :=
  List.find (fun t => contains (u "/") t && isdigit R (numerator t))
            (List.filter (Scraper.exp_pattern R) (all_strings soup)).

(** The three texts of a row of three cells or more. *)
Definition ranking_cells (row : node) : option (str * (str * str)) :=
  match find_all (u "td") row with
  | c0 :: c1 :: c2 :: _ =>
    Some (get_text_strip R c0, (get_text_strip R c1, get_text_strip R c2))
  | _ => None
  end.

(** An item of the rankings dict with nothing empty in it. *)
Definition item_filled (item : str * (str * str)) : Prop :=
  item.1 <> [] /\ item.2.1 <> [] /\ item.2.2 <> [].

(** What the rankings loop leaves: one item a category, nothing empty, and
    every item read off a row of the table. *)
Definition rankings_from (rows : list node) (d : list (str * (str * str))) : Prop :=
  List.NoDup (map fst d)
  /\ Forall item_filled d
  /\ (forall item, In item d ->
        exists row, In row rows /\ ranking_cells row = Some item).

(** The images of the equipment sections, in the order the two nested
    loops visit them. *)
Definition equipment_images (soup : node) : list node :=
  flat_map (find_all (u "img")) (Scraper.find_equipment_sections R soup).

End WithRuntime.

(** The list an image goes to: the first of the four substrings that its
    src contains. *)
Inductive slot : Type := Turret | Hull | Paint | Module_.

Definition slot_of (img : node) : option slot :=
  let src := get_or_empty (u "src") img in
  if contains (u "turrets") src then Some Turret
  else if contains (u "hulls") src then Some Hull
  else if contains (u "colormaps") src then Some Paint
  else if contains (u "resistances") src then Some Module_
  else None.

Definition slot_eqb (a b : slot) : bool :=
  match a, b with
  | Turret, Turret | Hull, Hull | Paint, Paint | Module_, Module_ => true
  | _, _ => false
  end.

(** The alt texts of the images of one slot, in order. *)
Definition alts_of (s : slot) (imgs : list node) : list str :=
  map (get_or_empty (u "alt"))
      (List.filter (fun img => match slot_of img with
                               | Some s' => slot_eqb s s'
                               | None => false
                               end) imgs).

(** The last element of a list. *)
Fixpoint last_of {A} (l : list A) : option A :=
  match l with
  | [] => None
  | [x] => Some x
  | _ :: rest => last_of rest
  end.

End Shape.

(** A richer profile page to compute with: two tables whose rows
    overwrite each other, a rankings row in each, and an equipment section
    with four images. *)
Module Gallery.
Import PyStr Soup.

Definition img (src alt : string) : node :=
  Sample.el_with "img" [("src"%string, src); ("alt"%string, alt)] [].

Definition profile_html : str :=
  u "<h1>Профиль игрока Foo</h1><table><tr><td>Премиум</td><td>Нет</td></tr><tr><td>Группа</td><td>Alpha</td></tr><tr><td>Уничтожил</td><td>10</td></tr><tr><td>Опыт</td><td>#5</td><td>1 200</td></tr></table><table><tr><td>Премиум</td><td>Да</td></tr><tr><td>Уничтожил</td><td>n/a</td></tr><tr><td>Опыт</td><td>#7</td><td>900</td></tr></table><div class='equipment'><img src='/img/turrets/smoky.png' alt='Smoky'><img src='/img/hulls/hunter.png' alt='Hunter'><img src='/img/other/x.png' alt='X'><img src='/img/turrets/rail.png' alt='Railgun'></div>".

Definition profile_soup : node :=
  Sample.document
    [Sample.el "h1" [Sample.text "Профиль игрока Foo"];
     Sample.table
       [Sample.tr [Sample.td "Премиум"; Sample.td "Нет"];
        Sample.tr [Sample.td "Группа"; Sample.td "Alpha"];
        Sample.tr [Sample.td "Уничтожил"; Sample.td "10"];
        Sample.tr [Sample.td "Опыт"; Sample.td "#5"; Sample.td "1 200"]];
     Sample.table
       [Sample.tr [Sample.td "Премиум"; Sample.td "Да"];
        Sample.tr [Sample.td "Уничтожил"; Sample.td "n/a"];
        Sample.tr [Sample.td "Опыт"; Sample.td "#7"; Sample.td "900"]];
     Sample.el_with "div" [("class"%string, "equipment"%string)]
       [img "/img/turrets/smoky.png" "Smoky";
        img "/img/hulls/hunter.png" "Hunter";
        img "/img/other/x.png" "X";
        img "/img/turrets/rail.png" "Railgun"]].

(** A profile whose first fraction has a label before the number. *)
Definition progress_html : str :=
  u "<h1>Профиль игрока Foo</h1><p>Опыт: 300 / 500</p><p>1 200 / 5 000</p>".

Definition progress_soup : node :=
  Sample.document
    [Sample.el "h1" [Sample.text "Профиль игрока Foo"];
     Sample.el "p" [Sample.text "Опыт: 300 / 500"];
     Sample.el "p" [Sample.text "1 200 / 5 000"]].

Definition parser (html : str) : result node :=
  if eqb_str html profile_html then Ok profile_soup
  else if eqb_str html progress_html then Ok progress_soup
  else Sample.parser html.

Definition runtime : Runtime := {|
  ucd_isspace := Sample.sample_isspace;
  ucd_decimal := Sample.sample_decimal;
  ucd_isdigit := Sample.sample_isdigit;
  ucd_isalnum := Sample.sample_isalnum;
  str_lower := map Sample.lower_char;
  int_max_str_digits := Some 4300%nat;
  float_accepts := Sample.sample_float_accepts;
  BeautifulSoup := parser
|}.

End Gallery.

(** ** utils.py: the name shown in an embed *)

Module Utils.
Import PyStr.

(** [sep.join(l)] *)
Fixpoint join (sep : str) (l : list str) : str :=
  match l with
  | [] => []
  | [x] => x
  | x :: rest => x ++ sep ++ join sep rest
  end.

Section WithRuntime.
Context (R : Runtime).

(** The class [[\d\s\.\-\#]]. *)
Definition edge_class (c : N) : bool :=
  isdecimal R c || isspace R c || (c =? 46) || (c =? 45) || (c =? 35).

(** The characters the class [[^\w\s\-_\.]] leaves out. *)
Definition kept_class (c : N) : bool :=
  isword R c || isspace R c || (c =? 45) || (c =? 95) || (c =? 46).

(** [re.sub(r'^[\d\s\.\-\#]+', '', s)] *)
Definition sub_leading_edge (s : str) : str := drop_while edge_class s.

(** [re.sub(r'[\d\s\.\-\#]+$', '', s)]: the one match is the run of the
    class that reaches the end of the string. *)
Definition sub_trailing_edge (s : str) : str :=
  rev (drop_while edge_class (rev s)).

(** [re.sub(r'[^\w\s\-_\.]', '', s)] *)
Definition sub_special (s : str) : str := List.filter kept_class s.

(** [s.split()]: the maximal runs of characters that are not whitespace;
    [word] is the run being read. *)
Fixpoint split_from (word s : str) : list str :=
  match s with
  | [] => match word with [] => [] | _ => [word] end
  | c :: r =>
    if isspace R c
    then match word with
         | [] => split_from [] r
         | _ => word :: split_from [] r
         end
    else split_from (word ++ [c]) r
  end.

Definition split (s : str) : list str := split_from [] s.

Definition clean_player_name (name : str) : str :=
  match name with
  | [] => u "Unknown"
  | _ =>
    let name := strip R (sub_leading_edge name) in
    let name := strip R (sub_trailing_edge name) in
    let name := sub_special name in
    let name := join (u " ") (split name) in
    match name with
    | [] => u "Unknown"
    | _ => name
    end
  end.

(** A character of a displayed word: no whitespace, and a word character,
    a dash or a dot. *)
Definition word_char (c : N) : bool :=
  negb (isspace R c) && (isword R c || (c =? 45) || (c =? 46)).

(** A displayed word: one character or more, each of them a [word_char]. *)
Definition display_word (w : str) : bool :=
  match w with
  | [] => false
  | _ => forallb word_char w
  end.

End WithRuntime.
End Utils.

(** Evaluate the label tests on literal labels. *)
Ltac eval_contains_in H :=
  repeat match type of H with
         | context [PyStr.contains (PyStr.u ?a) (PyStr.u ?b)] =>
           let v := eval vm_compute in (PyStr.contains (PyStr.u a) (PyStr.u b)) in
           change (PyStr.contains (PyStr.u a) (PyStr.u b)) with v in H
         end.

Ltac eval_contains :=
  repeat match goal with
         | |- context [PyStr.contains (PyStr.u ?a) (PyStr.u ?b)] =>
           let v := eval vm_compute in (PyStr.contains (PyStr.u a) (PyStr.u b)) in
           change (PyStr.contains (PyStr.u a) (PyStr.u b)) with v
         end.

(** * Properties *)

(** ** The cache (spec 4.1) *)

Section CacheFacts.
Context {V : Type}.
Implicit Types (self : RTanksScraper V) (k : str) (v : V) (now : Q).

Lemma Qltb_lt (a b : Q) : Qltb a b = true <-> (a < b)%Q.
Proof.
  unfold Qltb. rewrite Qlt_alt. destruct (a ?= b)%Q; split; congruence.
Qed.

Lemma Qltb_ge (a b : Q) : Qltb a b = false <-> (b <= a)%Q.
Proof.
  rewrite <- not_true_iff_false, Qltb_lt. split.
  - apply Qnot_lt_le.
  - intros H1 H2. exact (Qle_not_lt _ _ H1 H2).
Qed.

(** Neither lookup method writes to the object nor logs. *)
Lemma is_cache_valid_reads_only now k self :
  self_after (Scraper.is_cache_valid now k self) = self
  /\ logged (Scraper.is_cache_valid now k self) = [].
Proof. unfold Scraper.is_cache_valid. destruct (cache self !! k); auto. Qed.

Lemma get_from_cache_reads_only now k self :
  self_after (Scraper.get_from_cache now k self) = self.
Proof.
  unfold Scraper.get_from_cache, Scraper.is_cache_valid.
  destruct (cache self !! k) as [e|]; [|reflexivity].
  cbn. destruct (Qltb _ _); reflexivity.
Qed.

(** What get returns, in terms of the stored entry. *)
Lemma get_from_cache_returned now k self :
  returned (Scraper.get_from_cache now k self) =
  match cache self !! k with
  | Some e =>
    if Qltb (now - timestamp e) (cache_timeout self) then Some (data e) else None
  | None => None
  end.
Proof.
  unfold Scraper.get_from_cache, Scraper.is_cache_valid.
  destruct (cache self !! k) as [e|] eqn:E; [|reflexivity].
  cbn. destruct (Qltb _ _); cbn; [|reflexivity]. now rewrite E.
Qed.

Lemma set_cache_lookup now k v self :
  cache (self_after (Scraper.set_cache now k v self)) !! k
  = Some {| data := v; timestamp := now |}.
Proof. cbn. apply lookup_insert_eq. Qed.

Lemma set_cache_other now k k' v self :
  k <> k' ->
  cache (self_after (Scraper.set_cache now k v self)) !! k' = cache self !! k'.
Proof. intros H. cbn. now apply lookup_insert_ne. Qed.

(** An entry exactly [cache_timeout] old is already stale. *)
Lemma get_from_cache_at_timeout k v self (t0 : Q) :
  returned (Scraper.get_from_cache (t0 + cache_timeout self) k
              (self_after (Scraper.set_cache t0 k v self))) = None.
Proof.
  rewrite get_from_cache_returned, set_cache_lookup. cbn [timestamp data].
  replace (cache_timeout (self_after (Scraper.set_cache t0 k v self)))
    with (cache_timeout self) by reflexivity.
  destruct (Qltb _ _) eqn:E; [|reflexivity].
  apply Qltb_lt in E. lra.
Qed.

(** C6. After [set_cache] at time [t0], [get_from_cache] at time [t1]
    returns the value while less than 300 seconds have passed and [None]
    once more than 300 seconds have passed; the entry is still in the cache
    after the stale lookup, lookups leave the object as it was, and
    [set_cache] stores the value with the time of the call whatever was
    under the key. *)
Theorem cache_set_then_get self k v (t0 t1 : Q) :
  (cache_timeout self == 300)%Q ->
  let stored := self_after (Scraper.set_cache t0 k v self) in
  ((t1 - t0 < 300)%Q ->
     returned (Scraper.get_from_cache t1 k stored) = Some v)
  /\ ((300 < t1 - t0)%Q ->
     returned (Scraper.get_from_cache t1 k stored) = None
     /\ cache (self_after (Scraper.get_from_cache t1 k stored)) !! k
        = Some {| data := v; timestamp := t0 |})
  /\ (forall now k' s, self_after (Scraper.get_from_cache (V:=V) now k' s) = s)
  /\ cache stored !! k = Some {| data := v; timestamp := t0 |}
  /\ (forall k', k <> k' -> cache stored !! k' = cache self !! k').
Proof.
  intros Httl stored.
  assert (Hst : cache stored !! k = Some {| data := v; timestamp := t0 |})
    by apply set_cache_lookup.
  assert (Hto : cache_timeout stored = cache_timeout self) by reflexivity.
  repeat split.
  - intros Hfresh. rewrite get_from_cache_returned, Hst, Hto. cbn [timestamp data].
    destruct (Qltb _ _) eqn:E; [reflexivity|].
    apply Qltb_ge in E. lra.
  - rewrite get_from_cache_returned, Hst, Hto. cbn [timestamp data].
    destruct (Qltb _ _) eqn:E; [|reflexivity].
    apply Qltb_lt in E. lra.
  - now rewrite get_from_cache_reads_only.
  - intros. apply get_from_cache_reads_only.
  - exact Hst.
  - intros k' Hne. now apply set_cache_other.
Qed.

End CacheFacts.

Lemma cache_set_then_get_witness :
  let k := PyStr.u "player_Foo" in
  let stored := self_after (Scraper.set_cache 1000 k 7%Z Scraper.init) in
  returned (Scraper.get_from_cache 1299 k stored) = Some 7%Z
  /\ returned (Scraper.get_from_cache 1301 k stored) = None.
Proof.
  intros k stored.
  destruct (cache_set_then_get Scraper.init k 7%Z 1000 1299 ltac:(reflexivity))
    as (Hfresh & _).
  destruct (cache_set_then_get Scraper.init k 7%Z 1000 1301 ltac:(reflexivity))
    as (_ & Hstale & _).
  split.
  - apply Hfresh. reflexivity.
  - apply Hstale. reflexivity.
Defined.

(** ** Sorting by rank *)

Lemma insert_by_rank_perm e l : Permutation (insert_by_rank e l) (e :: l).
Proof.
  induction l as [|x l IH]; cbn; [reflexivity|].
  destruct (Entry.rank e <=? Entry.rank x)%Z; [reflexivity|].
  rewrite IH. apply perm_swap.
Qed.

Lemma sort_by_rank_perm l : Permutation (sort_by_rank l) l.
Proof.
  induction l as [|x l IH]; cbn; [reflexivity|].
  rewrite insert_by_rank_perm. now constructor.
Qed.

Lemma sort_by_rank_length l : length (sort_by_rank l) = length l.
Proof. apply Permutation_length, sort_by_rank_perm. Qed.

Lemma insert_by_rank_sorted e l :
  StronglySorted rank_le l -> StronglySorted rank_le (insert_by_rank e l).
Proof.
  induction 1 as [|x l Hl IH Hx]; cbn.
  - repeat constructor.
  - destruct (Z.leb_spec (Entry.rank e) (Entry.rank x)) as [Hle|Hgt].
    + constructor; [now constructor|].
      constructor; [exact Hle|].
      eapply List.Forall_impl; [|exact Hx]. unfold rank_le. cbn. intros; lia.
    + constructor; [exact IH|].
      eapply Permutation_Forall; [symmetry; apply insert_by_rank_perm|].
      constructor; [unfold rank_le; lia | exact Hx].
Qed.

Lemma sort_by_rank_sorted l : StronglySorted rank_le (sort_by_rank l).
Proof.
  induction l as [|x l IH]; cbn; [constructor|].
  now apply insert_by_rank_sorted.
Qed.

(** Stability: rows of one rank come out in the order they went in. *)
Lemma insert_by_rank_stable r e l :
  List.filter (fun x => Entry.rank x =? r)%Z (insert_by_rank e l)
  = List.filter (fun x => Entry.rank x =? r)%Z (e :: l).
Proof.
  induction l as [|x l IH]; [reflexivity|].
  cbn [insert_by_rank].
  destruct (Z.leb_spec (Entry.rank e) (Entry.rank x)) as [Hle|Hgt]; [reflexivity|].
  cbn [List.filter] in *. rewrite IH.
  destruct (Z.eqb_spec (Entry.rank x) r), (Z.eqb_spec (Entry.rank e) r);
    try reflexivity; lia.
Qed.

Lemma sort_by_rank_stable r l :
  List.filter (fun x => Entry.rank x =? r)%Z (sort_by_rank l)
  = List.filter (fun x => Entry.rank x =? r)%Z l.
Proof.
  induction l as [|x l IH]; [reflexivity|].
  cbn [sort_by_rank fold_right]. rewrite insert_by_rank_stable.
  cbn [List.filter]. fold (sort_by_rank l). now rewrite IH.
Qed.

Lemma In_firstn {A} (x : A) n l : In x (firstn n l) -> In x l.
Proof.
  revert n. induction l as [|y l IH]; intros [|n]; cbn; try tauto.
  intros [H|H]; [now left | right; eauto].
Qed.

Lemma firstn_sorted n l :
  StronglySorted rank_le l -> StronglySorted rank_le (firstn n l).
Proof.
  intros H. revert n. induction H as [|x l Hl IH Hx]; intros [|n]; cbn;
    try constructor; auto.
  apply List.Forall_forall. intros y Hy. rewrite List.Forall_forall in Hx.
  apply Hx. eapply In_firstn; eauto.
Qed.

(** ** Loops that may raise *)

Section ForEach.
Context {A S : Type}.
Implicit Types (body : S -> A -> result S) (xs : list A) (acc : S).

Lemma for_each_app body xs ys acc :
  for_each body (xs ++ ys) acc
  = match for_each body xs acc with
    | Ok acc' => for_each body ys acc'
    | Raise e => Raise e
    end.
Proof.
  revert acc. induction xs as [|x xs IH]; intros acc; [reflexivity|].
  cbn [for_each app]. unfold mbind, result_bind.
  destruct (body acc x); [apply IH | reflexivity].
Qed.

Lemma for_each_ext body1 body2 xs acc :
  (forall s a, body1 s a = body2 s a) ->
  for_each body1 xs acc = for_each body2 xs acc.
Proof.
  intros H. revert acc. induction xs as [|x xs IH]; intros acc; [reflexivity|].
  cbn [for_each]. rewrite H. unfold mbind, result_bind.
  destruct (body2 acc x); [apply IH | reflexivity].
Qed.

(** A property every completed pass of the body keeps is kept by the loop. *)
Lemma for_each_preserves (P : S -> Prop) body xs acc r :
  (forall s a s', In a xs -> body s a = Ok s' -> P s -> P s') ->
  P acc -> for_each body xs acc = Ok r -> P r.
Proof.
  revert acc. induction xs as [|x xs IH]; intros acc Hbody Hacc Hr.
  - cbn in Hr. now inversion Hr; subst.
  - cbn [for_each] in Hr. unfold mbind, result_bind in Hr.
    destruct (body acc x) as [acc'|] eqn:E; [|discriminate].
    apply (IH acc'); auto.
    + intros s a s' Ha. apply Hbody. now right.
    + eapply Hbody; eauto. now left.
Qed.

End ForEach.

(** The two nested loops are one loop over the rows of all tables. *)
Lemma for_each_flat_map {A B S} (body : S -> B -> result S) (f : A -> list B)
  (xs : list A) (acc : S) :
  for_each (fun s a => for_each body (f a) s) xs acc
  = for_each body (flat_map f xs) acc.
Proof.
  revert acc. induction xs as [|x xs IH]; intros acc; [reflexivity|].
  cbn [for_each flat_map]. rewrite for_each_app. unfold mbind, result_bind.
  destruct (for_each body (f x) acc); [apply IH | reflexivity].
Qed.

(** ** The leaderboard extractor (spec 4.4) *)

Section LeaderboardFacts.
Context (R : Runtime).
Import PyStr Soup Rows.

(** One pass of the loop body, in terms of the row. *)
Lemma leaderboard_row_eq players row :
  Scraper.leaderboard_row R players row =
  if accepted R row then
    match row_entry R row with
    | Some e => Ok (players ++ [e])
    | None => Raise (ValueError (rank_text R row))
    end
  else Ok players.
Proof.
  unfold Scraper.leaderboard_row, accepted, row_entry, rank_text, row_texts.
  destruct (find_all (u "td") row) as [|c0 [|c1 [|c2 cells]]]; try reflexivity.
  destruct (isdigit R (get_text_strip R c0) && _ && _); [|reflexivity].
  unfold int_, mbind, result_bind.
  destruct (py_int R (get_text_strip R c0)); reflexivity.
Qed.

Lemma row_entry_accepted row e : row_entry R row = Some e -> accepted R row = true.
Proof.
  unfold row_entry, accepted. destruct (row_texts R row) as [[[rt nm] vt]|]; [|discriminate].
  destruct (isdigit R rt && truthy nm && nonempty vt); [reflexivity | discriminate].
Qed.

Lemma omap_cons {A B} (f : A -> option B) x l :
  omap f (x :: l) = match f x with Some y => y :: omap f l | None => omap f l end.
Proof. reflexivity. Qed.

(** The loop, when it completes, has appended the entries of the rows. *)
Lemma leaderboard_rows_inv rows players l :
  for_each (Scraper.leaderboard_row R) rows players = Ok l ->
  l = players ++ omap (row_entry R) rows /\ ranks_readable R rows.
Proof.
  revert players. induction rows as [|row rows IH]; intros players H.
  - cbn in H. inversion H; subst. split; [now rewrite app_nil_r | constructor].
  - cbn [for_each] in H. unfold mbind, result_bind in H.
    rewrite leaderboard_row_eq in H. rewrite omap_cons.
    destruct (accepted R row) eqn:Hacc.
    + destruct (row_entry R row) as [e|] eqn:He; [|discriminate].
      apply IH in H as [-> Hrest]. split.
      * now rewrite <- app_assoc.
      * constructor; [intros _; eauto | exact Hrest].
    + apply IH in H as [-> Hrest].
      destruct (row_entry R row) as [e|] eqn:He.
      * apply row_entry_accepted in He. congruence.
      * split; [reflexivity|]. constructor; [congruence | exact Hrest].
Qed.

(** The loop completes when int() reads the rank of every accepted row. *)
Lemma leaderboard_rows_ok rows players :
  ranks_readable R rows ->
  for_each (Scraper.leaderboard_row R) rows players
  = Ok (players ++ omap (row_entry R) rows).
Proof.
  intros H. revert players. induction H as [|row rows Hrow Hrows IH]; intros players.
  - cbn. now rewrite app_nil_r.
  - cbn [for_each]. rewrite omap_cons. unfold mbind, result_bind.
    rewrite leaderboard_row_eq.
    destruct (accepted R row) eqn:Hacc.
    + destruct (Hrow eq_refl) as [e He]. rewrite He.
      rewrite IH. now rewrite <- app_assoc.
    + destruct (row_entry R row) as [e|] eqn:He.
      * apply row_entry_accepted in He. congruence.
      * apply IH.
Qed.

(** The loop stops with ValueError at the first accepted row whose rank
    int() rejects. *)
Lemma leaderboard_rows_raise before row after players :
  ranks_readable R before ->
  accepted R row = true -> row_entry R row = None ->
  for_each (Scraper.leaderboard_row R) (before ++ row :: after) players
  = Raise (ValueError (rank_text R row)).
Proof.
  intros Hb Hacc He. rewrite for_each_app, (leaderboard_rows_ok _ _ Hb).
  cbn [for_each]. unfold mbind, result_bind.
  now rewrite leaderboard_row_eq, Hacc, He.
Qed.

Lemma parse_leaderboard_try_eq html soup :
  BeautifulSoup R html = Ok soup ->
  Scraper.parse_leaderboard_try R html =
  match for_each (Scraper.leaderboard_row R) (all_rows soup) [] with
  | Ok players => Ok (firstn 10 (sort_by_rank players))
  | Raise e => Raise e
  end.
Proof.
  intros Hsoup. unfold Scraper.parse_leaderboard_try. rewrite Hsoup.
  unfold mbind at 1, result_bind at 1. rewrite for_each_flat_map.
  reflexivity.
Qed.

Lemma parse_leaderboard_try_inv html out :
  Scraper.parse_leaderboard_try R html = Ok out ->
  exists soup players,
    BeautifulSoup R html = Ok soup
    /\ for_each (Scraper.leaderboard_row R) (all_rows soup) [] = Ok players
    /\ out = firstn 10 (sort_by_rank players).
Proof.
  intros H. destruct (BeautifulSoup R html) as [soup|e] eqn:Hsoup.
  - rewrite (parse_leaderboard_try_eq _ _ Hsoup) in H.
    destruct (for_each _ _ _) as [players|e] eqn:E; [|discriminate].
    inversion H. eauto.
  - unfold Scraper.parse_leaderboard_try in H. rewrite Hsoup in H. discriminate.
Qed.

(** On a page the parser accepts, the [try] body completes exactly when
    int() reads the rank text of every accepted row. *)
Lemma parse_leaderboard_completes html soup :
  BeautifulSoup R html = Ok soup ->
  (exists out, Scraper.parse_leaderboard_try R html = Ok out)
  <-> ranks_readable R (all_rows soup).
Proof.
  intros Hsoup. rewrite (parse_leaderboard_try_eq _ _ Hsoup). split.
  - intros [out H].
    destruct (for_each _ _ _) as [players|e] eqn:E; [|discriminate].
    now apply leaderboard_rows_inv in E.
  - intros H. rewrite (leaderboard_rows_ok _ _ H). eauto.
Qed.

(** What the method returns, in terms of its [try] body. *)
Lemma parse_leaderboard_returned {V} html (self : RTanksScraper V) :
  returned (Scraper.parse_leaderboard R html self)
  = match Scraper.parse_leaderboard_try R html with
    | Ok players => players
    | Raise _ => []
    end.
Proof.
  unfold Scraper.parse_leaderboard.
  destruct (Scraper.parse_leaderboard_try R html); reflexivity.
Qed.

(** Whatever the page, the list returned is in ascending rank order and has
    at most ten entries. *)
Lemma parse_leaderboard_sorted_short {V} html (self : RTanksScraper V) :
  StronglySorted rank_le (returned (Scraper.parse_leaderboard R html self))
  /\ (length (returned (Scraper.parse_leaderboard R html self)) <= 10)%nat.
Proof.
  rewrite parse_leaderboard_returned.
  destruct (Scraper.parse_leaderboard_try R html) as [out|e] eqn:E.
  - apply parse_leaderboard_try_inv in E as (soup & players & _ & _ & ->).
    split; [apply firstn_sorted, sort_by_rank_sorted | apply firstn_le_length].
  - split; [constructor | cbn [length]; lia].
Qed.

End LeaderboardFacts.

(** ** Values (spec 4.4, value parsing) *)

Section ValueFacts.
Context (R : Runtime).
Import PyStr Soup Rows.

Lemma drop_while_In p s c : In c (drop_while p s) -> In c s.
Proof.
  induction s as [|x s IH]; cbn; [tauto|].
  destruct (p x); [right; auto | cbn; tauto].
Qed.

Lemma strip_with_In p s c : In c (strip_with p s) -> In c s.
Proof.
  unfold strip_with. intros H.
  apply in_rev, drop_while_In, in_rev, drop_while_In in H. exact H.
Qed.

(** int() of a literal without a minus sign is not negative. *)
Lemma py_int_nonneg s v : py_int R s = Some v -> ~ In 45 s -> (0 <= v)%Z.
Proof.
  unfold py_int. intros H Hminus.
  destruct (strip_with (int_isspace R) s) as [|c body] eqn:E; [discriminate|].
  destruct (N.eqb_spec c 45) as [->|_].
  { exfalso. apply Hminus, (strip_with_In (int_isspace R)). rewrite E. now left. }
  destruct (c =? 43);
    (destruct (int_unsigned R _) as [n|]; [|discriminate]);
    cbn in H; inversion H; lia.
Qed.

Lemma clean_value_nonneg value_text : (0 <= Scraper.clean_value R value_text)%Z.
Proof.
  unfold Scraper.clean_value.
  destruct (nonempty _); [|lia].
  destruct (py_int R _) as [v|] eqn:E; [|lia].
  apply py_int_nonneg in E; [exact E|].
  unfold replace_space, strip, sub_keep_digits_spaces. intros H.
  apply filter_In in H as [H _].
  apply strip_with_In in H. apply filter_In in H as [_ H].
  vm_compute in H. discriminate.
Qed.

Lemma filter_drop_while (p : N -> bool) s :
  List.filter (fun c => negb (p c)) (drop_while p s)
  = List.filter (fun c => negb (p c)) s.
Proof.
  induction s as [|x s IH]; [reflexivity|]. cbn.
  destruct (p x) eqn:E; cbn; [exact IH | now rewrite E].
Qed.

Lemma filter_strip_with (p : N -> bool) s :
  List.filter (fun c => negb (p c)) (strip_with p s)
  = List.filter (fun c => negb (p c)) s.
Proof.
  unfold strip_with.
  rewrite <- (rev_involutive (List.filter _ (rev _))).
  rewrite <- List.filter_rev, rev_involutive, filter_drop_while.
  rewrite List.filter_rev, rev_involutive. apply filter_drop_while.
Qed.

(** On such a text the code computes the value the specification words. *)
Lemma clean_value_as_stated value_text :
  spaces_only R value_text ->
  Scraper.clean_value R value_text = AsStated.claimed_value R value_text.
Proof.
  intros H. unfold Scraper.clean_value, AsStated.claimed_value.
  assert (E : replace_space (strip R (sub_keep_digits_spaces R value_text))
              = List.filter (fun c => negb (isspace R c))
                  (List.filter (fun c => isdecimal R c || isspace R c) value_text)).
  { unfold strip. rewrite <- (filter_strip_with (isspace R)).
    unfold replace_space. apply filter_ext_in. intros c Hc.
    destruct (isspace R c) eqn:Hsp.
    - now rewrite (H c Hc Hsp).
    - destruct (N.eqb_spec c 32) as [->|]; [|reflexivity].
      vm_compute in Hsp. discriminate. }
  now rewrite E.
Qed.

End ValueFacts.

(** ** What the leaderboard extractor returns (spec 4.4 and 8) *)

Section LeaderboardResults.
Import PyStr Soup Rows.

(** An entry of the list returned is the entry of a row of the page. *)
Lemma returned_entry_row R {V} html (self : RTanksScraper V) e :
  In e (returned (Scraper.parse_leaderboard R html self)) ->
  exists soup row,
    BeautifulSoup R html = Ok soup /\ In row (all_rows soup)
    /\ row_entry R row = Some e.
Proof.
  rewrite parse_leaderboard_returned.
  destruct (Scraper.parse_leaderboard_try R html) as [out|err] eqn:E; [|intros []].
  apply parse_leaderboard_try_inv in E as (soup & players & Hsoup & Hloop & ->).
  apply leaderboard_rows_inv in Hloop as [-> _]. rewrite app_nil_l.
  intros He. apply In_firstn in He.
  apply (Permutation_in _ (sort_by_rank_perm _)) in He.
  apply list_elem_of_In in He. apply list_elem_of_omap in He as (row & Hrow & Hentry).
  exists soup, row. repeat split; auto. now apply list_elem_of_In.
Qed.

(** The list returned is in ascending rank order and has at most ten
    entries, whatever the page; and when int() reads the rank text of every
    accepted row, so that no exception ends the parse, it is the first ten,
    in ascending rank order with equal ranks in page order, of the entries
    of the accepted rows of all the tables of the page. *)
Theorem leaderboard_first_ten R {V} (html : str) (self : RTanksScraper V) :
  let out := returned (Scraper.parse_leaderboard R html self) in
  StronglySorted rank_le out
  /\ (length out <= 10)%nat
  /\ (forall soup,
        BeautifulSoup R html = Ok soup ->
        ranks_readable R (all_rows soup) ->
        let players := omap (row_entry R) (all_rows soup) in
        out = firstn 10 (sort_by_rank players)
        /\ Permutation (sort_by_rank players) players
        /\ (forall r, List.filter (fun x => Entry.rank x =? r)%Z (sort_by_rank players)
                      = List.filter (fun x => Entry.rank x =? r)%Z players)).
Proof.
  intros out. destruct (parse_leaderboard_sorted_short R html self) as [Hs Hl].
  split; [exact Hs|]. split; [exact Hl|].
  intros soup Hsoup Hread players. repeat split.
  - unfold out. rewrite parse_leaderboard_returned.
    rewrite (parse_leaderboard_try_eq _ _ _ Hsoup).
    now rewrite (leaderboard_rows_ok _ _ _ Hread).
  - apply sort_by_rank_perm.
  - intros r. apply sort_by_rank_stable.
Qed.

Lemma leaderboard_first_ten_witness :
  returned (Scraper.parse_leaderboard Sample.runtime Sample.two_tables_html
              Sample.scraper)
  = [ {| Entry.rank := 1; Entry.name := u "Alice"; Entry.value := 1000;
         Entry.formatted_value := u "1 000" |};
      {| Entry.rank := 2; Entry.name := u "Bob"; Entry.value := 500;
         Entry.formatted_value := u "500" |} ].
Proof.
  destruct (leaderboard_first_ten Sample.runtime Sample.two_tables_html
              Sample.scraper) as (_ & _ & H).
  destruct (H Sample.two_tables_soup) as [Hout _].
  - vm_compute. reflexivity.
  - repeat constructor; intros _; vm_compute; eauto.
  - rewrite Hout. vm_compute. reflexivity.
Defined.

(** C3. On the page whose rows are (1, Alice, 100) and ("²", Bob, 5) both
    rows pass the acceptance test, and int() reads the rank of the first.
    int() rejects "²" after isdigit() has let it through, the exception
    ends the parse and the list returned is empty: it is not the first ten
    of the accepted rows, not even the row read before the failing one. *)
Theorem leaderboard_first_ten_lost_on_superscript :
  BeautifulSoup Sample.runtime Sample.superscript_html = Ok Sample.superscript_soup
  /\ map (accepted Sample.runtime) (all_rows Sample.superscript_soup) = [true; true]
  /\ map (fun row => py_int Sample.runtime (rank_text Sample.runtime row))
         (all_rows Sample.superscript_soup)
     = [Some 1%Z; None]
  /\ returned (Scraper.parse_leaderboard Sample.runtime Sample.superscript_html
                 Sample.scraper) = []
  /\ ~ AsStated.first_ten_of_accepted Sample.runtime Sample.superscript_html
        (returned (Scraper.parse_leaderboard Sample.runtime Sample.superscript_html
                     Sample.scraper)).
Proof.
  split; [vm_compute; reflexivity|].
  split; [vm_compute; reflexivity|].
  split; [vm_compute; reflexivity|].
  split; [vm_compute; reflexivity|].
  intros H.
  destruct (H Sample.superscript_soup) as (entries & HF & Hout);
    [vm_compute; reflexivity|].
  apply Forall2_length in HF.
  apply (f_equal (@length Entry.t)) in Hout.
  rewrite length_firstn, sort_by_rank_length, <- HF in Hout.
  vm_compute in Hout. discriminate.
Qed.

(** A row is kept exactly when it passes the acceptance test and int()
    reads its rank text. *)
Lemma leaderboard_row_kept R players row :
  (exists e, Scraper.leaderboard_row R players row = Ok (players ++ [e]))
  <-> accepted R row = true /\ is_Some (py_int R (rank_text R row)).
Proof.
  rewrite leaderboard_row_eq. unfold row_entry, accepted, rank_text.
  destruct (row_texts R row) as [[[rt nm] vt]|].
  - destruct (isdigit R rt && truthy nm && nonempty vt).
    + destruct (py_int R rt) as [r|]; split.
      * intros _. split; eauto.
      * intros _. eauto.
      * intros [e He]. discriminate.
      * intros [_ [x Hx]]. discriminate.
    + split; [|intros [? _]; discriminate].
      intros [e He]. inversion He as [Hl].
      apply (f_equal (@length Entry.t)) in Hl. rewrite length_app in Hl.
      cbn in Hl. lia.
  - split; [|intros [? _]; discriminate].
    intros [e He]. inversion He as [Hl].
    apply (f_equal (@length Entry.t)) in Hl. rewrite length_app in Hl.
    cbn in Hl. lia.
Qed.

(** A row whose rank text is not all digits, such as "N/A", adds nothing. *)
Lemma non_numeric_rank_dropped R players row :
  isdigit R (rank_text R row) = false ->
  Scraper.leaderboard_row R players row = Ok players.
Proof.
  intros H. rewrite leaderboard_row_eq. unfold accepted, rank_text in *.
  destruct (row_texts R row) as [[[rt nm] vt]|]; [|reflexivity].
  now rewrite H.
Qed.

(** C4. The row ("²", Bob, "5") has a rank text of digits only, a name and
    a value text, so the acceptance test passes; yet int() rejects "²", the
    loop body raises ValueError, no entry is kept for the row and the whole
    list comes back empty. *)
Theorem superscript_rank_not_kept :
  row_texts Sample.runtime Sample.superscript_row
    = Some (u "²", Some (u "Bob"), u "5")
  /\ isdigit Sample.runtime (u "²") = true
  /\ accepted Sample.runtime Sample.superscript_row = true
  /\ Scraper.leaderboard_row Sample.runtime [] Sample.superscript_row
     = Raise (ValueError (u "²"))
  /\ Scraper.parse_leaderboard Sample.runtime Sample.superscript_html
       Sample.scraper
     = ([], Sample.scraper,
        [LogError (u "Error parsing leaderboard: ") (ValueError (u "²"))])
  /\ ~ AsStated.kept_iff_accepted Sample.runtime Sample.superscript_row.
Proof.
  repeat split; try (vm_compute; reflexivity).
  intros H. destruct (H []) as [_ Hkept].
  destruct Hkept as [e He]; [vm_compute; reflexivity|].
  vm_compute in He. discriminate.
Qed.

(** C5, as stated, fails for the value text "1<TAB>000": the tab survives
    the deletions, int() rejects the literal and the value is 0, not 1000. *)
Lemma leaderboard_value_counterexample :
  ~ (forall e,
       In e (returned (Scraper.parse_leaderboard Sample.runtime
                         Sample.tab_value_html Sample.scraper)) ->
       Entry.value e
       = AsStated.claimed_value Sample.runtime (Entry.formatted_value e)).
Proof.
  intros H.
  specialize (H {| Entry.rank := 1; Entry.name := u "Alice"; Entry.value := 0;
                   Entry.formatted_value := Sample.tab_value |}).
  assert (Hin : In {| Entry.rank := 1; Entry.name := u "Alice"; Entry.value := 0;
                      Entry.formatted_value := Sample.tab_value |}
                   (returned (Scraper.parse_leaderboard Sample.runtime
                                Sample.tab_value_html Sample.scraper))).
  { vm_compute. left. reflexivity. }
  specialize (H Hin). vm_compute in H. discriminate.
Qed.

(** C5 (amended). For every entry returned: its display text is the value
    text of a row of the page; its value is what int() reads in that text
    once every character other than a digit or whitespace is deleted, the
    whitespace at both ends is trimmed and every U+0020 space is deleted,
    and 0 when nothing is left or int() rejects what is left; the value is
    not negative; and it is the value obtained by deleting all whitespace
    whenever the whitespace left inside the text is made of U+0020 only. *)
Theorem leaderboard_value R {V} (html : str) (self : RTanksScraper V) e :
  In e (returned (Scraper.parse_leaderboard R html self)) ->
  (exists soup row rank_text player_name,
      BeautifulSoup R html = Ok soup /\ In row (all_rows soup)
      /\ row_texts R row = Some (rank_text, player_name, Entry.formatted_value e))
  /\ Entry.value e
     = match py_int R (replace_space
                         (strip R (sub_keep_digits_spaces R (Entry.formatted_value e))))
       with
       | Some v => v
       | None => 0%Z
       end
  /\ (0 <= Entry.value e)%Z
  /\ (Rows.spaces_only R (Entry.formatted_value e) ->
      Entry.value e = AsStated.claimed_value R (Entry.formatted_value e)).
Proof.
  intros He. apply returned_entry_row in He as (soup & row & Hsoup & Hrow & Hentry).
  unfold row_entry in Hentry.
  destruct (row_texts R row) as [[[rt nm] vt]|] eqn:Htexts; [|discriminate].
  destruct (isdigit R rt && truthy nm && nonempty vt); [|discriminate].
  destruct (py_int R rt) as [r|]; [|discriminate].
  inversion Hentry; subst e; cbn [Entry.value Entry.formatted_value].
  repeat split.
  - exists soup, row, rt, nm. auto.
  - unfold Scraper.clean_value.
    destruct (replace_space _) as [|c s]; reflexivity.
  - apply clean_value_nonneg.
  - apply clean_value_as_stated.
Qed.

Lemma leaderboard_value_witness :
  let alice := {| Entry.rank := 1; Entry.name := u "Alice"; Entry.value := 1000;
                  Entry.formatted_value := u "1 000" |} in
  In alice (returned (Scraper.parse_leaderboard Sample.runtime
                        Sample.leaderboard_html Sample.scraper))
  /\ Entry.value alice
     = AsStated.claimed_value Sample.runtime (Entry.formatted_value alice).
Proof.
  intros alice.
  assert (Hin : In alice (returned (Scraper.parse_leaderboard Sample.runtime
                                      Sample.leaderboard_html Sample.scraper))).
  { vm_compute. left. reflexivity. }
  split; [exact Hin|].
  destruct (leaderboard_value Sample.runtime Sample.leaderboard_html
              Sample.scraper alice Hin) as (_ & _ & _ & Hstated).
  apply Hstated. intros c Hc Hsp.
  vm_compute in Hc. intuition (subst; try reflexivity; vm_compute in Hsp; discriminate).
Defined.

End LeaderboardResults.

(** ** The two leaderboard parsers *)

Section TwoParsers.
Context (R : Runtime).
Import PyStr Soup.

Lemma resolve_player_name_agree player_cell :
  Part000.resolve_player_name R player_cell
  = Scraper.resolve_player_name R player_cell.
Proof.
  unfold Part000.resolve_player_name, Scraper.resolve_player_name.
  destruct (find (u "a") player_cell) as [a|].
  - destruct (get_text_strip R a) as [|c s]; cbn [truthy negb default].
    + destruct (find (u "img") player_cell) as [img|].
      * destruct (strip R (get_or_empty (u "alt") img)) as [|c s];
          cbn [truthy negb default]; [|reflexivity].
        destruct (get_text_strip R player_cell); reflexivity.
      * destruct (get_text_strip R player_cell); reflexivity.
    + reflexivity.
  - cbn [truthy negb default].
    destruct (find (u "img") player_cell) as [img|].
    + destruct (strip R (get_or_empty (u "alt") img)) as [|c s];
        cbn [truthy negb default]; [|reflexivity].
      destruct (get_text_strip R player_cell); reflexivity.
    + destruct (get_text_strip R player_cell); reflexivity.
Qed.

Lemma clean_value_agree value_text :
  Part000.clean_value R value_text = Scraper.clean_value R value_text.
Proof.
  unfold Part000.clean_value, Scraper.clean_value, int_.
  destruct (nonempty _); [|reflexivity].
  destruct (py_int R _); reflexivity.
Qed.

Lemma leaderboard_row_agree players row :
  Part000.leaderboard_row R players row = Scraper.leaderboard_row R players row.
Proof.
  unfold Part000.leaderboard_row, Scraper.leaderboard_row.
  destruct (find_all (u "td") row) as [|c0 [|c1 [|c2 cells]]]; try reflexivity.
  cbn [length Nat.leb nth_error].
  rewrite resolve_player_name_agree, clean_value_agree. reflexivity.
Qed.

Lemma parse_leaderboard_try_agree html :
  Part000.parse_leaderboard_try R html = Scraper.parse_leaderboard_try R html.
Proof.
  unfold Part000.parse_leaderboard_try, Scraper.parse_leaderboard_try.
  destruct (BeautifulSoup R html) as [soup|e]; [|reflexivity].
  unfold mbind, result_bind.
  rewrite !for_each_flat_map.
  now rewrite (for_each_ext _ _ _ _ leaderboard_row_agree).
Qed.

End TwoParsers.

(** C10. The parse_leaderboard of [src/unnamed/part_000] and the one of
    [src/scraper.py] return the same list for every page, leave the object
    as it was and log the same diagnostic. *)
Theorem parse_leaderboard_variants_agree R {V} (html : str) (self : RTanksScraper V) :
  Part000.parse_leaderboard R html self = Scraper.parse_leaderboard R html self.
Proof.
  unfold Part000.parse_leaderboard, Scraper.parse_leaderboard.
  now rewrite parse_leaderboard_try_agree.
Qed.

(** ** Totality and purity of the extractors (spec 7 and 8) *)

Section Boundary.
Context (R : Runtime) {V : Type}.

Lemma parse_player_profile_returned html nickname (self : RTanksScraper V) :
  returned (Scraper.parse_player_profile R html nickname self)
  = match Scraper.parse_player_profile_try R html nickname with
    | Ok player_data => player_data
    | Raise _ => None
    end.
Proof.
  unfold Scraper.parse_player_profile.
  destruct (Scraper.parse_player_profile_try R html nickname); reflexivity.
Qed.

End Boundary.

(** C7. Each extractor returns a value for every input: what its [try]
    body computes when that completes and, when the body raises (the
    parser, or int() on a text that isdigit() let through), [None] for the
    profile and the empty list for the leaderboard, with the error logged;
    the object is left as it was in both cases. *)
Theorem extractors_never_raise R {V} (html nickname : str) (self : RTanksScraper V) :
  (forall e, Scraper.parse_player_profile_try R html nickname = Raise e ->
     Scraper.parse_player_profile R html nickname self
     = (None, self, [LogError (PyStr.u "Error parsing player profile: ") e]))
  /\ (forall p, Scraper.parse_player_profile_try R html nickname = Ok p ->
     Scraper.parse_player_profile R html nickname self = (p, self, []))
  /\ (forall e, Scraper.parse_leaderboard_try R html = Raise e ->
     Scraper.parse_leaderboard R html self
     = ([], self, [LogError (PyStr.u "Error parsing leaderboard: ") e]))
  /\ (forall l, Scraper.parse_leaderboard_try R html = Ok l ->
     Scraper.parse_leaderboard R html self = (l, self, [])).
Proof.
  unfold Scraper.parse_player_profile, Scraper.parse_leaderboard.
  repeat split; intros x Hx; now rewrite Hx.
Qed.

(** A page on which the body raises, and one on which it completes. *)
Lemma extractors_never_raise_witness :
  Scraper.parse_leaderboard Sample.runtime Sample.superscript_html Sample.scraper
  = ([], Sample.scraper,
     [LogError (PyStr.u "Error parsing leaderboard: ") (ValueError (PyStr.u "²"))])
  /\ returned (Scraper.parse_leaderboard Sample.runtime Sample.leaderboard_html
                 Sample.scraper) <> [].
Proof.
  destruct (extractors_never_raise Sample.runtime Sample.superscript_html []
              Sample.scraper) as (_ & _ & Hraise & _).
  split.
  - apply Hraise. vm_compute. reflexivity.
  - vm_compute. discriminate.
Defined.

(** C9. What either extractor returns and logs depends on its arguments
    only, not on the object it is called on (cache, session), and the call
    leaves that object as it was: two calls on the same input return the
    same output. *)
Theorem extractors_pure R {V W} (html nickname : str)
  (self : RTanksScraper V) (other : RTanksScraper W) :
  returned (Scraper.parse_player_profile R html nickname self)
  = returned (Scraper.parse_player_profile R html nickname other)
  /\ returned (Scraper.parse_leaderboard R html self)
     = returned (Scraper.parse_leaderboard R html other)
  /\ logged (Scraper.parse_player_profile R html nickname self)
     = logged (Scraper.parse_player_profile R html nickname other)
  /\ logged (Scraper.parse_leaderboard R html self)
     = logged (Scraper.parse_leaderboard R html other)
  /\ self_after (Scraper.parse_player_profile R html nickname self) = self
  /\ self_after (Scraper.parse_leaderboard R html self) = self
  /\ returned (Scraper.parse_leaderboard R html
                 (self_after (Scraper.parse_leaderboard R html self)))
     = returned (Scraper.parse_leaderboard R html self)
  /\ returned (Scraper.parse_player_profile R html nickname
                 (self_after (Scraper.parse_player_profile R html nickname self)))
     = returned (Scraper.parse_player_profile R html nickname self).
Proof.
  unfold Scraper.parse_player_profile, Scraper.parse_leaderboard.
  destruct (Scraper.parse_player_profile_try R html nickname);
    destruct (Scraper.parse_leaderboard_try R html); repeat split.
Qed.

(** ** The profile extractor (spec 4.3) *)

Section ProfileFacts.
Context (R : Runtime).
Import PyStr Soup Rows.

(** The steps between the existence check and the return. *)
Lemma parse_player_profile_try_inv html nickname soup r :
  BeautifulSoup R html = Ok soup ->
  Scraper.parse_player_profile_try R html nickname = Ok r ->
  if Scraper.player_missing R html nickname then r = None
  else exists pd1 pd2,
    Scraper.extract_experience R
      (List.filter (Scraper.exp_pattern R) (all_strings soup))
      (Scraper.extract_rank R soup
         (Scraper.extract_activity R soup (Scraper.new_player_data nickname)))
    = Ok pd1
    /\ for_each (Scraper.stat_row R) (all_rows soup) pd1 = Ok pd2
    /\ r = Some (Scraper.extract_equipment R soup
                   (Scraper.extract_rankings R soup pd2)).
Proof.
  intros Hsoup H. unfold Scraper.parse_player_profile_try in H.
  rewrite Hsoup in H. unfold mbind at 1, result_bind at 1 in H.
  destruct (Scraper.player_missing R html nickname); [now inversion H|].
  unfold mbind, result_bind in H.
  destruct (Scraper.extract_experience R _ _) as [pd1|] eqn:E1; [|discriminate].
  unfold Scraper.extract_stats in H. rewrite for_each_flat_map in H.
  fold (all_rows soup) in H.
  destruct (for_each _ _ pd1) as [pd2|] eqn:E2; [|discriminate].
  inversion H. eauto.
Qed.

Lemma extract_rank_core soup pd : core (Scraper.extract_rank R soup pd) = core pd.
Proof.
  unfold Scraper.extract_rank. destruct (Scraper.find_rank_section soup); reflexivity.
Qed.

Lemma extract_experience_core texts pd pd' :
  Scraper.extract_experience R texts pd = Ok pd' -> core pd' = core pd.
Proof.
  induction texts as [|t texts IH]; cbn [Scraper.extract_experience]; intros H.
  - now inversion H.
  - destruct (contains (u "/") t); [|auto].
    destruct (isdigit R _); [|auto].
    unfold int_, mbind, result_bind in H.
    destruct (py_int R _); [|discriminate]. now inversion H.
Qed.

Lemma fold_left_preserves {A S} (P : S -> Prop) (f : S -> A -> S) xs acc :
  (forall s a, P s -> P (f s a)) -> P acc -> P (fold_left f xs acc).
Proof.
  intros Hf. revert acc. induction xs as [|x xs IH]; intros acc Hacc; cbn; auto.
Qed.

Lemma extract_rankings_core soup pd :
  core (Scraper.extract_rankings R soup pd) = core pd.
Proof.
  unfold Scraper.extract_rankings. destruct (find (u "table") soup); [|reflexivity].
  apply (fold_left_preserves (fun s => core s = core pd)); [|reflexivity].
  intros s row Hs. unfold Scraper.ranking_row.
  destruct (find_all (u "td") row) as [|c0 [|c1 [|c2 cells]]]; auto.
  destruct (nonempty _ && _ && _); auto.
Qed.

Lemma extract_equipment_core soup pd :
  core (Scraper.extract_equipment R soup pd) = core pd.
Proof. reflexivity. Qed.

(** A row of the table loop leaves the activity alone. *)
Lemma stat_row_activity pd row pd' :
  Scraper.stat_row R pd row = Ok pd' -> Player.activity pd' = Player.activity pd.
Proof.
  unfold Scraper.stat_row, Scraper.stat_branches, int_, mbind, result_bind.
  intros H. repeat case_match; simplify_eq; reflexivity.
Qed.

(** The activity of the record returned is the one the activity step set. *)
Lemma returned_activity html nickname soup p :
  BeautifulSoup R html = Ok soup ->
  Scraper.parse_player_profile_try R html nickname = Ok (Some p) ->
  Player.activity p
  = Player.activity (Scraper.extract_activity R soup (Scraper.new_player_data nickname)).
Proof.
  intros Hsoup H. apply (parse_player_profile_try_inv _ _ _ _ Hsoup) in H.
  destruct (Scraper.player_missing R html nickname); [discriminate|].
  destruct H as (pd1 & pd2 & H1 & H2 & Hp). inversion Hp; subst p.
  assert (Hc : core (Scraper.extract_equipment R soup
                       (Scraper.extract_rankings R soup pd2)) = core pd2)
    by now rewrite extract_equipment_core, extract_rankings_core.
  apply extract_experience_core in H1. rewrite extract_rank_core in H1.
  unfold core in Hc, H1. injection Hc as Hc _ _ _. injection H1 as H1 _ _ _.
  transitivity (Player.activity pd2); [exact Hc|]. rewrite <- H1.
  apply (for_each_preserves (fun s => Player.activity s = Player.activity pd1)
           _ _ _ _ (fun s a s' _ Hb Hs => eq_trans (stat_row_activity _ _ _ Hb) Hs)
           eq_refl H2).
Qed.

End ProfileFacts.

(** C2. When neither "профиль игрока" nor the lowered nickname occurs in
    the lowered page, parse_player_profile returns [None], whatever tables
    the page holds (and whatever the parser made of it). *)
Theorem profile_existence_gate R {V} (html nickname : str) (self : RTanksScraper V) :
  PyStr.contains (PyStr.u "профиль игрока") (PyStr.lower R html) = false ->
  PyStr.contains (PyStr.lower R nickname) (PyStr.lower R html) = false ->
  returned (Scraper.parse_player_profile R html nickname self) = None.
Proof.
  intros Hmarker Hnick. rewrite parse_player_profile_returned.
  unfold Scraper.parse_player_profile_try.
  destruct (BeautifulSoup R html) as [soup|e]; [|reflexivity].
  unfold mbind at 1, result_bind at 1.
  unfold Scraper.player_missing. now rewrite Hmarker, Hnick.
Qed.

Lemma profile_existence_gate_witness :
  Rows.all_rows Sample.not_found_soup <> []
  /\ returned (Scraper.parse_player_profile Sample.runtime Sample.not_found_html
                 (PyStr.u "Foo") Sample.scraper) = None.
Proof.
  split.
  - vm_compute. discriminate.
  - apply (profile_existence_gate Sample.runtime Sample.not_found_html
             (PyStr.u "Foo") Sample.scraper); vm_compute; reflexivity.
Defined.

(** C8. In every profile returned, the activity is "Online" when the
    lowered style of the online dot contains "green", "Offline" when it
    contains "gray" or "grey" and not "green", and "Unknown" otherwise,
    also when there is no dot or the dot has no style. *)
Theorem profile_activity R {V} (html nickname : str) (self : RTanksScraper V)
  (soup : node) (p : Player.t) :
  BeautifulSoup R html = Ok soup ->
  returned (Scraper.parse_player_profile R html nickname self) = Some p ->
  match Rows.indicator_style R soup with
  | Some style =>
    let green := PyStr.contains (PyStr.u "green") (PyStr.lower R style) in
    let gray := PyStr.contains (PyStr.u "gray") (PyStr.lower R style) in
    let grey := PyStr.contains (PyStr.u "grey") (PyStr.lower R style) in
    (green = true -> Player.activity p = PyStr.u "Online")
    /\ (green = false -> gray = true \/ grey = true ->
        Player.activity p = PyStr.u "Offline")
    /\ (green = false -> gray = false -> grey = false ->
        Player.activity p = PyStr.u "Unknown")
  | None => Player.activity p = PyStr.u "Unknown"
  end.
Proof.
  intros Hsoup Hp. rewrite parse_player_profile_returned in Hp.
  destruct (Scraper.parse_player_profile_try R html nickname) as [r|e] eqn:Htry;
    [subst r | discriminate].
  rewrite (returned_activity R _ _ _ _ Hsoup Htry).
  unfold Rows.indicator_style, Scraper.extract_activity.
  destruct (Scraper.find_dot_element R soup) as [dot_element|]; [|reflexivity].
  destruct (Soup.assoc _ _) as [style|]; [|reflexivity].
  cbv zeta.
  destruct (PyStr.contains (PyStr.u "green") _);
    destruct (PyStr.contains (PyStr.u "gray") _);
    destruct (PyStr.contains (PyStr.u "grey") _);
    cbn [orb]; repeat split; intros; try reflexivity; try discriminate;
    intuition discriminate.
Qed.

Lemma profile_activity_witness :
  exists p,
    returned (Scraper.parse_player_profile Sample.runtime Sample.profile_html
                (PyStr.u "Foo") Sample.scraper) = Some p
    /\ Rows.indicator_style Sample.runtime Sample.profile_soup
       = Some (PyStr.u "background: Green")
    /\ Player.activity p = PyStr.u "Online".
Proof.
  destruct (returned (Scraper.parse_player_profile Sample.runtime Sample.profile_html
                        (PyStr.u "Foo") Sample.scraper)) as [p|] eqn:Hp;
    [|vm_compute in Hp; discriminate].
  exists p. split; [reflexivity|]. split; [vm_compute; reflexivity|].
  pose proof (profile_activity Sample.runtime Sample.profile_html (PyStr.u "Foo")
                Sample.scraper Sample.profile_soup p
                ltac:(vm_compute; reflexivity) Hp) as H.
  replace (Rows.indicator_style Sample.runtime Sample.profile_soup)
    with (Some (PyStr.u "background: Green")) in H by (vm_compute; reflexivity).
  destruct H as (Hgreen & _). apply Hgreen. vm_compute. reflexivity.
Defined.

(** ** The combat statistics of a profile (spec 4.3, step 5) *)

Section CombatStats.
Context (R : Runtime).
Import PyStr Soup Rows.

Lemma stat_row_eq pd row :
  Scraper.stat_row R pd row =
  match stat_cells R row with
  | Some (key, value) => Scraper.stat_branches R key value pd
  | None => Ok pd
  end.
Proof.
  unfold Scraper.stat_row, stat_cells.
  destruct (find_all (u "td") row) as [|c0 [|c1 cells]]; reflexivity.
Qed.

Lemma int_42 v : py_int R (u "42") = Some v -> v = 42%Z.
Proof.
  unfold py_int, int_unsigned, within_digit_limit. intros H.
  destruct (int_max_str_digits R) as [limit|]; vm_compute in H;
    now inversion H.
Qed.

Lemma int_7 v : py_int R (u "7") = Some v -> v = 7%Z.
Proof.
  unfold py_int, int_unsigned, within_digit_limit. intros H.
  destruct (int_max_str_digits R) as [limit|]; vm_compute in H;
    now inversion H.
Qed.

Lemma kills_row_effect pd pd' :
  Scraper.stat_branches R (u "Уничтожил") (u "42") pd = Ok pd' ->
  Player.kills pd' = Some 42%Z
  /\ Player.deaths pd' = Player.deaths pd
  /\ Player.premium pd' = Player.premium pd.
Proof.
  unfold Scraper.stat_branches. intros H. eval_contains_in H. cbn [orb] in H.
  change (isdigit R (u "42")) with true in H.
  unfold int_, mbind, result_bind in H.
  destruct (py_int R (u "42")) as [v|] eqn:E; [|discriminate].
  apply int_42 in E. subst v. now inversion H.
Qed.

Lemma deaths_row_effect pd pd' :
  Scraper.stat_branches R (u "Подбит") (u "7") pd = Ok pd' ->
  Player.kills pd' = Player.kills pd
  /\ Player.deaths pd' = Some 7%Z
  /\ Player.premium pd' = Player.premium pd.
Proof.
  unfold Scraper.stat_branches. intros H. eval_contains_in H. cbn [orb] in H.
  change (isdigit R (u "7")) with true in H.
  unfold int_, mbind, result_bind in H.
  destruct (py_int R (u "7")) as [v|] eqn:E; [|discriminate].
  apply int_7 in E. subst v. now inversion H.
Qed.

Lemma premium_row_effect pd pd' :
  Scraper.stat_branches R (u "Премиум") (u "Да") pd = Ok pd' ->
  Player.kills pd' = Player.kills pd
  /\ Player.deaths pd' = Player.deaths pd
  /\ Player.premium pd' = Some true.
Proof.
  unfold Scraper.stat_branches. intros H. eval_contains_in H. cbn [orb] in H.
  now inversion H.
Qed.

Lemma other_row_effect key value pd pd' :
  combat_label key = false ->
  Scraper.stat_branches R key value pd = Ok pd' ->
  Player.kills pd' = Player.kills pd
  /\ Player.deaths pd' = Player.deaths pd
  /\ Player.premium pd' = Player.premium pd.
Proof.
  unfold combat_label. intros Hlabel.
  repeat (apply orb_false_elim in Hlabel as [Hlabel ?]).
  unfold Scraper.stat_branches, int_, mbind, result_bind.
  repeat match goal with E : contains _ key = false |- _ => rewrite E; clear E end.
  cbn [orb]. intros H. repeat case_match; simplify_eq; auto.
Qed.

(** A row of the spec example labelled "Убил" selects no branch at all. *)
Lemma ubil_row_ignored value pd :
  Scraper.stat_branches R (u "Убил") value pd = Ok pd.
Proof.
  unfold Scraper.stat_branches. eval_contains. reflexivity.
Qed.

(** One pass of the table loop over an allowed row. *)
Lemma stat_row_effect pd row pd' :
  (forall key value, stat_cells R row = Some (key, value) ->
     In (key, value) [kills_row; deaths_row; premium_row]
     \/ combat_label key = false) ->
  Scraper.stat_row R pd row = Ok pd' ->
  (Player.kills pd' = Player.kills pd
   \/ stat_cells R row = Some kills_row /\ Player.kills pd' = Some 42%Z)
  /\ (Player.deaths pd' = Player.deaths pd
   \/ stat_cells R row = Some deaths_row /\ Player.deaths pd' = Some 7%Z)
  /\ (Player.premium pd' = Player.premium pd
   \/ stat_cells R row = Some premium_row /\ Player.premium pd' = Some true)
  /\ (stat_cells R row = Some kills_row -> Player.kills pd' = Some 42%Z)
  /\ (stat_cells R row = Some deaths_row -> Player.deaths pd' = Some 7%Z)
  /\ (stat_cells R row = Some premium_row -> Player.premium pd' = Some true).
Proof.
  intros Hallowed. rewrite stat_row_eq.
  destruct (stat_cells R row) as [[key value]|]; intros H.
  - destruct (Hallowed key value eq_refl) as [Hin|Hother].
    + cbn [In] in Hin. unfold kills_row, deaths_row, premium_row in Hin.
      destruct Hin as [E|[E|[E|[]]]]; injection E as <- <-.
      * apply kills_row_effect in H as (Hk & Hd & Hp).
        repeat split; try (left; assumption);
          try (right; split; [reflexivity | assumption]);
          try (intros _; assumption); intros E'; vm_compute in E'; discriminate.
      * apply deaths_row_effect in H as (Hk & Hd & Hp).
        repeat split; try (left; assumption);
          try (right; split; [reflexivity | assumption]);
          try (intros _; assumption); intros E'; vm_compute in E'; discriminate.
      * apply premium_row_effect in H as (Hk & Hd & Hp).
        repeat split; try (left; assumption);
          try (right; split; [reflexivity | assumption]);
          try (intros _; assumption); intros E'; vm_compute in E'; discriminate.
    + pose proof (other_row_effect _ _ _ _ Hother H) as (Hk & Hd & Hp).
      repeat split; try (left; assumption);
        intros E'; injection E' as -> _; vm_compute in Hother; discriminate.
  - inversion H; subst pd'. repeat split; auto; discriminate.
Qed.

(** The table loop over allowed rows: each of the three fields keeps its
    value or takes the value of the example, and takes it when the row of
    the example is among the rows. *)
Lemma stats_loop rows pd pd' :
  only_example_rows R rows ->
  for_each (Scraper.stat_row R) rows pd = Ok pd' ->
  ((Player.kills pd' = Player.kills pd \/ Player.kills pd' = Some 42%Z)
   /\ ((exists row, In row rows /\ stat_cells R row = Some kills_row) ->
       Player.kills pd' = Some 42%Z))
  /\ ((Player.deaths pd' = Player.deaths pd \/ Player.deaths pd' = Some 7%Z)
   /\ ((exists row, In row rows /\ stat_cells R row = Some deaths_row) ->
       Player.deaths pd' = Some 7%Z))
  /\ ((Player.premium pd' = Player.premium pd \/ Player.premium pd' = Some true)
   /\ ((exists row, In row rows /\ stat_cells R row = Some premium_row) ->
       Player.premium pd' = Some true)).
Proof.
  revert pd. induction rows as [|row rows IH]; intros pd Hrows H.
  - cbn in H. inversion H; subst pd'.
    repeat split; auto; intros (row & [] & _).
  - cbn [for_each] in H. unfold mbind, result_bind in H.
    destruct (Scraper.stat_row R pd row) as [pd1|] eqn:Hrow; [|discriminate].
    apply stat_row_effect in Hrow;
      [|intros key value; apply (Hrows row); now left].
    destruct Hrow as (Hk & Hd & Hp & Hk' & Hd' & Hp').
    apply IH in H; [|intros r k v Hr; apply (Hrows r); now right].
    destruct H as ((Ik & Ik') & (Id & Id') & (Ip & Ip')).
    repeat split.
    + destruct Ik as [->| ->]; [|now right].
      destruct Hk as [->|[_ ->]]; auto.
    + intros (r & [<-|Hr] & Hcells); [|eauto].
      destruct Ik as [->| ->]; auto.
    + destruct Id as [->| ->]; [|now right].
      destruct Hd as [->|[_ ->]]; auto.
    + intros (r & [<-|Hr] & Hcells); [|eauto].
      destruct Id as [->| ->]; auto.
    + destruct Ip as [->| ->]; [|now right].
      destruct Hp as [->|[_ ->]]; auto.
    + intros (r & [<-|Hr] & Hcells); [|eauto].
      destruct Ip as [->| ->]; auto.
Qed.

End CombatStats.

(** C1, as stated, fails on the page of the spec example: the label "Убил"
    selects no branch, and kills stays [None]. *)
Lemma profile_combat_stats_counterexample :
  ~ AsStated.profile_example Sample.runtime Sample.profile_spec_html (PyStr.u "Foo")
      (returned (Scraper.parse_player_profile Sample.runtime
                   Sample.profile_spec_html (PyStr.u "Foo") Sample.scraper)).
Proof.
  intros H. destruct (H Sample.profile_spec_soup) as (p & Hp & Hkills & _).
  - vm_compute. reflexivity.
  - left. vm_compute. reflexivity.
  - intros kv [<-|[<-|[<-|[]]]].
    + exists (Sample.tr [Sample.td "Убил"; Sample.td "42"]).
      split; vm_compute; auto.
    + exists (Sample.tr [Sample.td "Подбит"; Sample.td "7"]).
      split; vm_compute; auto.
    + exists (Sample.tr [Sample.td "Премиум"; Sample.td "Да"]).
      split; vm_compute; auto.
  - vm_compute in Hp. inversion Hp; subst p. vm_compute in Hkills. discriminate.
Qed.

(** C1 (amended). For markup that passes the existence check and is parsed
    without an exception, whose tables hold the rows ("Уничтожил", "42"),
    ("Подбит", "7") and ("Премиум", "Да") and otherwise only rows whose
    label selects none of the kills, deaths and premium branches,
    parse_player_profile returns a record with kills=42, deaths=7 and
    premium=true. *)
Theorem profile_combat_stats R {V} (html nickname : str) (self : RTanksScraper V)
  (soup : node) (r : option Player.t) :
  BeautifulSoup R html = Ok soup ->
  Scraper.parse_player_profile_try R html nickname = Ok r ->
  PyStr.contains (PyStr.u "профиль игрока") (PyStr.lower R html) = true
  \/ PyStr.contains (PyStr.lower R nickname) (PyStr.lower R html) = true ->
  Rows.only_example_rows R (Rows.all_rows soup) ->
  (forall kv, In kv [Rows.kills_row; Rows.deaths_row; Rows.premium_row] ->
     exists row, In row (Rows.all_rows soup) /\ Rows.stat_cells R row = Some kv) ->
  exists p,
    returned (Scraper.parse_player_profile R html nickname self) = Some p
    /\ Player.kills p = Some 42%Z
    /\ Player.deaths p = Some 7%Z
    /\ Player.premium p = Some true.
Proof.
  intros Hsoup Htry Hgate Hrows Hthree.
  rewrite parse_player_profile_returned, Htry.
  apply (parse_player_profile_try_inv _ _ _ _ _ Hsoup) in Htry.
  assert (Hmissing : Scraper.player_missing R html nickname = false).
  { unfold Scraper.player_missing. destruct Hgate as [-> | ->]; cbn [negb andb];
      [reflexivity | apply andb_false_r]. }
  rewrite Hmissing in Htry. destruct Htry as (pd1 & pd2 & H1 & H2 & ->).
  eexists. split; [reflexivity|].
  destruct (stats_loop R _ _ _ Hrows H2) as ((_ & Hk) & (_ & Hd) & (_ & Hp)).
  pose proof (extract_rankings_core R soup pd2) as Hc.
  unfold Rows.core in Hc. injection Hc as _ Hck Hcd Hcp.
  change (Player.kills (Scraper.extract_equipment R soup ?x)) with (Player.kills x).
  change (Player.deaths (Scraper.extract_equipment R soup ?x)) with (Player.deaths x).
  change (Player.premium (Scraper.extract_equipment R soup ?x)) with (Player.premium x).
  rewrite Hck, Hcd, Hcp.
  repeat split; [apply Hk | apply Hd | apply Hp]; apply Hthree; cbn; auto.
Qed.

Lemma profile_combat_stats_witness :
  exists p,
    returned (Scraper.parse_player_profile Sample.runtime Sample.profile_html
                (PyStr.u "Foo") Sample.scraper) = Some p
    /\ Player.kills p = Some 42%Z
    /\ Player.deaths p = Some 7%Z
    /\ Player.premium p = Some true.
Proof.
  eapply (profile_combat_stats Sample.runtime Sample.profile_html (PyStr.u "Foo")
            Sample.scraper Sample.profile_soup).
  - vm_compute. reflexivity.
  - vm_compute. reflexivity.
  - left. vm_compute. reflexivity.
  - intros row key value Hrow Hcells. left.
    vm_compute in Hrow. destruct Hrow as [<-|[<-|[<-|[]]]];
      vm_compute in Hcells; inversion Hcells; subst; vm_compute; auto.
  - intros kv [<-|[<-|[<-|[]]]].
    + exists (Sample.tr [Sample.td "Уничтожил"; Sample.td "42"]).
      split; vm_compute; auto.
    + exists (Sample.tr [Sample.td "Подбит"; Sample.td "7"]).
      split; vm_compute; auto.
    + exists (Sample.tr [Sample.td "Премиум"; Sample.td "Да"]).
      split; vm_compute; auto.
Defined.

(** ** The getters: cache, network and extractor together *)

Section ServiceFacts.
Context (R : Runtime).
Import PyStr Soup Service.
Implicit Types (self : RTanksScraper cached) (site : str -> http_outcome).

Lemma get_from_cache_eq {V} (now : Q) k (self : RTanksScraper V) :
  Scraper.get_from_cache now k self
  = (match cache self !! k with
     | Some e =>
       if Qltb (now - timestamp e) (cache_timeout self) then Some (data e) else None
     | None => None
     end, self, []).
Proof.
  unfold Scraper.get_from_cache, Scraper.is_cache_valid.
  destruct (cache self !! k) as [e|] eqn:E; [|reflexivity].
  cbv zeta. destruct (Qltb _ _); [|reflexivity]. now rewrite E.
Qed.

Lemma get_session_cache self :
  cache (object_after (get_session self)) = cache self
  /\ cache_timeout (object_after (get_session self)) = cache_timeout self
  /\ base_url (object_after (get_session self)) = base_url self
  /\ session (object_after (get_session self)) = Some false.
Proof.
  unfold get_session. destruct (session self) as [[|]|] eqn:E; cbn; auto.
Qed.

(** fetch_page returns the body exactly for an answer of status 200, sends
    one request, and leaves an open client and the cache as it was. *)
Lemma fetch_page_spec site url self :
  (forall text, result_of (fetch_page site url self) = Some text
                <-> site url = Response 200 text)
  /\ requests (events_of (fetch_page site url self)) = [url]
  /\ cache (object_after (fetch_page site url self)) = cache self
  /\ cache_timeout (object_after (fetch_page site url self)) = cache_timeout self
  /\ base_url (object_after (fetch_page site url self)) = base_url self
  /\ session (object_after (fetch_page site url self)) = Some false.
Proof.
  unfold fetch_page.
  destruct (get_session_cache self) as (Hc & Ht & Hb & Hs).
  destruct (get_session self) as [[[] self'] ev] eqn:Hgs.
  assert (Hev : ev = []).
  { unfold get_session in Hgs. destruct (session self) as [[|]|]; now inversion Hgs. }
  subst ev. unfold object_after in *. cbn [fst snd] in *.
  destruct (site url) as [status text| |].
  - destruct (Z.eqb_spec status 200) as [->|Hne]; cbn; repeat split; auto.
    + now intros [= ->].
    + now intros [= ->].
    + discriminate.
    + intros [= E _]. congruence.
  - cbn. repeat split; auto; discriminate.
  - cbn. repeat split; auto; discriminate.
Qed.

Lemma parse_player_profile_eq {V} html nickname (self : RTanksScraper V) :
  Scraper.parse_player_profile R html nickname self
  = (returned (Scraper.parse_player_profile R html nickname self), self,
     logged (Scraper.parse_player_profile R html nickname self)).
Proof.
  unfold Scraper.parse_player_profile.
  destruct (Scraper.parse_player_profile_try R html nickname); reflexivity.
Qed.

Lemma parse_leaderboard_eq {V} html (self : RTanksScraper V) :
  Scraper.parse_leaderboard R html self
  = (returned (Scraper.parse_leaderboard R html self), self,
     logged (Scraper.parse_leaderboard R html self)).
Proof.
  unfold Scraper.parse_leaderboard.
  destruct (Scraper.parse_leaderboard_try R html); reflexivity.
Qed.

Lemma requests_app ev1 ev2 : requests (ev1 ++ ev2) = requests ev1 ++ requests ev2.
Proof. unfold requests. apply flat_map_app. Qed.

Lemma requests_log_parse l : requests (map LogParse l) = [].
Proof. induction l as [|x l IH]; [reflexivity | exact IH]. Qed.

Lemma fetch_page_page site url self :
  match result_of (fetch_page site url self) with
  | Some (c :: text) => page_of site url = Some (c :: text)
  | _ => page_of site url = None
  end.
Proof.
  unfold fetch_page, page_of.
  destruct (get_session self) as [[[] self'] ev].
  destruct (site url) as [status text| |]; try reflexivity.
  destruct (status =? 200)%Z; destruct text; reflexivity.
Qed.

(** The ways a call of get_player_stats can go. *)
Lemma get_player_stats_cases site (t_check t_store : Q) nickname self :
  let key := u "player_" ++ nickname in
  let r := get_player_stats R site t_check t_store nickname self in
  (exists e, cache self !! key = Some e
             /\ (t_check - timestamp e < cache_timeout self)%Q
             /\ is_true (Some (data e)) = true
             /\ r = (Some (data e), self, []))
  \/ (cold t_check key self /\ player_miss_outcome R site t_store nickname self r).
Proof.
  intros key r. unfold cold. subst r. unfold get_player_stats.
  fold key. rewrite !get_from_cache_eq. cbv beta iota zeta.
  unfold returned. cbn [fst snd].
  match goal with |- context [if _ then _ else ?m] => set (miss := m) end.
  assert (Hmiss : player_miss_outcome R site t_store nickname self miss).
  { unfold miss, player_miss_outcome. fold key.
    set (url := base_url self ++ u "/user/" ++ nickname).
    pose proof (fetch_page_spec site url self) as (_ & Hreq & Hc & Ht & Hb & Hs).
    pose proof (fetch_page_page site url self) as Hpage.
    destruct (fetch_page site url self) as [[html self1] ev].
    unfold result_of, object_after, events_of in *. cbn [fst snd] in *.
    destruct html as [[|c text]|].
    - cbn [fst snd]. repeat split; auto.
    - rewrite parse_player_profile_eq.
      replace (returned (Scraper.parse_player_profile R (c :: text) nickname self1))
        with (returned (Scraper.parse_player_profile R (c :: text) nickname self))
        by (unfold Scraper.parse_player_profile;
            destruct (Scraper.parse_player_profile_try R (c :: text) nickname);
            reflexivity).
      destruct (returned (Scraper.parse_player_profile R (c :: text) nickname self))
        as [p|] eqn:Hp; cbv beta iota zeta; unfold Scraper.set_cache;
        cbn [fst snd cache base_url cache_timeout session];
        rewrite requests_app, requests_log_parse, app_nil_r.
      + repeat split; auto. right. right. exists (c :: text), p.
        repeat split; auto. now rewrite Hc.
      + repeat split; auto. right. left. exists (c :: text). auto.
    - cbn [fst snd]. repeat split; auto. }
  clearbody miss.
  unfold str in *.
  destruct (cache self !! key) as [e|] eqn:He; cbv beta iota; [|right; auto].
  destruct (Qltb (t_check - timestamp e) (cache_timeout self)) eqn:Hfresh;
    cbv beta iota; [|right; auto].
  destruct (is_true (Some (data e))) eqn:Htrue; [|right; auto].
  left. exists e. apply Qltb_lt in Hfresh. auto.
Qed.

(** The ways a call of get_leaderboard can go. *)
Lemma get_leaderboard_cases site (t_check t_store : Q) category self :
  let key := u "leaderboard_" ++ category in
  let r := get_leaderboard R site t_check t_store category self in
  (exists e, cache self !! key = Some e
             /\ (t_check - timestamp e < cache_timeout self)%Q
             /\ is_true (Some (data e)) = true
             /\ r = (Some (data e), self, []))
  \/ (cold t_check key self
      /\ leaderboard_miss_outcome R site t_store category self r).
Proof.
  intros key r. unfold cold. subst r. unfold get_leaderboard.
  fold key. rewrite !get_from_cache_eq. cbv beta iota zeta.
  unfold returned. cbn [fst snd].
  match goal with |- context [if _ then _ else ?m] => set (miss := m) end.
  assert (Hmiss : leaderboard_miss_outcome R site t_store category self miss).
  { unfold miss, leaderboard_miss_outcome. fold key.
    set (url := base_url self).
    pose proof (fetch_page_spec site url self) as (_ & Hreq & Hc & Ht & Hb & Hs).
    pose proof (fetch_page_page site url self) as Hpage.
    destruct (fetch_page site url self) as [[html self1] ev].
    unfold result_of, object_after, events_of in *. cbn [fst snd] in *.
    destruct html as [[|c text]|].
    - cbn [fst snd]. repeat split; auto.
    - rewrite parse_leaderboard_eq.
      replace (returned (Scraper.parse_leaderboard R (c :: text) self1))
        with (returned (Scraper.parse_leaderboard R (c :: text) self))
        by (unfold Scraper.parse_leaderboard;
            destruct (Scraper.parse_leaderboard_try R (c :: text));
            reflexivity).
      destruct (returned (Scraper.parse_leaderboard R (c :: text) self))
        as [|x l] eqn:Hp; cbv beta iota zeta; unfold Scraper.set_cache;
        cbn [fst snd cache base_url cache_timeout session];
        rewrite requests_app, requests_log_parse, app_nil_r.
      + repeat split; auto. right. left. exists (c :: text). auto.
      + repeat split; auto. right. right. exists (c :: text), (x :: l).
        repeat split; auto; try discriminate. now rewrite Hc.
    - cbn [fst snd]. repeat split; auto. }
  clearbody miss. unfold str in *.
  destruct (cache self !! key) as [e|] eqn:He; cbv beta iota; [|right; auto].
  destruct (Qltb (t_check - timestamp e) (cache_timeout self)) eqn:Hfresh;
    cbv beta iota; [|right; auto].
  destruct (is_true (Some (data e))) eqn:Htrue; [|right; auto].
  left. exists e. apply Qltb_lt in Hfresh. auto.
Qed.

(** The record returned for a nickname carries that nickname. *)
Lemma stat_row_nickname pd row pd' :
  Scraper.stat_row R pd row = Ok pd' -> Player.nickname pd' = Player.nickname pd.
Proof.
  unfold Scraper.stat_row, Scraper.stat_branches, int_, mbind, result_bind.
  intros H. repeat case_match; simplify_eq; reflexivity.
Qed.

Lemma extract_experience_nickname texts pd pd' :
  Scraper.extract_experience R texts pd = Ok pd' ->
  Player.nickname pd' = Player.nickname pd.
Proof.
  induction texts as [|t texts IH]; cbn [Scraper.extract_experience]; intros H.
  - now inversion H.
  - destruct (contains (u "/") t); [|auto].
    destruct (isdigit R _); [|auto].
    unfold int_, mbind, result_bind in H.
    destruct (py_int R _); [|discriminate]. now inversion H.
Qed.

Lemma extract_rankings_nickname soup pd :
  Player.nickname (Scraper.extract_rankings R soup pd) = Player.nickname pd.
Proof.
  unfold Scraper.extract_rankings. destruct (find (u "table") soup); [|reflexivity].
  apply (fold_left_preserves (fun s => Player.nickname s = Player.nickname pd));
    [|reflexivity].
  intros s row Hs. unfold Scraper.ranking_row.
  destruct (find_all (u "td") row) as [|c0 [|c1 [|c2 cells]]]; auto.
  destruct (nonempty _ && _ && _); auto.
Qed.

Lemma returned_profile_nickname {V} html nickname (self : RTanksScraper V) p :
  returned (Scraper.parse_player_profile R html nickname self) = Some p ->
  Player.nickname p = nickname.
Proof.
  rewrite parse_player_profile_returned.
  destruct (Scraper.parse_player_profile_try R html nickname) as [r|e] eqn:Htry;
    [intros -> | discriminate].
  destruct (BeautifulSoup R html) as [soup|e] eqn:Hsoup.
  - apply (parse_player_profile_try_inv R _ _ _ _ Hsoup) in Htry.
    destruct (Scraper.player_missing R html nickname); [discriminate|].
    destruct Htry as (pd1 & pd2 & H1 & H2 & [= ->]).
    change (Player.nickname (Scraper.extract_equipment R soup ?x))
      with (Player.nickname x).
    rewrite extract_rankings_nickname.
    transitivity (Player.nickname pd1).
    + apply (for_each_preserves (fun s => Player.nickname s = Player.nickname pd1)
               _ _ _ _ (fun s a s' _ Hb Hs => eq_trans (stat_row_nickname _ _ _ Hb) Hs)
               eq_refl H2).
    + apply extract_experience_nickname in H1. rewrite H1.
      unfold Scraper.extract_rank, Scraper.extract_activity.
      repeat case_match; reflexivity.
  - unfold Scraper.parse_player_profile_try in Htry. rewrite Hsoup in Htry.
    discriminate.
Qed.

End ServiceFacts.

(** A usable entry is served as it is: no request is sent, nothing is
    logged and the object stays as it was, whatever the site would answer. *)
Theorem getters_serve_fresh_entry R site (t_check t_store : Q) (name : str)
  (self : RTanksScraper Service.cached) (e : cache_entry Service.cached) :
  (t_check - timestamp e < cache_timeout self)%Q ->
  Service.is_true (Some (data e)) = true ->
  (cache self !! (PyStr.u "player_" ++ name) = Some e ->
   Service.get_player_stats R site t_check t_store name self
   = (Some (data e), self, []))
  /\ (cache self !! (PyStr.u "leaderboard_" ++ name) = Some e ->
      Service.get_leaderboard R site t_check t_store name self
      = (Some (data e), self, [])).
Proof.
  intros Hfresh Htrue. apply Qltb_lt in Hfresh.
  split; intros He.
  - unfold Service.get_player_stats. rewrite get_from_cache_eq.
    unfold str in *. rewrite He, Hfresh. cbv beta iota zeta. now rewrite Htrue.
  - unfold Service.get_leaderboard. rewrite get_from_cache_eq.
    unfold str in *. rewrite He, Hfresh. cbv beta iota zeta. now rewrite Htrue.
Qed.

Lemma getters_serve_fresh_entry_witness :
  let e := {| data := Service.CachedPlayer (Scraper.new_player_data (PyStr.u "Foo"));
              timestamp := 1000 |} in
  let self := self_after (Scraper.set_cache 1000 (PyStr.u "player_Foo") (data e)
                            SampleSite.scraper) in
  Service.get_player_stats Sample.runtime SampleSite.offline 1200 1201
    (PyStr.u "Foo") self
  = (Some (data e), self, []).
Proof.
  intros e self.
  apply (getters_serve_fresh_entry Sample.runtime SampleSite.offline 1200 1201
           (PyStr.u "Foo") self e).
  - reflexivity.
  - reflexivity.
  - vm_compute. reflexivity.
Defined.

(** A record fetched from the site is served from the cache by the next
    call made less than [cache_timeout] after it was stored: the same record
    comes back, no request is sent, and the site is not consulted. *)
Theorem fetched_player_served_from_cache R site site' (t1 t2 t3 t4 : Q)
  (nickname : str) (self : RTanksScraper Service.cached) (d : Service.cached) :
  let first := Service.get_player_stats R site t1 t2 nickname self in
  Service.requests (Service.events_of first) <> [] ->
  Service.result_of first = Some d ->
  (t3 - t2 < cache_timeout self)%Q ->
  Service.get_player_stats R site' t3 t4 nickname (Service.object_after first)
  = (Some d, Service.object_after first, []).
Proof.
  intros first Hreq Hres Hfresh.
  destruct (get_player_stats_cases R site t1 t2 nickname self)
    as [(e & _ & _ & _ & Hhit) | (_ & Hmiss)]; fold first in Hhit || fold first in Hmiss.
  - rewrite Hhit in Hreq. now contradiction Hreq.
  - destruct Hmiss as (_ & _ & Hto & _ & [(_ & Hnone & _) | [(h & _ & _ & Hnone & _)
                                                   | (h & p & _ & _ & Hsome & Hcache)]]).
    + congruence.
    + congruence.
    + rewrite Hres in Hsome. injection Hsome as ->.
      apply (getters_serve_fresh_entry R site' t3 t4 nickname
               (Service.object_after first)
               {| data := Service.CachedPlayer p; timestamp := t2 |}).
      * cbn [timestamp]. now rewrite Hto.
      * reflexivity.
      * rewrite Hcache. apply lookup_insert_eq.
Qed.

Lemma fetched_player_served_from_cache_witness :
  let first := Service.get_player_stats Sample.runtime SampleSite.site 1000 1001
                 (PyStr.u "Foo") SampleSite.scraper in
  exists d,
    Service.result_of first = Some d
    /\ Service.requests (Service.events_of first)
       = [PyStr.u "https://ratings.ranked-rtanks.online/user/Foo"]
    /\ Service.get_player_stats Sample.runtime SampleSite.offline 1300 1301
         (PyStr.u "Foo") (Service.object_after first)
       = (Some d, Service.object_after first, []).
Proof.
  intros first.
  destruct (Service.result_of first) as [d|] eqn:Hd; [|vm_compute in Hd; discriminate].
  exists d. split; [reflexivity|]. split; [vm_compute; reflexivity|].
  apply (fetched_player_served_from_cache Sample.runtime SampleSite.site
           SampleSite.offline 1000 1001 1300 1301 (PyStr.u "Foo")
           SampleSite.scraper d).
  - vm_compute. discriminate.
  - exact Hd.
  - reflexivity.
Defined.

Section GetterFacts.
Context (R : Runtime).
Import PyStr Service.
Implicit Types (self : RTanksScraper cached) (site : str -> http_outcome).

(** Whether the cache is cold under a key, in terms of the entry. *)
Lemma cold_iff (now : Q) key self :
  cold now key self <->
  match cache self !! key with
  | Some e => (cache_timeout self <= now - timestamp e)%Q
              \/ is_true (Some (data e)) = false
  | None => True
  end.
Proof.
  unfold cold. rewrite get_from_cache_eq. unfold returned. cbn [fst].
  unfold str in *. destruct (cache self !! key) as [e|]; [|tauto].
  destruct (Qltb _ _) eqn:E.
  - apply Qltb_lt in E. split; [auto|]. intros [H|H]; [lra | exact H].
  - apply Qltb_ge in E. split; auto.
Qed.

(** Neither getter changes the address of the site or the life time of
    the entries. *)
Lemma getters_keep_settings site (t1 t2 : Q) name self :
  base_url (object_after (get_player_stats R site t1 t2 name self)) = base_url self
  /\ cache_timeout (object_after (get_player_stats R site t1 t2 name self))
     = cache_timeout self
  /\ base_url (object_after (get_leaderboard R site t1 t2 name self)) = base_url self
  /\ cache_timeout (object_after (get_leaderboard R site t1 t2 name self))
     = cache_timeout self.
Proof.
  destruct (get_player_stats_cases R site t1 t2 name self)
    as [(e & _ & _ & _ & ->) | (_ & _ & Hb & Ht & _)];
    destruct (get_leaderboard_cases R site t1 t2 name self)
      as [(e' & _ & _ & _ & ->) | (_ & _ & Hb' & Ht' & _)]; auto.
Qed.

End GetterFacts.

(** A getter writes to the cache only a result it returns and that is
    true: after a call the cache is as it was, or holds under the key of
    the call, stamped with the time of the store, the record or non-empty
    list returned.  A call that returns [None], and a get_leaderboard that
    returns the empty list, leave the cache as it was. *)
Theorem getters_store_only_results R site (t_check t_store : Q) (name : str)
  (self : RTanksScraper Service.cached) :
  let rp := Service.get_player_stats R site t_check t_store name self in
  let rl := Service.get_leaderboard R site t_check t_store name self in
  (cache (Service.object_after rp) = cache self
   \/ exists p, Service.result_of rp = Some (Service.CachedPlayer p)
        /\ cache (Service.object_after rp)
           = <[PyStr.u "player_" ++ name :=
                 {| data := Service.CachedPlayer p; timestamp := t_store |}]>
               (cache self))
  /\ (Service.result_of rp = None -> cache (Service.object_after rp) = cache self)
  /\ (cache (Service.object_after rl) = cache self
      \/ exists l, l <> []
           /\ Service.result_of rl = Some (Service.CachedLeaderboard l)
           /\ cache (Service.object_after rl)
              = <[PyStr.u "leaderboard_" ++ name :=
                    {| data := Service.CachedLeaderboard l; timestamp := t_store |}]>
                  (cache self))
  /\ (Service.result_of rl = None
      \/ Service.result_of rl = Some (Service.CachedLeaderboard []) ->
      cache (Service.object_after rl) = cache self).
Proof.
  intros rp rl.
  destruct (get_player_stats_cases R site t_check t_store name self)
    as [(e & _ & _ & _ & Hp) | (_ & _ & _ & _ & _ & Hp)]; fold rp in Hp;
    destruct (get_leaderboard_cases R site t_check t_store name self)
      as [(e' & _ & _ & Htrue & Hl) | (_ & _ & _ & _ & _ & Hl)]; fold rl in Hl.
  all: repeat split.
  all: try (rewrite Hp; left; reflexivity).
  all: try (rewrite Hl; left; reflexivity).
  all: try (rewrite Hp; reflexivity).
  all: try (rewrite Hl; intros [H|H]; [discriminate H|]; cbn in H;
            injection H as H; rewrite H in Htrue; discriminate Htrue).
  all: try (destruct Hp as [(_ & _ & Hc) | [(h & _ & _ & _ & Hc)
                                          | (h & p & _ & _ & Hr & Hc)]];
            [now left | now left | right; eauto]).
  all: try (destruct Hl as [(_ & _ & Hc) | [(h & _ & _ & _ & Hc)
                                          | (h & l & _ & _ & Hne & Hr & Hc)]];
            [now left | now left | right; eauto]).
  all: try (intros Hnone;
            destruct Hp as [(_ & _ & Hc) | [(h & _ & _ & _ & Hc)
                                          | (h & p & _ & _ & Hr & Hc)]];
            [exact Hc | exact Hc | congruence]).
  all: try (intros Hnone;
            destruct Hl as [(_ & _ & Hc) | [(h & _ & _ & _ & Hc)
                                          | (h & l & _ & _ & Hne & Hr & Hc)]];
            [exact Hc | exact Hc |];
            destruct Hnone as [Hn|Hn]; rewrite Hr in Hn; [discriminate|];
            injection Hn as Hn; contradiction).
Qed.

(** A non-empty leaderboard fetched from the site is served from the cache
    by the next call made in time.  An empty one is returned as the empty
    list, not as [None], is not stored, and the next call for the category
    asks the site again. *)
Theorem fetched_leaderboard_cached_unless_empty R site site' (t1 t2 t3 t4 : Q)
  (category : str) (self : RTanksScraper Service.cached) (l : list Entry.t) :
  let first := Service.get_leaderboard R site t1 t2 category self in
  let second := Service.get_leaderboard R site' t3 t4 category
                  (Service.object_after first) in
  Service.requests (Service.events_of first) <> [] ->
  Service.result_of first = Some (Service.CachedLeaderboard l) ->
  (l <> [] -> (t3 - t2 < cache_timeout self)%Q ->
   second = (Some (Service.CachedLeaderboard l), Service.object_after first, []))
  /\ (l = [] -> (t1 <= t3)%Q ->
      Service.requests (Service.events_of second) = [base_url self]).
Proof.
  intros first second Hreq Hres. subst second. subst first.
  destruct (get_leaderboard_cases R site t1 t2 category self)
    as [(e & _ & _ & _ & Hhit) | (Hcold & Hmiss)].
  { rewrite Hhit in Hreq. now contradiction Hreq. }
  destruct Hmiss as (_ & Hb & Hto & _ & Hcases). split.
  - intros Hne Hfresh.
    destruct Hcases as [(_ & Hnone & _) | [(h & _ & _ & Hempty & _)
                                          | (h & l' & _ & _ & _ & Hsome & Hcache)]];
      try congruence.
    rewrite Hres in Hsome. injection Hsome as <-.
    apply (getters_serve_fresh_entry R site' t3 t4 category
               (Service.object_after
                  (Service.get_leaderboard R site t1 t2 category self))
               {| data := Service.CachedLeaderboard l; timestamp := t2 |}).
    + cbn [timestamp]. now rewrite Hto.
    + destruct l; [contradiction | reflexivity].
    + rewrite Hcache. apply lookup_insert_eq.
  - intros -> Hlater.
    assert (Hcache : cache (Service.object_after
                              (Service.get_leaderboard R site t1 t2 category self))
                     = cache self).
    { destruct Hcases as [(_ & _ & Hc) | [(h & _ & _ & _ & Hc)
                                        | (h & l' & _ & _ & Hne & Hsome & _)]]; auto.
      rewrite Hres in Hsome. injection Hsome as <-. contradiction. }
    assert (Hcold' : Service.cold t3 (PyStr.u "leaderboard_" ++ category)
                       (Service.object_after
                          (Service.get_leaderboard R site t1 t2 category self))).
    { apply cold_iff. apply cold_iff in Hcold. rewrite Hcache, Hto.
      unfold str in *.
      destruct (cache self !! (PyStr.u "leaderboard_" ++ category)) as [e|]; [|exact I].
      destruct Hcold as [Hstale|Hfalse]; [left; lra | now right]. }
    destruct (get_leaderboard_cases R site' t3 t4 category
                (Service.object_after
                   (Service.get_leaderboard R site t1 t2 category self)))
      as [(e & He & Hfresh & Htrue & _) | (_ & Hreq2 & _)].
    + apply cold_iff in Hcold'. unfold str in *. rewrite He in Hcold'.
      destruct Hcold' as [Hstale|Hfalse]; [lra | congruence].
    + now rewrite Hreq2, Hb.
Qed.

Lemma fetched_leaderboard_cached_unless_empty_witness :
  let first := Service.get_leaderboard Sample.runtime SampleSite.site 1000 1001
                 (PyStr.u "experience") SampleSite.scraper in
  exists l,
    Service.result_of first = Some (Service.CachedLeaderboard l)
    /\ length l = 2%nat
    /\ Service.get_leaderboard Sample.runtime SampleSite.offline 1300 1301
         (PyStr.u "experience") (Service.object_after first)
       = (Some (Service.CachedLeaderboard l), Service.object_after first, []).
Proof.
  intros first.
  destruct (Service.result_of first) as [[p|l]|] eqn:Hd;
    try (vm_compute in Hd; discriminate).
  exists l. split; [reflexivity|].
  assert (Hlen : length l = 2%nat).
  { vm_compute in Hd. injection Hd as <-. reflexivity. }
  split; [exact Hlen|].
  destruct (fetched_leaderboard_cached_unless_empty Sample.runtime SampleSite.site
              SampleSite.offline 1000 1001 1300 1301 (PyStr.u "experience")
              SampleSite.scraper l) as [Hkept _].
  - vm_compute. discriminate.
  - exact Hd.
  - apply Hkept.
    + intros ->. discriminate Hlen.
    + reflexivity.
Defined.

(** The category only names the cache entry: with a cold cache, every
    category asks for the same url, the root of the site, and gets the same
    list. *)
Theorem leaderboard_ignores_category R site (t1 t2 t1' t2' : Q) (c1 c2 : str)
  (self : RTanksScraper Service.cached) :
  Service.cold t1 (PyStr.u "leaderboard_" ++ c1) self ->
  Service.cold t1' (PyStr.u "leaderboard_" ++ c2) self ->
  let r1 := Service.get_leaderboard R site t1 t2 c1 self in
  let r2 := Service.get_leaderboard R site t1' t2' c2 self in
  Service.result_of r1 = Service.result_of r2
  /\ Service.requests (Service.events_of r1) = [base_url self]
  /\ Service.requests (Service.events_of r2) = [base_url self].
Proof.
  intros Hc1 Hc2 r1 r2.
  assert (Hmiss : forall t t' c, Service.cold t (PyStr.u "leaderboard_" ++ c) self ->
            Service.leaderboard_miss_outcome R site t' c self
              (Service.get_leaderboard R site t t' c self)).
  { intros t t' c Hc.
    destruct (get_leaderboard_cases R site t t' c self)
      as [(e & He & Hfresh & Htrue & _) | (_ & H)]; [|exact H].
    apply cold_iff in Hc. unfold str in *. rewrite He in Hc.
    destruct Hc as [Hstale|Hfalse]; [lra | congruence]. }
  pose proof (Hmiss t1 t2 c1 Hc1) as (Hreq1 & _ & _ & _ & H1).
  pose proof (Hmiss t1' t2' c2 Hc2) as (Hreq2 & _ & _ & _ & H2).
  fold r1 in Hreq1, H1. fold r2 in Hreq2, H2.
  split; [|split; assumption].
  destruct H1 as [(Hp1 & Hr1 & _) | [(h1 & Hp1 & Hl1 & Hr1 & _)
                                    | (h1 & l1 & Hp1 & Hl1 & Hn1 & Hr1 & _)]];
    destruct H2 as [(Hp2 & Hr2 & _) | [(h2 & Hp2 & Hl2 & Hr2 & _)
                                      | (h2 & l2 & Hp2 & Hl2 & Hn2 & Hr2 & _)]];
    rewrite Hr1, Hr2; try congruence;
    rewrite Hp1 in Hp2; injection Hp2 as <-; congruence.
Qed.

Lemma leaderboard_ignores_category_witness :
  Service.result_of (Service.get_leaderboard Sample.runtime SampleSite.site 1000 1001
                       (PyStr.u "experience") SampleSite.scraper)
  = Service.result_of (Service.get_leaderboard Sample.runtime SampleSite.site 1000 1001
                         (PyStr.u "gold") SampleSite.scraper).
Proof.
  apply (leaderboard_ignores_category Sample.runtime SampleSite.site 1000 1001 1000 1001
           (PyStr.u "experience") (PyStr.u "gold") SampleSite.scraper);
    vm_compute; reflexivity.
Defined.

Section WellKeyed.
Context (R : Runtime).
Import PyStr Service.
Implicit Types (self : RTanksScraper cached).

Lemma keys_apart (nickname category : str) :
  u "player_" ++ nickname <> u "leaderboard_" ++ category.
Proof. intros H. vm_compute in H. discriminate. Qed.

Lemma player_key_inj (n1 n2 : str) :
  u "player_" ++ n1 = u "player_" ++ n2 -> n1 = n2.
Proof. apply app_inv_head. Qed.

Lemma leaderboard_key_inj (c1 c2 : str) :
  u "leaderboard_" ++ c1 = u "leaderboard_" ++ c2 -> c1 = c2.
Proof. apply app_inv_head. Qed.

Lemma well_keyed_same self self' :
  cache self' = cache self -> well_keyed self -> well_keyed self'.
Proof. unfold well_keyed. intros ->. auto. Qed.

Lemma well_keyed_player self self' nickname p (t : Q) :
  cache self'
  = <[u "player_" ++ nickname := {| data := CachedPlayer p; timestamp := t |}]>
      (cache self) ->
  Player.nickname p = nickname ->
  well_keyed self -> well_keyed self'.
Proof.
  unfold well_keyed. intros -> Hp [Hplayers Hboards]. split.
  - intros n e. destruct (decide (u "player_" ++ nickname = u "player_" ++ n)) as [E|E].
    + rewrite E, lookup_insert_eq. intros [= <-].
      apply player_key_inj in E. subst n. eauto.
    + rewrite lookup_insert_ne by exact E. apply Hplayers.
  - intros c e. rewrite lookup_insert_ne by apply keys_apart. apply Hboards.
Qed.

Lemma well_keyed_leaderboard self self' category l (t : Q) :
  cache self'
  = <[u "leaderboard_" ++ category := {| data := CachedLeaderboard l; timestamp := t |}]>
      (cache self) ->
  l <> [] -> (length l <= 10)%nat -> StronglySorted rank_le l ->
  well_keyed self -> well_keyed self'.
Proof.
  unfold well_keyed. intros -> Hne Hlen Hsorted [Hplayers Hboards]. split.
  - intros n e. rewrite lookup_insert_ne; [apply Hplayers|].
    intros E. symmetry in E. revert E. apply keys_apart.
  - intros c e.
    destruct (decide (u "leaderboard_" ++ category = u "leaderboard_" ++ c)) as [E|E].
    + rewrite E, lookup_insert_eq. intros [= <-]. eauto 6.
    + rewrite lookup_insert_ne by exact E. apply Hboards.
Qed.

Lemma get_player_stats_well_keyed site (t_check t_store : Q) name self :
  well_keyed self ->
  well_keyed (object_after (get_player_stats R site t_check t_store name self))
  /\ (forall d, result_of (get_player_stats R site t_check t_store name self) = Some d ->
        exists p, d = CachedPlayer p /\ Player.nickname p = name).
Proof.
  intros Hwk.
  destruct (get_player_stats_cases R site t_check t_store name self)
    as [(e & He & _ & _ & Hp) | (_ & _ & _ & _ & _ & Hp)].
  - rewrite Hp. split; [exact Hwk|]. intros d [= <-].
    destruct Hwk as [Hplayers _].
    destruct (Hplayers name e He) as (p & Hd & Hn). eauto.
  - destruct Hp as [(_ & Hr & Hc) | [(h & _ & _ & Hr & Hc)
                                    | (h & p & _ & Hret & Hr & Hc)]].
    + split; [exact (well_keyed_same _ _ Hc Hwk)|]. intros d Hd. congruence.
    + split; [exact (well_keyed_same _ _ Hc Hwk)|]. intros d Hd. congruence.
    + pose proof (returned_profile_nickname R _ _ _ _ Hret) as Hn.
      split; [exact (well_keyed_player _ _ _ _ _ Hc Hn Hwk)|].
      intros d Hd. rewrite Hr in Hd. injection Hd as <-. eauto.
Qed.

Lemma get_leaderboard_well_keyed site (t_check t_store : Q) name self :
  well_keyed self ->
  well_keyed (object_after (get_leaderboard R site t_check t_store name self))
  /\ (forall d, result_of (get_leaderboard R site t_check t_store name self) = Some d ->
        exists l, d = CachedLeaderboard l
                  /\ (length l <= 10)%nat /\ StronglySorted rank_le l).
Proof.
  intros Hwk.
  destruct (get_leaderboard_cases R site t_check t_store name self)
    as [(e & He & _ & _ & Hl) | (_ & _ & _ & _ & _ & Hl)].
  - rewrite Hl. split; [exact Hwk|]. intros d [= <-].
    destruct Hwk as [_ Hboards].
    destruct (Hboards name e He) as (l & Hd & _ & Hlen & Hs). eauto.
  - destruct Hl as [(_ & Hr & Hc) | [(h & _ & Hret & Hr & Hc)
                                    | (h & l & _ & Hret & Hne & Hr & Hc)]].
    + split; [exact (well_keyed_same _ _ Hc Hwk)|]. intros d Hd. congruence.
    + split; [exact (well_keyed_same _ _ Hc Hwk)|].
      intros d Hd. rewrite Hr in Hd. injection Hd as <-.
      exists []. repeat split; [cbn; lia | constructor].
    + destruct (parse_leaderboard_sorted_short R h self) as [Hs Hlen].
      rewrite Hret in Hs, Hlen.
      split; [exact (well_keyed_leaderboard _ _ _ _ _ Hc Hne Hlen Hs Hwk)|].
      intros d Hd. rewrite Hr in Hd. injection Hd as <-. eauto.
Qed.

End WellKeyed.

(** The two getters keep the cache well keyed: a player key holds the
    record of that very player, a leaderboard key a non-empty list of at
    most ten entries in ascending rank order.  On such a cache
    get_player_stats returns nothing but a record of the nickname asked
    for, and get_leaderboard nothing but a list of at most ten entries in
    ascending rank order. *)
Theorem getters_keep_well_keyed R site (t_check t_store : Q) (name : str)
  (self : RTanksScraper Service.cached) :
  Service.well_keyed self ->
  let rp := Service.get_player_stats R site t_check t_store name self in
  let rl := Service.get_leaderboard R site t_check t_store name self in
  Service.well_keyed (Service.object_after rp)
  /\ Service.well_keyed (Service.object_after rl)
  /\ (forall d, Service.result_of rp = Some d ->
        exists p, d = Service.CachedPlayer p /\ Player.nickname p = name)
  /\ (forall d, Service.result_of rl = Some d ->
        exists l, d = Service.CachedLeaderboard l
                  /\ (length l <= 10)%nat /\ StronglySorted rank_le l).
Proof.
  intros Hwk rp rl.
  destruct (get_player_stats_well_keyed R site t_check t_store name self Hwk).
  destruct (get_leaderboard_well_keyed R site t_check t_store name self Hwk).
  auto.
Qed.

Lemma getters_keep_well_keyed_witness :
  Service.well_keyed
    (Service.object_after
       (Service.get_player_stats Sample.runtime SampleSite.site 1000 1001
          (PyStr.u "Foo") SampleSite.scraper)).
Proof.
  apply (getters_keep_well_keyed Sample.runtime SampleSite.site 1000 1001
           (PyStr.u "Foo") SampleSite.scraper).
  split; intros k e H; vm_compute in H; discriminate.
Defined.

Section SessionFacts.
Context (R : Runtime).
Import PyStr Service.
Implicit Types (self : RTanksScraper cached) (site : str -> http_outcome).

(** What fetch_page gives does not depend on the state of the client. *)
Lemma fetch_page_any_session site url s self :
  result_of (fetch_page site url (with_session s self))
  = result_of (fetch_page site url self)
  /\ events_of (fetch_page site url (with_session s self))
     = events_of (fetch_page site url self)
  /\ object_after (fetch_page site url (with_session s self))
     = with_session (Some false) self
  /\ object_after (fetch_page site url self) = with_session (Some false) self.
Proof.
  unfold fetch_page, get_session.
  assert (Hopen : session self = Some false -> self = with_session (Some false) self).
  { intros H. destruct self as [b se c t]. cbn in H. now subst se. }
  destruct (session self) as [[|]|] eqn:Hs; destruct s as [[|]|];
    cbn [session with_session];
    destruct (site url) as [status text| |]; try destruct (status =? 200)%Z;
    cbn; repeat split; auto.
Qed.

Lemma get_player_stats_any_session site (t1 t2 : Q) name s self :
  result_of (get_player_stats R site t1 t2 name (with_session s self))
  = result_of (get_player_stats R site t1 t2 name self)
  /\ events_of (get_player_stats R site t1 t2 name (with_session s self))
     = events_of (get_player_stats R site t1 t2 name self)
  /\ cache (object_after (get_player_stats R site t1 t2 name (with_session s self)))
     = cache (object_after (get_player_stats R site t1 t2 name self)).
Proof.
  unfold get_player_stats. rewrite !get_from_cache_eq.
  cbn [cache cache_timeout base_url with_session]. cbv beta iota zeta.
  destruct (is_true _); [cbn; auto|].
  set (url := base_url self ++ u "/user/" ++ name).
  destruct (fetch_page_any_session site url s self) as (Hr & He & Ho & Ho').
  destruct (fetch_page site url (with_session s self)) as [[html1 self1] ev1].
  destruct (fetch_page site url self) as [[html2 self2] ev2].
  unfold result_of, events_of, object_after in *. cbn [fst snd] in *.
  subst html2 ev2 self1 self2.
  destruct html1 as [[|c text]|]; [cbn; auto| |cbn; auto].
  rewrite parse_player_profile_eq.
  destruct (returned (Scraper.parse_player_profile R (c :: text) name _));
    cbn; auto.
Qed.

End SessionFacts.

(** Closing the client loses nothing: close_session leaves the cache as it
    was and no open client behind, and a later get_player_stats returns and
    stores what it would have without the close, opening a client again
    whenever it has to ask the site. *)
Theorem close_session_keeps_cache R site (t1 t2 : Q) (name : str)
  (self : RTanksScraper Service.cached) :
  let closed := Service.object_after (Service.close_session self) in
  let after_close := Service.get_player_stats R site t1 t2 name closed in
  let without := Service.get_player_stats R site t1 t2 name self in
  cache closed = cache self
  /\ session closed <> Some false
  /\ Service.result_of after_close = Service.result_of without
  /\ cache (Service.object_after after_close) = cache (Service.object_after without)
  /\ (Service.requests (Service.events_of after_close) <> [] ->
      session (Service.object_after after_close) = Some false).
Proof.
  intros closed after_close without. subst after_close without.
  assert (Hclosed : closed = Service.with_session (session closed) self
                    /\ session closed <> Some false).
  { subst closed. unfold Service.close_session.
    destruct self as [b [[|]|] c t]; cbn; split; auto; discriminate. }
  destruct Hclosed as [Hc Hs]. rewrite Hc.
  destruct (get_player_stats_any_session R site t1 t2 name (session closed) self)
    as (Hr & He & Hcache).
  repeat split; auto.
  intros Hreq.
  destruct (get_player_stats_cases R site t1 t2 name
              (Service.with_session (session closed) self))
    as [(e & _ & _ & _ & Hhit) | (_ & _ & _ & _ & Hopen & _)]; [|exact Hopen].
  rewrite Hhit in Hreq. now contradiction Hreq.
Qed.

(** ** The shape of what the extractors return *)

Section ShapeFacts.
Context (R : Runtime).
Import PyStr Soup Rows Shape.

Lemma drop_while_head p s c rest : drop_while p s = c :: rest -> p c = false.
Proof.
  induction s as [|x s IH]; cbn; [discriminate|].
  destruct (p x) eqn:E; [exact IH|]. now intros [= <- _].
Qed.

Lemma drop_while_suffix p s : exists pre, s = pre ++ drop_while p s.
Proof.
  induction s as [|x s [pre IH]]; cbn; [now exists []|].
  destruct (p x); [|now exists []].
  exists (x :: pre). cbn. now rewrite <- IH.
Qed.

Lemma strip_with_last p s c front : strip_with p s = front ++ [c] -> p c = false.
Proof.
  unfold strip_with. intros H. apply (f_equal (@rev N)) in H.
  rewrite rev_involutive, rev_unit in H. exact (drop_while_head _ _ _ _ H).
Qed.

Lemma strip_with_head p s c rest : strip_with p s = c :: rest -> p c = false.
Proof.
  unfold strip_with. intros H.
  destruct (drop_while_suffix p (rev (drop_while p s))) as [pre Hpre].
  apply (f_equal (@rev N)) in Hpre. rewrite rev_involutive, rev_app_distr, H in Hpre.
  cbn [app] in Hpre. exact (drop_while_head _ _ _ _ Hpre).
Qed.

(** What strip() returns is trimmed, unless it is empty. *)
Lemma strip_trimmed s : strip R s <> [] -> trimmed R (strip R s).
Proof.
  intros Hne. repeat split; [exact Hne| |].
  - intros c rest. apply strip_with_head.
  - intros c front. apply strip_with_last.
Qed.

(** A name that passes the test of the row came out of strip(). *)
Lemma resolved_name_trimmed player_cell name :
  Scraper.resolve_player_name R player_cell = Some name ->
  truthy (Some name) = true -> trimmed R name.
Proof.
  unfold Scraper.resolve_player_name. cbv zeta.
  match goal with
  | |- (if truthy ?pn then _ else _) = _ -> _ => destruct (truthy pn) eqn:Hpn
  end.
  - intros [= <-] Htrue. apply strip_trimmed.
    intros E. rewrite E in Htrue. discriminate.
  - intros E Htrue. rewrite E in Hpn. congruence.
Qed.

Lemma isdigit_no_minus s : isdigit R s = true -> ~ In 45 s.
Proof.
  unfold isdigit. destruct s as [|c s]; [discriminate|].
  intros H Hin. rewrite forallb_forall in H. apply H in Hin.
  vm_compute in Hin. discriminate.
Qed.

(** int() of a string that passed isdigit() is not negative. *)
Lemma int_isdigit_nonneg s v :
  isdigit R s = true -> py_int R s = Some v -> (0 <= v)%Z.
Proof.
  intros Hd Hv. eapply py_int_nonneg; [exact Hv | now apply isdigit_no_minus].
Qed.

End ShapeFacts.

(** Every entry of a leaderboard has a rank that is not negative, a name
    that is not empty and has no whitespace at either end, and a display
    text that is not empty. *)
Theorem leaderboard_entries_well_formed R {V} (html : str) (self : RTanksScraper V)
  (e : Entry.t) :
  In e (returned (Scraper.parse_leaderboard R html self)) ->
  (0 <= Entry.rank e)%Z
  /\ Shape.trimmed R (Entry.name e)
  /\ Entry.formatted_value e <> [].
Proof.
  intros He. apply returned_entry_row in He as (soup & row & _ & _ & Hentry).
  unfold Rows.row_entry, Rows.row_texts in Hentry.
  destruct (Soup.find_all (PyStr.u "td") row) as [|c0 [|c1 [|c2 cells]]];
    try discriminate.
  destruct (PyStr.isdigit R _ && _ && _) eqn:Hok; [|discriminate].
  apply andb_prop in Hok as [Hok Hvalue]. apply andb_prop in Hok as [Hdigit Hname].
  destruct (PyStr.py_int R _) as [rank|] eqn:Hrank; [|discriminate].
  injection Hentry as <-. cbn [Entry.rank Entry.name Entry.formatted_value].
  split; [|split].
  - exact (int_isdigit_nonneg R _ _ Hdigit Hrank).
  - destruct (Scraper.resolve_player_name R c1) as [name|] eqn:Hres;
      [|discriminate]. cbn [default].
    exact (resolved_name_trimmed R _ _ Hres Hname).
  - intros E. rewrite E in Hvalue. discriminate.
Qed.

Lemma leaderboard_entries_well_formed_witness :
  let alice := {| Entry.rank := 1; Entry.name := PyStr.u "Alice";
                  Entry.value := 1000; Entry.formatted_value := PyStr.u "1 000" |} in
  (0 <= Entry.rank alice)%Z /\ Shape.trimmed Sample.runtime (Entry.name alice)
  /\ Entry.formatted_value alice <> [].
Proof.
  intros alice.
  apply (leaderboard_entries_well_formed Sample.runtime Sample.leaderboard_html
           Sample.scraper alice).
  vm_compute. left. reflexivity.
Defined.

Section ProfileShape.
Context (R : Runtime).
Import PyStr Soup Rows Shape.

Lemma stat_row_counts pd row pd' :
  Scraper.stat_row R pd row = Ok pd' -> counts_nonneg pd -> counts_nonneg pd'.
Proof.
  unfold Scraper.stat_row, Scraper.stat_branches, int_, mbind, result_bind.
  intros H (He & Hk & Hd & Hg).
  repeat case_match; simplify_eq; unfold counts_nonneg;
    cbn [Player.experience Player.kills Player.deaths Player.gold_boxes
         Player.set_kills Player.set_deaths Player.set_kd_ratio
         Player.set_gold_boxes Player.set_premium Player.set_group
         unset_or_nonneg];
    repeat split; auto; eapply int_isdigit_nonneg; eauto.
Qed.

Lemma extract_experience_counts texts pd pd' :
  Scraper.extract_experience R texts pd = Ok pd' ->
  counts_nonneg pd -> counts_nonneg pd'.
Proof.
  induction texts as [|t texts IH]; cbn [Scraper.extract_experience]; intros H Hpd.
  - now inversion H; subst.
  - destruct (contains (u "/") t); [|auto].
    destruct (isdigit R _) eqn:Hdigit; [|auto].
    unfold int_, mbind, result_bind in H.
    destruct (py_int R _) as [n|] eqn:Hn; [|discriminate].
    inversion H; subst pd'. destruct Hpd as (He & Hk & Hd & Hg).
    repeat split; auto. cbn. exact (int_isdigit_nonneg R _ _ Hdigit Hn).
Qed.

Lemma extract_rankings_counts soup pd :
  counts_nonneg pd -> counts_nonneg (Scraper.extract_rankings R soup pd).
Proof.
  intros Hpd. unfold Scraper.extract_rankings.
  destruct (find (u "table") soup); [|exact Hpd].
  apply (fold_left_preserves counts_nonneg); [|exact Hpd].
  intros s row Hs. unfold Scraper.ranking_row.
  destruct (find_all (u "td") row) as [|c0 [|c1 [|c2 cells]]]; auto.
  destruct (nonempty _ && _ && _); auto.
Qed.

End ProfileShape.

(** A record returned for a nickname carries that nickname, and its
    experience, kills, deaths and gold boxes are unset or not negative. *)
Theorem profile_counts_nonneg R {V} (html nickname : str) (self : RTanksScraper V)
  (p : Player.t) :
  returned (Scraper.parse_player_profile R html nickname self) = Some p ->
  Player.nickname p = nickname /\ Shape.counts_nonneg p.
Proof.
  intros Hp. split; [exact (returned_profile_nickname R _ _ _ _ Hp)|].
  rewrite parse_player_profile_returned in Hp.
  destruct (Scraper.parse_player_profile_try R html nickname) as [r|e] eqn:Htry;
    [subst r | discriminate].
  destruct (BeautifulSoup R html) as [soup|e] eqn:Hsoup.
  - apply (parse_player_profile_try_inv R _ _ _ _ Hsoup) in Htry.
    destruct (Scraper.player_missing R html nickname); [discriminate|].
    destruct Htry as (pd1 & pd2 & H1 & H2 & [= ->]).
    change (Shape.counts_nonneg (Scraper.extract_rankings R soup pd2)).
    apply extract_rankings_counts.
    apply (for_each_preserves Shape.counts_nonneg _ _ _ _
             (fun s a s' _ Hb Hs => stat_row_counts R _ _ _ Hb Hs)) in H2;
      [exact H2|].
    apply (extract_experience_counts R _ _ _ H1).
    unfold Scraper.extract_rank, Scraper.extract_activity.
    repeat case_match; repeat split; exact I.
  - unfold Scraper.parse_player_profile_try in Htry. rewrite Hsoup in Htry.
    discriminate.
Qed.

Lemma profile_counts_nonneg_witness :
  exists p,
    returned (Scraper.parse_player_profile Sample.runtime Sample.profile_html
                (PyStr.u "Foo") Sample.scraper) = Some p
    /\ Player.nickname p = PyStr.u "Foo" /\ Shape.counts_nonneg p.
Proof.
  destruct (returned (Scraper.parse_player_profile Sample.runtime Sample.profile_html
                        (PyStr.u "Foo") Sample.scraper)) as [p|] eqn:Hp;
    [|vm_compute in Hp; discriminate].
  exists p. split; [reflexivity|].
  exact (profile_counts_nonneg Sample.runtime Sample.profile_html (PyStr.u "Foo")
           Sample.scraper p Hp).
Defined.

(** ** Later rows overwrite earlier ones (spec 4.3, step 5) *)

Section LastWrite.
Import PyStr Soup Rows Shape.

Lemma last_of_cons_some {A} (x b : A) l :
  last_of l = Some b -> last_of (x :: l) = Some b.
Proof. destruct l; [discriminate | auto]. Qed.

Lemma last_of_none {A} (l : list A) : last_of l = None -> l = [].
Proof.
  induction l as [|x l IH]; [reflexivity|].
  destruct l as [|y l]; [discriminate|]. intros H. apply IH in H. discriminate.
Qed.

(** A loop whose body writes [w a] to a field, when that is something,
    leaves in the field the last thing written. *)
Lemma for_each_last_write {A S B} (get : S -> option B) (w : A -> option B)
  (body : S -> A -> result S) xs acc r :
  (forall s a s', body s a = Ok s' ->
     get s' = match w a with Some b => Some b | None => get s end) ->
  for_each body xs acc = Ok r ->
  get r = match last_of (omap w xs) with Some b => Some b | None => get acc end.
Proof.
  intros Hbody. revert acc. induction xs as [|x xs IH]; intros acc H.
  - cbn in H. now inversion H.
  - cbn [for_each] in H. unfold mbind, result_bind in H.
    destruct (body acc x) as [acc1|] eqn:E; [|discriminate].
    rewrite (IH _ H), (Hbody _ _ _ E), omap_cons.
    destruct (last_of (omap w xs)) as [b|] eqn:El.
    + destruct (w x); [now rewrite (last_of_cons_some _ _ _ El) | now rewrite El].
    + apply last_of_none in El. rewrite El. destruct (w x); reflexivity.
Qed.

Context (R : Runtime).

Lemma stat_row_premium pd row pd' :
  Scraper.stat_row R pd row = Ok pd' ->
  Player.premium pd'
  = match premium_written R row with Some b => Some b | None => Player.premium pd end.
Proof.
  rewrite stat_row_eq. unfold premium_written.
  destruct (stat_cells R row) as [[key value]|]; [|now intros [= <-]].
  unfold Scraper.stat_branches, branch_of, int_, mbind, result_bind.
  intros H. repeat case_match; simplify_eq; reflexivity.
Qed.

Lemma stat_row_group pd row pd' :
  Scraper.stat_row R pd row = Ok pd' ->
  Player.group pd'
  = match group_written R row with Some b => Some b | None => Player.group pd end.
Proof.
  rewrite stat_row_eq. unfold group_written.
  destruct (stat_cells R row) as [[key value]|]; [|now intros [= <-]].
  unfold Scraper.stat_branches, branch_of, int_, mbind, result_bind.
  intros H. repeat case_match; simplify_eq; reflexivity.
Qed.

Lemma stat_row_kills pd row pd' :
  Scraper.stat_row R pd row = Ok pd' ->
  Player.kills pd'
  = match kills_written R row with Some b => Some b | None => Player.kills pd end.
Proof.
  rewrite stat_row_eq. unfold kills_written.
  destruct (stat_cells R row) as [[key value]|]; [|now intros [= <-]].
  unfold Scraper.stat_branches, branch_of, int_, mbind, result_bind.
  intros H. repeat case_match; simplify_eq; reflexivity.
Qed.

(** The experience step changes the experience only, and the rankings and
    equipment steps their own field only. *)
Lemma extract_experience_only texts pd pd' :
  Scraper.extract_experience R texts pd = Ok pd' ->
  pd' = Player.set_experience (Player.experience pd') pd.
Proof.
  induction texts as [|t texts IH]; cbn [Scraper.extract_experience]; intros H.
  - inversion H; subst. now destruct pd'.
  - destruct (contains (u "/") t); [|auto].
    destruct (isdigit R _); [|auto].
    unfold int_, mbind, result_bind in H.
    destruct (py_int R _); [|discriminate]. now inversion H.
Qed.

Lemma extract_rankings_only soup pd :
  Scraper.extract_rankings R soup pd
  = Player.set_rankings (Player.rankings (Scraper.extract_rankings R soup pd)) pd.
Proof.
  unfold Scraper.extract_rankings.
  destruct (find (u "table") soup); [|now destruct pd].
  apply (fold_left_preserves
           (fun s => s = Player.set_rankings (Player.rankings s) pd));
    [|now destruct pd].
  intros s row Hs. unfold Scraper.ranking_row.
  destruct (find_all (u "td") row) as [|c0 [|c1 [|c2 cells]]]; auto.
  destruct (nonempty _ && _ && _); auto.
  rewrite Hs. reflexivity.
Qed.

(** The record before the table loop has nothing in the fields the loop
    and the later steps write. *)
Lemma before_stats_unset soup nickname pd1 :
  Scraper.extract_experience R
    (List.filter (Scraper.exp_pattern R) (all_strings soup))
    (Scraper.extract_rank R soup
       (Scraper.extract_activity R soup (Scraper.new_player_data nickname)))
  = Ok pd1 ->
  Player.kills pd1 = None /\ Player.premium pd1 = None /\ Player.group pd1 = None
  /\ Player.rankings pd1 = []
  /\ Player.equipment pd1 = Player.equipment (Scraper.new_player_data nickname).
Proof.
  intros H. apply extract_experience_only in H. rewrite H.
  unfold Scraper.extract_rank, Scraper.extract_activity.
  repeat case_match; repeat split; reflexivity.
Qed.

End LastWrite.

(** Later rows overwrite earlier ones: in the record returned, premium,
    group and kills hold what the last row that writes the field wrote, over
    all the tables in page order, and are unset when no row writes them.  A
    kills row whose value is not all digits writes nothing. *)
Theorem stats_last_write_wins R {V} (html nickname : str) (self : RTanksScraper V)
  (soup : node) (p : Player.t) :
  BeautifulSoup R html = Ok soup ->
  returned (Scraper.parse_player_profile R html nickname self) = Some p ->
  Player.premium p
  = Shape.last_of (omap (Shape.premium_written R) (Rows.all_rows soup))
  /\ Player.group p
     = Shape.last_of (omap (Shape.group_written R) (Rows.all_rows soup))
  /\ Player.kills p
     = Shape.last_of (omap (Shape.kills_written R) (Rows.all_rows soup)).
Proof.
  intros Hsoup Hp. rewrite parse_player_profile_returned in Hp.
  destruct (Scraper.parse_player_profile_try R html nickname) as [r|e] eqn:Htry;
    [subst r | discriminate].
  apply (parse_player_profile_try_inv R _ _ _ _ Hsoup) in Htry.
  destruct (Scraper.player_missing R html nickname); [discriminate|].
  destruct Htry as (pd1 & pd2 & H1 & H2 & [= ->]).
  apply before_stats_unset in H1 as (Hk & Hpr & Hg & _ & _).
  change (Player.premium (Scraper.extract_equipment R soup ?x)) with (Player.premium x).
  change (Player.group (Scraper.extract_equipment R soup ?x)) with (Player.group x).
  change (Player.kills (Scraper.extract_equipment R soup ?x)) with (Player.kills x).
  rewrite (extract_rankings_only R soup pd2).
  cbn [Player.premium Player.group Player.kills Player.set_rankings].
  pose proof (for_each_last_write Player.premium (Shape.premium_written R) _ _ _ _
                (stat_row_premium R) H2) as Epremium.
  pose proof (for_each_last_write Player.group (Shape.group_written R) _ _ _ _
                (stat_row_group R) H2) as Egroup.
  pose proof (for_each_last_write Player.kills (Shape.kills_written R) _ _ _ _
                (stat_row_kills R) H2) as Ekills.
  rewrite Epremium, Egroup, Ekills, Hk, Hpr, Hg. clear Epremium Egroup Ekills.
  repeat split; repeat case_match; reflexivity.
Qed.

Lemma stats_last_write_wins_witness :
  exists p,
    returned (Scraper.parse_player_profile Gallery.runtime Gallery.profile_html
                (PyStr.u "Foo") Sample.scraper) = Some p
    /\ Player.premium p = Some true
    /\ Player.group p = Some (PyStr.u "Alpha")
    /\ Player.kills p = Some 10%Z.
Proof.
  destruct (returned (Scraper.parse_player_profile Gallery.runtime Gallery.profile_html
                        (PyStr.u "Foo") Sample.scraper)) as [p|] eqn:Hp;
    [|vm_compute in Hp; discriminate].
  exists p. split; [reflexivity|].
  destruct (stats_last_write_wins Gallery.runtime Gallery.profile_html (PyStr.u "Foo")
              Sample.scraper Gallery.profile_soup p
              ltac:(vm_compute; reflexivity) Hp) as (-> & -> & ->).
  repeat split; vm_compute; reflexivity.
Defined.

(** ** Rankings and equipment (spec 4.3, steps 6 and 7) *)

Section RankingsFacts.
Import PyStr Soup Rows Shape.

Lemma eqb_str_eq a b : eqb_str a b = true <-> a = b.
Proof.
  revert b. induction a as [|x a IH]; intros [|y b]; cbn; try (split; congruence).
  rewrite andb_true_iff, N.eqb_eq, IH. split; [intros [-> ->] | intros [= -> ->]]; auto.
Qed.

Lemma dict_set_In {V} key (v : V) d k w :
  In (k, w) (dict_set key v d) -> (k, w) = (key, v) \/ In (k, w) d.
Proof.
  induction d as [|[k0 w0] d IH]; cbn.
  - intros [H|[]]. now left.
  - destruct (eqb_str k0 key) eqn:E.
    + apply eqb_str_eq in E. subst k0. cbn. intros [H|H]; [now left | right; now right].
    + cbn. intros [H|H]; [right; now left|].
      apply IH in H as [H|H]; [now left | right; now right].
Qed.

Lemma dict_set_keys {V} key (v : V) d k :
  In k (map fst (dict_set key v d)) -> k = key \/ In k (map fst d).
Proof.
  induction d as [|[k0 w0] d IH]; cbn.
  - intros [H|[]]. now left.
  - destruct (eqb_str k0 key) eqn:E.
    + cbn. intros [H|H]; right; auto.
    + cbn. intros [H|H]; [right; now left|].
      apply IH in H as [H|H]; [now left | right; now right].
Qed.

(** A dict keeps one item for each key. *)
Lemma dict_set_NoDup {V} key (v : V) d :
  List.NoDup (map fst d) -> List.NoDup (map fst (dict_set key v d)).
Proof.
  induction d as [|[k0 w0] d IH]; cbn; intros H.
  - apply List.NoDup_cons; [intros [] | apply List.NoDup_nil].
  - destruct (eqb_str k0 key) eqn:E; [exact H|].
    cbn. apply List.NoDup_cons_iff in H as [Hk0 Hd]. apply List.NoDup_cons; [|auto].
    intros Hin. apply dict_set_keys in Hin as [->|Hin]; [|contradiction].
    assert (eqb_str key key = true) by now apply eqb_str_eq. congruence.
Qed.

Lemma fold_left_preserves_in {A S} (P : S -> Prop) (f : S -> A -> S) xs acc :
  (forall s a, In a xs -> P s -> P (f s a)) -> P acc -> P (fold_left f xs acc).
Proof.
  revert acc. induction xs as [|x xs IH]; intros acc Hf Hacc; cbn; [exact Hacc|].
  apply IH; [intros s a Ha; apply Hf; now right|]. apply Hf; [now left | exact Hacc].
Qed.

Lemma fold_left_flat_map {A B S} (f : S -> B -> S) (g : A -> list B) xs acc :
  fold_left (fun s a => fold_left f (g a) s) xs acc = fold_left f (flat_map g xs) acc.
Proof.
  revert acc. induction xs as [|x xs IH]; intros acc; [reflexivity|].
  cbn [fold_left flat_map]. now rewrite fold_left_app, IH.
Qed.

Context (R : Runtime).

Lemma ranking_row_from rows pd row :
  In row rows ->
  rankings_from R rows (Player.rankings pd) ->
  rankings_from R rows (Player.rankings (Scraper.ranking_row R pd row)).
Proof.
  intros Hrow (Hnd & Hfilled & Hsrc). unfold Scraper.ranking_row.
  destruct (find_all (u "td") row) as [|c0 [|c1 [|c2 cells]]] eqn:Hcells;
    try (repeat split; assumption).
  destruct (nonempty _ && _ && _) eqn:Hne; [|repeat split; assumption].
  apply andb_prop in Hne as [Hne Hv]. apply andb_prop in Hne as [Hc Hr].
  cbn [Player.rankings Player.set_rankings]. split; [|split].
  - now apply dict_set_NoDup.
  - apply List.Forall_forall. intros [k w] Hin.
    apply dict_set_In in Hin as [[= -> ->]|Hin].
    + repeat split; cbn; intros E; rewrite E in *; discriminate.
    + rewrite List.Forall_forall in Hfilled. now apply Hfilled.
  - intros [k w] Hin. apply dict_set_In in Hin as [[= -> ->]|Hin]; [|auto].
    exists row. split; [exact Hrow|]. unfold ranking_cells. now rewrite Hcells.
Qed.

Lemma stat_row_rest pd row pd' :
  Scraper.stat_row R pd row = Ok pd' ->
  Player.rankings pd' = Player.rankings pd
  /\ Player.equipment pd' = Player.equipment pd.
Proof.
  unfold Scraper.stat_row, Scraper.stat_branches, int_, mbind, result_bind.
  intros H. repeat case_match; simplify_eq; split; reflexivity.
Qed.

(** The table loop leaves the rankings and the equipment as they were. *)
Lemma stats_loop_rest rows pd pd' :
  for_each (Scraper.stat_row R) rows pd = Ok pd' ->
  Player.rankings pd' = Player.rankings pd
  /\ Player.equipment pd' = Player.equipment pd.
Proof.
  intros H.
  apply (for_each_preserves
           (fun s => Player.rankings s = Player.rankings pd
                     /\ Player.equipment s = Player.equipment pd) _ _ _ _
           (fun s a s' _ Hb Hs =>
              let '(conj Hr He) := stat_row_rest _ _ _ Hb in
              conj (eq_trans Hr (proj1 Hs)) (eq_trans He (proj2 Hs)))
           (conj eq_refl eq_refl) H).
Qed.

End RankingsFacts.

(** The rankings of a record come from the first table of the page only:
    every item is the three texts of one of its rows, no text of an item is
    empty, a category appears once, and a page without a table gives no
    rankings at all. *)
Theorem profile_rankings_from_first_table R {V} (html nickname : str)
  (self : RTanksScraper V) (soup : node) (p : Player.t) :
  BeautifulSoup R html = Ok soup ->
  returned (Scraper.parse_player_profile R html nickname self) = Some p ->
  match Soup.find (PyStr.u "table") soup with
  | Some first_table =>
    List.NoDup (map fst (Player.rankings p))
    /\ Forall Shape.item_filled (Player.rankings p)
    /\ (forall item, In item (Player.rankings p) ->
          exists row, In row (Soup.find_all (PyStr.u "tr") first_table)
                      /\ Shape.ranking_cells R row = Some item)
  | None => Player.rankings p = []
  end.
Proof.
  intros Hsoup Hp. rewrite parse_player_profile_returned in Hp.
  destruct (Scraper.parse_player_profile_try R html nickname) as [r|e] eqn:Htry;
    [subst r | discriminate].
  apply (parse_player_profile_try_inv R _ _ _ _ Hsoup) in Htry.
  destruct (Scraper.player_missing R html nickname); [discriminate|].
  destruct Htry as (pd1 & pd2 & H1 & H2 & [= ->]).
  apply before_stats_unset in H1 as (_ & _ & _ & Hr1 & _).
  apply stats_loop_rest in H2 as [Hr2 _]. rewrite Hr1 in Hr2.
  change (Player.rankings (Scraper.extract_equipment R soup ?x))
    with (Player.rankings x).
  unfold Scraper.extract_rankings.
  destruct (Soup.find (PyStr.u "table") soup) as [first_table|]; [|exact Hr2].
  apply (fold_left_preserves_in
           (fun s => Shape.rankings_from R (Soup.find_all (PyStr.u "tr") first_table)
                       (Player.rankings s))).
  - intros s row Hrow Hs. now apply ranking_row_from.
  - rewrite Hr2. repeat split;
      [apply List.NoDup_nil | constructor | intros item []].
Qed.

Lemma profile_rankings_from_first_table_witness :
  exists p,
    returned (Scraper.parse_player_profile Gallery.runtime Gallery.profile_html
                (PyStr.u "Foo") Sample.scraper) = Some p
    /\ Player.rankings p
       = [(PyStr.u "Опыт", (PyStr.u "#5", PyStr.u "1 200"))]
    /\ List.NoDup (map fst (Player.rankings p)).
Proof.
  destruct (returned (Scraper.parse_player_profile Gallery.runtime Gallery.profile_html
                        (PyStr.u "Foo") Sample.scraper)) as [p|] eqn:Hp;
    [|vm_compute in Hp; discriminate].
  exists p. split; [reflexivity|].
  pose proof (profile_rankings_from_first_table Gallery.runtime Gallery.profile_html
                (PyStr.u "Foo") Sample.scraper Gallery.profile_soup p
                ltac:(vm_compute; reflexivity) Hp) as H.
  split.
  - vm_compute in Hp. injection Hp as <-. vm_compute. reflexivity.
  - destruct (Soup.find (PyStr.u "table") Gallery.profile_soup);
      [exact (proj1 H) | rewrite H; apply List.NoDup_nil].
Defined.

Section EquipmentFacts.
Import PyStr Soup Shape.

Lemma alts_of_cons s img imgs :
  alts_of s (img :: imgs)
  = match slot_of img with
    | Some s' => if slot_eqb s s' then [get_or_empty (u "alt") img] else []
    | None => []
    end ++ alts_of s imgs.
Proof.
  unfold alts_of. cbn [List.filter].
  destruct (slot_of img) as [s'|]; [|reflexivity].
  destruct (slot_eqb s s'); reflexivity.
Qed.

(** The loop over the images appends each alt text to the list of the
    slot of the image, and drops the images of no slot. *)
Lemma equipment_loop imgs e :
  fold_left Scraper.equipment_img imgs e
  = {| Player.turrets := Player.turrets e ++ alts_of Turret imgs;
       Player.hulls := Player.hulls e ++ alts_of Hull imgs;
       Player.paints := Player.paints e ++ alts_of Paint imgs;
       Player.modules := Player.modules e ++ alts_of Module_ imgs |}.
Proof.
  revert e. induction imgs as [|img imgs IH]; intros e.
  - cbn. rewrite !app_nil_r. now destruct e.
  - cbn [fold_left]. rewrite IH, !alts_of_cons.
    unfold Scraper.equipment_img, slot_of. cbv zeta.
    destruct (contains (u "turrets") _);
      [|destruct (contains (u "hulls") _);
        [|destruct (contains (u "colormaps") _);
          [|destruct (contains (u "resistances") _)]]];
      cbn [slot_eqb Player.turrets Player.hulls Player.paints Player.modules app];
      rewrite <- ?app_assoc; reflexivity.
Qed.

End EquipmentFacts.

(** The four equipment lists of a record are the alt texts of the images
    found in the equipment sections, in page order, each image going to the
    list of the first of "turrets", "hulls", "colormaps", "resistances" that
    its src contains, and to none when it contains none of them. *)
Theorem profile_equipment_lists R {V} (html nickname : str) (self : RTanksScraper V)
  (soup : node) (p : Player.t) :
  BeautifulSoup R html = Ok soup ->
  returned (Scraper.parse_player_profile R html nickname self) = Some p ->
  let imgs := Shape.equipment_images R soup in
  Player.turrets (Player.equipment p) = Shape.alts_of Shape.Turret imgs
  /\ Player.hulls (Player.equipment p) = Shape.alts_of Shape.Hull imgs
  /\ Player.paints (Player.equipment p) = Shape.alts_of Shape.Paint imgs
  /\ Player.modules (Player.equipment p) = Shape.alts_of Shape.Module_ imgs.
Proof.
  intros Hsoup Hp imgs. rewrite parse_player_profile_returned in Hp.
  destruct (Scraper.parse_player_profile_try R html nickname) as [r|e] eqn:Htry;
    [subst r | discriminate].
  apply (parse_player_profile_try_inv R _ _ _ _ Hsoup) in Htry.
  destruct (Scraper.player_missing R html nickname); [discriminate|].
  destruct Htry as (pd1 & pd2 & H1 & H2 & [= ->]).
  apply before_stats_unset in H1 as (_ & _ & _ & _ & He1).
  apply stats_loop_rest in H2 as [_ He2]. rewrite He1 in He2.
  unfold Scraper.extract_equipment. cbn [Player.equipment Player.set_equipment].
  rewrite (extract_rankings_only R soup pd2).
  cbn [Player.equipment Player.set_rankings]. rewrite He2.
  rewrite fold_left_flat_map. fold (Shape.equipment_images R soup). fold imgs.
  rewrite equipment_loop. cbn. auto.
Qed.

Lemma profile_equipment_lists_witness :
  exists p,
    returned (Scraper.parse_player_profile Gallery.runtime Gallery.profile_html
                (PyStr.u "Foo") Sample.scraper) = Some p
    /\ Player.turrets (Player.equipment p) = [PyStr.u "Smoky"; PyStr.u "Railgun"]
    /\ Player.hulls (Player.equipment p) = [PyStr.u "Hunter"].
Proof.
  destruct (returned (Scraper.parse_player_profile Gallery.runtime Gallery.profile_html
                        (PyStr.u "Foo") Sample.scraper)) as [p|] eqn:Hp;
    [|vm_compute in Hp; discriminate].
  exists p. split; [reflexivity|].
  destruct (profile_equipment_lists Gallery.runtime Gallery.profile_html (PyStr.u "Foo")
              Sample.scraper Gallery.profile_soup p
              ltac:(vm_compute; reflexivity) Hp) as (-> & -> & _).
  split; vm_compute; reflexivity.
Defined.

(** ** More on the cache *)

(** A store touches its own key only: lookups of other keys return what
    they returned before.  A second store under a key replaces the first
    altogether, time stamp included.  A key that was never stored gives
    [None] at any time. *)
Theorem set_cache_frame_and_overwrite {V} (self : RTanksScraper V) (k k' : str)
  (v v' : V) (t0 t1 now : Q) :
  let stored := self_after (Scraper.set_cache t0 k v self) in
  (k <> k' ->
   returned (Scraper.get_from_cache now k' stored)
   = returned (Scraper.get_from_cache now k' self))
  /\ self_after (Scraper.set_cache t1 k v' stored)
     = self_after (Scraper.set_cache t1 k v' self)
  /\ (cache self !! k = None ->
      returned (Scraper.get_from_cache now k self) = None)
  /\ returned (Scraper.get_from_cache now k (Scraper.init (V:=V))) = None.
Proof.
  intros stored. split; [|split; [|split]].
  - intros Hne. rewrite !get_from_cache_returned.
    unfold stored. rewrite (set_cache_other _ _ _ _ _ Hne). reflexivity.
  - unfold stored, Scraper.set_cache, self_after. cbn [fst snd cache base_url session cache_timeout].
    f_equal. apply insert_insert_eq.
  - intros Hnone. rewrite get_from_cache_returned. unfold str in *. now rewrite Hnone.
  - rewrite get_from_cache_returned. cbn [cache Scraper.init].
    unfold str in *. now rewrite lookup_empty.
Qed.

Lemma set_cache_frame_and_overwrite_witness :
  let stored := self_after (Scraper.set_cache 1000 (PyStr.u "player_Foo") 1%Z
                              Scraper.init) in
  returned (Scraper.get_from_cache 1001 (PyStr.u "player_Bar") stored) = None
  /\ returned (Scraper.get_from_cache 1400
                 (PyStr.u "player_Foo")
                 (self_after (Scraper.set_cache 1399 (PyStr.u "player_Foo") 2%Z stored)))
     = Some 2%Z.
Proof.
  intros stored.
  destruct (set_cache_frame_and_overwrite Scraper.init (PyStr.u "player_Foo")
              (PyStr.u "player_Bar") 1%Z 2%Z 1000 1399 1001) as (Hframe & Hover & _).
  split.
  - fold stored in Hframe. rewrite Hframe; [vm_compute; reflexivity|].
    vm_compute. discriminate.
  - fold stored in Hover. rewrite Hover. vm_compute. reflexivity.
Defined.

(** ** Experience (spec 4.3, step 4) *)

Section ExperienceFacts.
Context (R : Runtime).
Import PyStr Soup Shape.

Lemma extract_experience_find texts pd pd' :
  Scraper.extract_experience R texts pd = Ok pd' ->
  Player.experience pd'
  = match List.find (fun t => contains (u "/") t && isdigit R (numerator R t)) texts with
    | Some t => py_int R (numerator R t)
    | None => Player.experience pd
    end.
Proof.
  induction texts as [|t texts IH]; cbn [Scraper.extract_experience List.find]; intros H.
  - now inversion H.
  - unfold numerator in *. destruct (contains (u "/") t); cbn [andb]; [|auto].
    destruct (isdigit R _); [|auto].
    unfold int_, mbind, result_bind in H.
    destruct (py_int R _); [|discriminate]. now inversion H.
Qed.

Lemma stat_row_experience pd row pd' :
  Scraper.stat_row R pd row = Ok pd' -> Player.experience pd' = Player.experience pd.
Proof.
  unfold Scraper.stat_row, Scraper.stat_branches, int_, mbind, result_bind.
  intros H. repeat case_match; simplify_eq; reflexivity.
Qed.

End ExperienceFacts.

(** The experience of a record is read from the first string of the page
    that matches the fraction pattern and whose part before the first slash
    is, once trimmed and rid of spaces, all digits; strings that match but
    have anything else before the slash are passed over, and the experience
    is unset when no string qualifies. *)
Theorem profile_experience_source R {V} (html nickname : str) (self : RTanksScraper V)
  (soup : node) (p : Player.t) :
  BeautifulSoup R html = Ok soup ->
  returned (Scraper.parse_player_profile R html nickname self) = Some p ->
  Player.experience p
  = match Shape.experience_source R soup with
    | Some t => PyStr.py_int R (Shape.numerator R t)
    | None => None
    end.
Proof.
  intros Hsoup Hp. rewrite parse_player_profile_returned in Hp.
  destruct (Scraper.parse_player_profile_try R html nickname) as [r|e] eqn:Htry;
    [subst r | discriminate].
  apply (parse_player_profile_try_inv R _ _ _ _ Hsoup) in Htry.
  destruct (Scraper.player_missing R html nickname); [discriminate|].
  destruct Htry as (pd1 & pd2 & H1 & H2 & [= ->]).
  change (Player.experience (Scraper.extract_equipment R soup ?x))
    with (Player.experience x).
  rewrite (extract_rankings_only R soup pd2). cbn [Player.experience Player.set_rankings].
  transitivity (Player.experience pd1).
  - apply (for_each_preserves (fun s => Player.experience s = Player.experience pd1)
             _ _ _ _ (fun s a s' _ Hb Hs => eq_trans (stat_row_experience R _ _ _ Hb) Hs)
             eq_refl H2).
  - rewrite (extract_experience_find R _ _ _ H1). unfold Shape.experience_source.
    destruct (List.find _ _); [reflexivity|].
    unfold Scraper.extract_rank, Scraper.extract_activity.
    repeat case_match; reflexivity.
Qed.

Lemma profile_experience_source_witness :
  exists p,
    returned (Scraper.parse_player_profile Gallery.runtime Gallery.progress_html
                (PyStr.u "Foo") Sample.scraper) = Some p
    /\ Shape.experience_source Gallery.runtime Gallery.progress_soup
       = Some (PyStr.u "1 200 / 5 000")
    /\ Player.experience p = Some 1200%Z.
Proof.
  destruct (returned (Scraper.parse_player_profile Gallery.runtime Gallery.progress_html
                        (PyStr.u "Foo") Sample.scraper)) as [p|] eqn:Hp;
    [|vm_compute in Hp; discriminate].
  exists p. split; [reflexivity|].
  pose proof (profile_experience_source Gallery.runtime Gallery.progress_html
                (PyStr.u "Foo") Sample.scraper Gallery.progress_soup p
                ltac:(vm_compute; reflexivity) Hp) as H.
  split; [vm_compute; reflexivity|].
  rewrite H. vm_compute. reflexivity.
Defined.

(** ** The displayed name (utils.py) *)

Section UtilsFacts.
Context (R : Runtime).
Import PyStr Utils.

Lemma drop_while_all p (pre rest : str) :
  forallb p pre = true -> drop_while p (pre ++ rest) = drop_while p rest.
Proof.
  induction pre as [|x pre IH]; cbn; [reflexivity|].
  intros H. apply andb_prop in H as [-> H]. auto.
Qed.

Lemma drop_while_stop p c (rest : str) :
  p c = false -> drop_while p (c :: rest) = c :: rest.
Proof. cbn. now intros ->. Qed.

(** Dropping from a run that is followed by a character outside the class
    leaves a tail of the run, and all that follows. *)
Lemma drop_while_tail p q (a : str) c rest :
  forallb q a = true -> p c = false ->
  exists a', drop_while p (a ++ c :: rest) = a' ++ c :: rest /\ forallb q a' = true.
Proof.
  intros Ha Hc. induction a as [|x a IH]; cbn [app].
  - exists []. now rewrite drop_while_stop.
  - cbn [forallb] in Ha. apply andb_prop in Ha as [Hx Ha]. cbn [drop_while].
    destruct (p x); [auto|].
    exists (x :: a). cbn [forallb]. now rewrite Hx, Ha.
Qed.

Lemma forallb_rev {A} (p : A -> bool) l : forallb p (rev l) = forallb p l.
Proof.
  induction l as [|x l IH]; [reflexivity|].
  cbn [rev forallb]. rewrite forallb_app, IH. cbn. now rewrite andb_true_r, andb_comm.
Qed.

Lemma edge_class_space c : edge_class R c = false -> isspace R c = false.
Proof.
  unfold edge_class. intros H.
  destruct (isspace R c); [|reflexivity].
  now rewrite orb_true_r in H.
Qed.

Lemma word_char_kept c : word_char R c = true -> kept_class R c = true.
Proof.
  unfold word_char, kept_class. intros H. apply andb_prop in H as [_ H].
  destruct (isword R c), (isspace R c), (c =? 45), (c =? 95), (c =? 46);
    try reflexivity; discriminate.
Qed.

Lemma kept_nonspace_word c :
  kept_class R c = true -> isspace R c = false -> word_char R c = true.
Proof.
  unfold word_char, kept_class, isword. intros H Hsp. rewrite Hsp in *.
  cbn [negb andb].
  destruct (c =? 95); [now rewrite orb_true_r|].
  rewrite !orb_false_r in *. exact H.
Qed.

(** The words of split() are not empty and hold no whitespace. *)
Lemma split_from_display word s :
  forallb (word_char R) word = true -> forallb (kept_class R) s = true ->
  List.Forall (fun w => display_word R w = true) (split_from R word s).
Proof.
  revert word. induction s as [|c r IH]; intros word Hw Hs; cbn [split_from].
  - destruct word; constructor; [exact Hw | constructor].
  - cbn [forallb] in Hs. apply andb_prop in Hs as [Hc Hs].
    destruct (isspace R c) eqn:Hsp.
    + destruct word as [|x word]; [now apply IH|].
      constructor; [exact Hw | now apply IH].
    + apply IH; [|exact Hs].
      rewrite forallb_app, Hw. cbn. now rewrite (kept_nonspace_word _ Hc Hsp).
Qed.

Lemma split_from_one word s :
  forallb (fun c => negb (isspace R c)) s = true ->
  split_from R word s = match word ++ s with [] => [] | _ => [word ++ s] end.
Proof.
  revert word. induction s as [|c r IH]; intros word Hs; cbn [split_from].
  - rewrite app_nil_r. reflexivity.
  - cbn [forallb] in Hs. apply andb_prop in Hs as [Hc Hs].
    destruct (isspace R c); [discriminate|].
    rewrite (IH _ Hs), <- app_assoc. reflexivity.
Qed.

Lemma join_nonempty sep (words : list str) :
  words <> [] -> List.Forall (fun w => display_word R w = true) words ->
  join sep words <> [].
Proof.
  destruct words as [|w words]; [congruence|]. intros _ H.
  inversion H as [|? ? Hw _]; subst.
  destruct w as [|c w]; [discriminate|]. cbn [join].
  destruct words; discriminate.
Qed.

Lemma display_unknown : display_word R (u "Unknown") = true.
Proof. vm_compute. reflexivity. Qed.

End UtilsFacts.

(** The name shown for a player is never empty: it is one or more words,
    each word one or more characters that are word characters, dashes or
    dots and never whitespace, with a single U+0020 between two words.  For
    the empty name it is the one word Unknown. *)
Theorem clean_player_name_words R (name : str) :
  Utils.clean_player_name R name <> []
  /\ (exists words,
        words <> []
        /\ List.Forall (fun w => Utils.display_word R w = true) words
        /\ Utils.clean_player_name R name = Utils.join (PyStr.u " ") words)
  /\ Utils.clean_player_name R [] = PyStr.u "Unknown".
Proof.
  assert (Hex : exists words,
             words <> []
             /\ List.Forall (fun w => Utils.display_word R w = true) words
             /\ Utils.clean_player_name R name = Utils.join (PyStr.u " ") words).
  { assert (Hu : exists words,
               words <> []
               /\ List.Forall (fun w => Utils.display_word R w = true) words
               /\ PyStr.u "Unknown" = Utils.join (PyStr.u " ") words).
    { exists [PyStr.u "Unknown"]. split; [discriminate|]. split; [|reflexivity].
      constructor; [apply display_unknown | constructor]. }
    unfold Utils.clean_player_name. destruct name as [|c name]; [exact Hu|].
    cbv zeta.
    set (kept := Utils.sub_special R _).
    destruct (Utils.join (PyStr.u " ") (Utils.split R kept)) as [|d rest] eqn:Hj;
      [exact Hu|].
    exists (Utils.split R kept). split; [|split].
    - intros E. rewrite E in Hj. discriminate.
    - apply split_from_display; [reflexivity|].
      subst kept. unfold Utils.sub_special.
      apply forallb_forall. intros x Hx. apply filter_In in Hx. tauto.
    - now rewrite Hj. }
  split; [|split; [exact Hex | reflexivity]].
  destruct Hex as (words & Hne & Hw & ->). now apply (join_nonempty R).
Qed.

Section UtilsEdges.
Context (R : Runtime).
Import PyStr Utils.

(** strip() of a string whose two ends are not whitespace. *)
Lemma strip_fixed c (rest : str) d rrest :
  isspace R c = false -> rev (c :: rest) = d :: rrest -> isspace R d = false ->
  strip R (c :: rest) = c :: rest.
Proof.
  intros Hc Hrev Hd. unfold strip, strip_with.
  rewrite (drop_while_stop _ _ _ Hc), Hrev, (drop_while_stop _ _ _ Hd), <- Hrev.
  apply rev_involutive.
Qed.

Lemma word_chars_nonspace (w : str) :
  forallb (word_char R) w = true -> forallb (fun c => negb (isspace R c)) w = true.
Proof.
  intros H. apply forallb_forall. intros x Hx.
  apply (proj1 (forallb_forall _ _) H) in Hx. unfold word_char in Hx.
  now apply andb_prop in Hx as [-> _].
Qed.

Lemma word_chars_kept (w : str) :
  forallb (word_char R) w = true -> List.filter (kept_class R) w = w.
Proof.
  induction w as [|c w IH]; [reflexivity|]. cbn [forallb List.filter].
  intros H. apply andb_prop in H as [Hc H].
  now rewrite (word_char_kept R _ Hc), IH.
Qed.

End UtilsEdges.

(** A name is shown without the digits, whitespace, dots, dashes and hashes
    around it: when a word of word characters, dashes and dots, whose first
    and last characters are none of those, stands between two runs of
    them, the name shown is that word.  In particular such a word by itself
    is shown as it is. *)
Theorem clean_player_name_core R (before core after : str) :
  forallb (Utils.edge_class R) before = true ->
  forallb (Utils.edge_class R) after = true ->
  Utils.display_word R core = true ->
  Utils.edge_class R (hd 0%N core) = false ->
  Utils.edge_class R (hd 0%N (rev core)) = false ->
  Utils.clean_player_name R (before ++ core ++ after) = core
  /\ Utils.clean_player_name R core = core.
Proof.
  intros Hb Ha Hw Hfirst Hlast.
  destruct core as [|c core]; [discriminate|]. cbn [hd] in Hfirst.
  cbn [Utils.display_word] in Hw.
  destruct (rev (c :: core)) as [|d rcore] eqn:Hrev.
  { apply (f_equal (@length N)) in Hrev. rewrite length_rev in Hrev. discriminate. }
  cbn [hd] in Hlast.
  assert (Hgen : forall before after,
             forallb (Utils.edge_class R) before = true ->
             forallb (Utils.edge_class R) after = true ->
             Utils.clean_player_name R (before ++ (c :: core) ++ after) = c :: core).
  { clear Hb Ha before after. intros before after Hb Ha.
    unfold Utils.clean_player_name.
    destruct (before ++ (c :: core) ++ after) as [|x name] eqn:Hname.
    { destruct before; discriminate. }
    rewrite <- Hname. clear Hname x name. cbv zeta.
    assert (E1 : Utils.sub_leading_edge R (before ++ (c :: core) ++ after)
                 = (c :: core) ++ after).
    { unfold Utils.sub_leading_edge. rewrite (drop_while_all _ _ _ Hb).
      exact (drop_while_stop _ _ _ Hfirst). }
    (* strip() takes the whitespace at the end of [after] away *)
    assert (E2 : exists rest, PyStr.strip R ((c :: core) ++ after)
                              = rev (rest ++ d :: rcore)
                              /\ forallb (Utils.edge_class R) rest = true).
    { unfold PyStr.strip, PyStr.strip_with.
      change ((c :: core) ++ after) with (c :: core ++ after).
      rewrite (drop_while_stop _ _ _ (edge_class_space R _ Hfirst)).
      change (c :: core ++ after) with ((c :: core) ++ after).
      rewrite rev_app_distr, Hrev.
      destruct (drop_while_tail (PyStr.isspace R) (Utils.edge_class R) (rev after)
                  d rcore) as (rest & -> & Hrest);
        [now rewrite forallb_rev | exact (edge_class_space R _ Hlast) |].
      now exists rest. }
    destruct E2 as (rest & E2 & Hrest).
    assert (E3 : Utils.sub_trailing_edge R (rev (rest ++ d :: rcore)) = c :: core).
    { unfold Utils.sub_trailing_edge. rewrite rev_involutive.
      rewrite (drop_while_all _ _ _ Hrest), (drop_while_stop _ _ _ Hlast), <- Hrev.
      apply rev_involutive. }
    rewrite E1, E2, E3.
    rewrite (strip_fixed R c core d rcore (edge_class_space R _ Hfirst) Hrev
               (edge_class_space R _ Hlast)).
    unfold Utils.sub_special. rewrite (word_chars_kept R _ Hw).
    unfold Utils.split.
    rewrite (split_from_one R [] (c :: core) (word_chars_nonspace R _ Hw)).
    reflexivity. }
  split.
  - exact (Hgen before after Hb Ha).
  - pose proof (Hgen [] [] eq_refl eq_refl) as H.
    cbn [app] in H. now rewrite app_nil_r in H.
Qed.

Lemma clean_player_name_core_witness :
  Utils.clean_player_name Sample.runtime (PyStr.u "#1. Tank_Master-2 ")
  = PyStr.u "Tank_Master".
Proof.
  exact (proj1 (clean_player_name_core Sample.runtime (PyStr.u "#1. ")
                  (PyStr.u "Tank_Master") (PyStr.u "-2 ")
                  ltac:(vm_compute; reflexivity) ltac:(vm_compute; reflexivity)
                  ltac:(vm_compute; reflexivity) ltac:(vm_compute; reflexivity)
                  ltac:(vm_compute; reflexivity))).
Defined.

(** A name made of digits, whitespace, dots, dashes and hashes only, the
    empty name among them, is shown as Unknown: a nickname that is a number
    is not displayed. *)
Theorem clean_player_name_unknown R (name : str) :
  forallb (Utils.edge_class R) name = true ->
  Utils.clean_player_name R name = PyStr.u "Unknown".
Proof.
  intros H. unfold Utils.clean_player_name.
  assert (E : Utils.sub_leading_edge R name = []).
  { unfold Utils.sub_leading_edge.
    now rewrite <- (app_nil_r name), (drop_while_all _ _ _ H). }
  destruct name as [|c rest]; [reflexivity|]. cbv zeta. rewrite E.
  reflexivity.
Qed.

Lemma clean_player_name_unknown_witness :
  Utils.clean_player_name Sample.runtime (PyStr.u "12345") = PyStr.u "Unknown".
Proof.
  exact (clean_player_name_unknown Sample.runtime (PyStr.u "12345")
           ltac:(vm_compute; reflexivity)).
Defined.
